(** * SUNRISE Runtime Manager: session engine, parameter resolution, file staging

    A shallow embedding of the Python sources
      - [dataformats/dataformats.py]      (module [Dataformats])
      - [runtime_manager/src/parameters.py] (module [Params])
      - [runtime_manager/src/system.py]     (module [System])
      - [runtime_manager/src/session.py]    (module [Session])
    together with the statements checked against them.

    Python objects are modelled by one dynamically typed [Value]; exceptions
    by the error monad [result]; the file system and the network by an
    explicit [World] and a [Host] record of oracles. *)

From Stdlib Require Import ZArith QArith String Ascii List Bool Lia.
From stdpp Require Import base option list strings gmap.
Import ListNotations.

Local Open Scope string_scope.
Local Open Scope Z_scope.

(* ===================================================================== *)
(** ** Python runtime: exceptions, strings, numbers, paths               *)
(* ===================================================================== *)
Module Py.

(** The exception classes that the modelled code can raise or let
    escape.  [UnicodeEncodeError] is a subclass of [ValueError] in
    Python, [FileNotFoundError], [URLError], [SameFileError] and
    [IsADirectoryError] are subclasses of [OSError]. *)
Inductive Exn : Type :=
| ValueError (msg : string)
| UnicodeEncodeError
| UnicodeDecodeError
| TypeError
| AttributeError
| IndexError
| KeyError
| NameError (msg : string)
| FileNotFoundError (msg : string)
| SameFileError
| IsADirectoryError
| URLError (msg : string)
| ValidationError (msg : string)
| LockedSessionError
| InvalidSessionError (msg : string)
| UnexpectedSessionState (msg : string).

(** [isinstance(exc, ValueError)] *)
Definition is_ValueError (e : Exn) : bool :=
  match e with
  | ValueError _ | UnicodeEncodeError | UnicodeDecodeError => true
  | _ => false
  end.

Inductive result (A : Type) : Type :=
| Ok (a : A)
| Raise (e : Exn).
Arguments Ok {A} a.
Arguments Raise {A} e.

#[global] Instance result_ret : MRet result := fun A a => Ok a.
#[global] Instance result_bind : MBind result := fun A B f m =>
  match m with
  | Ok a => f a
  | Raise e => Raise e
  end.

Definition succeeded {A} (r : result A) : bool :=
  match r with Ok _ => true | Raise _ => false end.

(** *** Strings.  A [string] is a sequence of code points below 256
    (the Latin-1 block of Unicode), which is all the modelled code
    distinguishes: ASCII against the rest. *)

Definition code (c : ascii) : N := N_of_ascii c.

Definition is_ascii_char (c : ascii) : bool := (code c <? 128)%N.

(** [str.lower] on one code point: [A-Z] and the Latin-1 capitals
    U+00C0..U+00DE without the multiplication sign U+00D7. *)
Definition lower_char (c : ascii) : ascii :=
  let n := code c in
  if ((65 <=? n) && (n <=? 90))%N then ascii_of_N (n + 32)
  else if ((192 <=? n) && (n <=? 222) && negb (n =? 215))%N then ascii_of_N (n + 32)
  else c.

Fixpoint lower (s : string) : string :=
  match s with
  | EmptyString => EmptyString
  | String c r => String (lower_char c) (lower r)
  end.

(** [s.startswith(p)] *)
Definition startswith (p s : string) : bool := String.prefix p s.

(** [s.startswith((p1, ..., pn))] *)
Definition startswith_any (ps : list string) (s : string) : bool :=
  existsb (fun p => startswith p s) ps.

(** [s.endswith(p)] for a one-character [p]. *)
Fixpoint endswith_char (c : ascii) (s : string) : bool :=
  match s with
  | EmptyString => false
  | String d EmptyString => Ascii.eqb c d
  | String _ r => endswith_char c r
  end.

(** [s.split(sep)] for a one-character separator: never empty. *)
Fixpoint split (sep : ascii) (s : string) : list string :=
  match s with
  | EmptyString => [EmptyString]
  | String c r =>
      if Ascii.eqb c sep then EmptyString :: split sep r
      else match split sep r with
           | [] => [String c EmptyString]
           | h :: t => String c h :: t
           end
  end.

(** [l[-k]] for [k >= 1]: the k-th element from the end. *)
Definition index_from_end {A} (l : list A) (k : nat) : result A :=
  match k with
  | O => Raise IndexError
  | S k' => match nth_error (rev l) k' with
            | Some a => Ok a
            | None => Raise IndexError
            end
  end.

(** [l[0]] *)
Definition index_first {A} (l : list A) : result A :=
  match l with
  | [] => Raise IndexError
  | a :: _ => Ok a
  end.

(** [x in s] for two strings: [x] occurs in [s] as a substring. *)
Fixpoint str_contains (x s : string) : bool :=
  String.prefix x s ||
  match s with
  | EmptyString => false
  | String _ r => str_contains x r
  end.

(** [bytes(s, 'ascii')]: raises [UnicodeEncodeError] on a code point
    that is not ASCII. *)
Definition bytes_ascii (s : string) : result (list Byte.byte) :=
  if forallb is_ascii_char (list_ascii_of_string s)
  then Ok (list_byte_of_string s)
  else Raise UnicodeEncodeError.

(** [b.decode('utf-8')], on the part the model can express: bytes
    that are all ASCII decode to themselves; anything else is outside
    the strings of this model and reported as [UnicodeDecodeError]. *)
Definition decode_utf8 (b : list Byte.byte) : result string :=
  let s := string_of_list_byte b in
  if forallb is_ascii_char (list_ascii_of_string s)
  then Ok s
  else Raise UnicodeDecodeError.

(** *** Paths: [posixpath.join].  A [None] argument makes [os.fspath]
    raise [TypeError]. *)
Definition join2 (path b : string) : string :=
  if startswith "/" b then b
  else if (String.eqb path "" || endswith_char "/" path)%bool then path ++ b
  else path ++ "/" ++ b.

Fixpoint fspath_all (p : list (option string)) : result (list string) :=
  match p with
  | [] => Ok []
  | None :: _ => Raise TypeError
  | Some b :: r =>
      match fspath_all r with
      | Ok bs => Ok (b :: bs)
      | Raise e => Raise e
      end
  end.

Definition os_path_join (a : option string) (p : list (option string)) : result string :=
  match a with
  | None => Raise TypeError
  | Some a' =>
      match fspath_all p with
      | Ok bs => Ok (fold_left join2 bs a')
      | Raise e => Raise e
      end
  end.

(** *** Numbers.  A Python [float] is a finite rational (every double
    is one), an infinity or NaN; only comparisons are used, and Python
    compares [int] with [float] exactly. *)
Inductive Float : Type :=
| Finite (q : Q)
| Inf (negative : bool)
| NaN.

Definition float_le (a b : Float) : bool :=
  match a, b with
  | NaN, _ | _, NaN => false
  | Inf true, _ => true
  | _, Inf false => true
  | Inf false, _ => false
  | _, Inf true => false
  | Finite p, Finite q => Qle_bool p q
  end.

Definition float_eq (a b : Float) : bool :=
  match a, b with
  | Finite p, Finite q => Qeq_bool p q
  | Inf x, Inf y => Bool.eqb x y
  | _, _ => false
  end.

Definition float_of_int (z : Z) : Float := Finite (inject_Z z).

End Py.
Export Py.

(* ===================================================================== *)
(** ** dataformats/dataformats.py                                        *)
(* ===================================================================== *)
Module Dataformats.

(** expected format identifiers *)
Definition SYSCFG_DATAFORMAT_IDENTIFIER : string := "syscfg:0.3".
Definition SYSDEF_DATAFORMAT_IDENTIFIER : string := "sysdef:0.4".
Definition SESSIONINFO_DATAFORMAT_IDENTIFIER : string := "sessioninfo:0.3".

(** [class State(str, enum.Enum)] *)
Inductive State : Type :=
| CREATED | BUILDING | BUILT | FAILED_BUILD | RUNNING | RAN | FAILED_RUN.

#[global] Instance State_eq_dec : EqDecision State.
Proof. solve_decision. Defined.

(** The string a member is, [State.X.value]. *)
Definition State_value (s : State) : string :=
  match s with
  | CREATED => "created"
  | BUILDING => "building"
  | BUILT => "built"
  | FAILED_BUILD => "failed build"
  | RUNNING => "running"
  | RAN => "ran"
  | FAILED_RUN => "failed run"
  end.

(** [str(State.X)], which [Enum.__str__] gives as the member's name. *)
Definition State_str (s : State) : string :=
  match s with
  | CREATED => "State.CREATED"
  | BUILDING => "State.BUILDING"
  | BUILT => "State.BUILT"
  | FAILED_BUILD => "State.FAILED_BUILD"
  | RUNNING => "State.RUNNING"
  | RAN => "State.RAN"
  | FAILED_RUN => "State.FAILED_RUN"
  end.

(** [x in (s1, ..., sn)] on states *)
Definition State_in (x : State) (l : list State) : bool :=
  bool_decide (x ∈ l).

(** [class ParameterGroup(str, enum.Enum)] *)
Inductive ParameterGroup : Type := COMMON | BUILD | RUN.

#[global] Instance ParameterGroup_eq_dec : EqDecision ParameterGroup.
Proof. solve_decision. Defined.

Definition ParameterGroup_value (g : ParameterGroup) : string :=
  match g with
  | COMMON => "common_parameters"
  | BUILD => "build_parameters"
  | RUN => "run_parameters"
  end.

(** [ParameterGroup(s)]: lookup of a member by value, [ValueError] when
    there is none. *)
Definition ParameterGroup_of_value (s : string) : result ParameterGroup :=
  if String.eqb s "common_parameters" then Ok COMMON
  else if String.eqb s "build_parameters" then Ok BUILD
  else if String.eqb s "run_parameters" then Ok RUN
  else Raise (ValueError (s ++ " is not a valid ParameterGroup")).

(** The primitive values [Union[str, bool, int, float]]. *)
Inductive Prim : Type :=
| PStr (s : string)
| PBool (b : bool)
| PInt (z : Z)
| PFloat (f : Float).

Inductive PrimType : Type := TStr | TBool | TInt | TFloat.

#[global] Instance PrimType_eq_dec : EqDecision PrimType.
Proof. solve_decision. Defined.

(** [type(p)] *)
Definition type_of (p : Prim) : PrimType :=
  match p with
  | PStr _ => TStr
  | PBool _ => TBool
  | PInt _ => TInt
  | PFloat _ => TFloat
  end.

(** [isinstance(p, t)]: [bool] is a subclass of [int]. *)
Definition isinstance (p : Prim) (t : PrimType) : bool :=
  match t, p with
  | TStr, PStr _ => true
  | TBool, PBool _ => true
  | TInt, PInt _ => true
  | TInt, PBool _ => true
  | TFloat, PFloat _ => true
  | _, _ => false
  end.

(** The number a primitive is in a comparison: [True] is 1, [False]
    is 0, an [int] is embedded exactly. *)
Definition as_float (p : Prim) : option Float :=
  match p with
  | PStr _ => None
  | PBool b => Some (float_of_int (Z.b2z b))
  | PInt z => Some (float_of_int z)
  | PFloat f => Some f
  end.

(** [a == b] *)
Definition py_eq (a b : Prim) : bool :=
  match a, b with
  | PStr s, PStr t => String.eqb s t
  | _, _ =>
      match as_float a, as_float b with
      | Some x, Some y => float_eq x y
      | _, _ => false
      end
  end.

(** [a <= b] between numbers (never reached with a string). *)
Definition py_le (a b : Prim) : result bool :=
  match as_float a, as_float b with
  | Some x, Some y => Ok (float_le x y)
  | _, _ => Raise TypeError
  end.

(** [x in l] *)
Definition py_in (x : Prim) (l : list Prim) : bool := existsb (py_eq x) l.

(** [class SysDefParameterEnum]:
    [values: Union[list[str], list[bool], list[int], list[float]]] *)
Inductive EnumValues : Type :=
| EStr (l : list string)
| EBool (l : list bool)
| EInt (l : list Z)
| EFloat (l : list Float).

Definition elements (v : EnumValues) : list Prim :=
  match v with
  | EStr l => PStr <$> l
  | EBool l => PBool <$> l
  | EInt l => PInt <$> l
  | EFloat l => PFloat <$> l
  end.

(** The element type of the list. *)
Definition enum_type (v : EnumValues) : PrimType :=
  match v with
  | EStr _ => TStr
  | EBool _ => TBool
  | EInt _ => TInt
  | EFloat _ => TFloat
  end.

(** [Union[int, float]] *)
Inductive Num : Type := NumInt (z : Z) | NumFloat (f : Float).

Definition Num_prim (n : Num) : Prim :=
  match n with NumInt z => PInt z | NumFloat f => PFloat f end.

(** [meta: Union[SysDefParameterEnum, SysDefParameterRange,
    SysDefParameterFile, None]] *)
Inductive Meta : Type :=
| SysDefParameterEnum (values : EnumValues)
| SysDefParameterRange (lower upper : Num)
| SysDefParameterFile (is_file : bool).

(** [class SysDefCmplxParameter] *)
Record SysDefCmplxParameter : Type := {
  default_value : Prim;
  meta : option Meta;
  description : option string
}.

Definition is_fileparam (c : SysDefCmplxParameter) : bool :=
  match meta c with Some (SysDefParameterFile _) => true | _ => false end.

(** [SysDefCmplxParameter.check_default_value], the model validator
    pydantic runs when the definition document is parsed.  The text of
    the offending value that the messages interpolate is left out. *)
Definition check_default_value (self : SysDefCmplxParameter)
  : result SysDefCmplxParameter :=
  match meta self with
  | Some (SysDefParameterEnum values) =>
      first ← index_first (elements values);
      if negb (isinstance (default_value self) (type_of first))
      then Raise (ValueError "Default value of enum-parameter has unexpected type")
      else if negb (py_in (default_value self) (elements values))
      then Raise (ValueError "Unexpected default value of enum-parameter")
      else Ok self
  | Some (SysDefParameterRange lower upper) =>
      if negb (isinstance (default_value self) TInt || isinstance (default_value self) TFloat)
      then Raise (ValueError "Default value of range-parameter has unexpected type")
      else
        lo ← py_le (Num_prim lower) (default_value self);
        hi ← (if lo then py_le (default_value self) (Num_prim upper) else Ok false);
        if negb (lo && hi)
        then Raise (ValueError "Default value of range-parameter is not inside boundaries")
        else Ok self
  | Some (SysDefParameterFile _) =>
      if negb (isinstance (default_value self) TStr)
      then Raise (ValueError "Default value of file-parameter is not a string")
      else Ok self
  | None => Ok self
  end.

(** [class SysCfgUrlParameter] *)
Record SysCfgUrlParameter : Type := {
  url : string;
  credentials : option string
}.

(** Every object a parameter value can be: [None], a primitive, a
    [SysCfgUrlParameter] (configuration side), a
    [SysDefCmplxParameter] (definition side), or the [dict] that
    [UpdateParameterItem.value] admits and that the code never looks
    into. *)
Inductive Value : Type :=
| VNone
| VPrim (p : Prim)
| VUrl (u : SysCfgUrlParameter)
| VCmplx (c : SysDefCmplxParameter)
| VDict (items : list (string * Prim)).

Definition VStr (s : string) : Value := VPrim (PStr s).
Definition VBool (b : bool) : Value := VPrim (PBool b).
Definition VInt (z : Z) : Value := VPrim (PInt z).

(** [isinstance(v, bool)] *)
Definition is_bool (v : Value) : bool :=
  match v with VPrim (PBool _) => true | _ => false end.

(** [class SysDefResult]; the artifact type is a string of
    [resultformats.ResultTypes]. *)
Record SysDefResult : Type := {
  type : string;
  path : string;
  enabled_by : option (list string);
  result_description : option string
}.

(** *** The [dataformat] field.  What a document holds under the key,
    before validation. *)
Inductive RawField : Type :=
| Absent
| RawNull
| RawStr (s : string)
| RawOther.

(** pydantic on a field declared [Optional[str] = default]: a missing
    key takes the default, [null] and any string are taken as they
    are, anything else is not a string. *)
Definition validate_optional_str (default : string) (raw : RawField)
  : result (option string) :=
  match raw with
  | Absent => Ok (Some default)
  | RawNull => Ok None
  | RawStr s => Ok (Some s)
  | RawOther => Raise (ValidationError "Input should be a valid string")
  end.

(** pydantic on a field declared [typing.Literal[lit] = lit], as
    [SysRef.dataformat] of system.py is. *)
Definition validate_literal (lit : string) (raw : RawField) : result string :=
  match raw with
  | Absent => Ok lit
  | RawStr s => if String.eqb s lit then Ok s
                else Raise (ValidationError ("Input should be '" ++ lit ++ "'"))
  | _ => Raise (ValidationError ("Input should be '" ++ lit ++ "'"))
  end.

(** [SysDef.dataformat: Optional[str] = SYSDEF_DATAFORMAT_IDENTIFIER] *)
Definition SysDef_dataformat (raw : RawField) : result (option string) :=
  validate_optional_str SYSDEF_DATAFORMAT_IDENTIFIER raw.

(** [SysCfg.dataformat: Optional[str] = SYSCFG_DATAFORMAT_IDENTIFIER] *)
Definition SysCfg_dataformat (raw : RawField) : result (option string) :=
  validate_optional_str SYSCFG_DATAFORMAT_IDENTIFIER raw.

(** [SysRef.dataformat: typing.Literal['sysref:1.0'] = 'sysref:1.0'] *)
Definition SysRef_dataformat (raw : RawField) : result string :=
  validate_literal "sysref:1.0" raw.

End Dataformats.
Export Dataformats.

(* ===================================================================== *)
(** ** The world outside the process                                     *)
(* ===================================================================== *)
Module Env.

(** The regular files of the file system, by path.  Directories are
    implicit, and permissions or a full disk are outside the model. *)
Abbreviation FS := (gmap string (list Byte.byte)).

(** What [urllib.request.urlopen(request).read()] comes back with. *)
Inductive Fetch : Type :=
| Fetched (content : list Byte.byte)
| HTTPError (text : string)       (* [urllib.error.HTTPError], with its [str] *)
| Failed (e : Exn).               (* any other exception, e.g. [URLError] *)

Record Host : Type := {
  (** [constants.SESSIONS_BASE_DIR], read from the environment *)
  SESSIONS_BASE_DIR : string;
  (** the answer of the network to a request for a URL with an
      optional [Authorization] header *)
  urlopen : string -> option string -> Fetch;
  (** [os.path.isfile(fd)] for an integer, which [os.stat] takes as an
      open file descriptor of the process, and what reading it gives *)
  fd_isfile : Z -> bool;
  fd_read : Z -> list Byte.byte;
  (** [str(b)] of a [bytes] object *)
  bytes_str : list Byte.byte -> string
}.

(** [constants.CONTAINER_WORKDIR] *)
Definition CONTAINER_WORKDIR : string := "/sysapi".

(** [shutil.copyfile(src, dst)] for an existing regular file [src]. *)
Definition copyfile (src dst : string) (fs : FS) : FS * result unit :=
  if String.eqb src dst then (fs, Raise SameFileError)
  else match fs !! src with
       | Some content => (<[dst := content]> fs, Ok ())
       | None => (fs, Raise (FileNotFoundError src))
       end.

(** [with open(path, 'wb') as f: f.write(content)]; a path that ends
    in the separator names a directory. *)
Definition write_file (path : string) (content : list Byte.byte) (fs : FS)
  : FS * result unit :=
  if endswith_char "/" path then (fs, Raise IsADirectoryError)
  else (<[path := content]> fs, Ok ()).

End Env.
Export Env.

(* ===================================================================== *)
(** ** runtime_manager/src/parameters.py                                 *)
(* ===================================================================== *)
Module Params.

(** [class FileState(enum.Enum)] *)
Inductive FileState : Type := DEFAULT | PENDING | STAGED | AVAILABLE.

#[global] Instance FileState_eq_dec : EqDecision FileState.
Proof. solve_decision. Defined.

(** [class FileData].  The path fields hold whatever object the code
    stores there: the dataclass annotations are not enforced. *)
Record FileData : Type := {
  file_name : option string;
  file_state : FileState;
  file_path_default : Value;
  file_path_origin : option Value;
  file_path_local : option string;
  file_path_container : option Value;
  credentials : option (list Byte.byte)
}.

(** [class Parameter] (the logger left out) *)
Record Param : Type := {
  name : string;
  value : Value;
  overwritten : bool;
  meta_data : option Meta;
  file_data : option FileData;
  default_value : Value
}.

Definition set_value (v : Value) (p : Param) : Param :=
  {| name := name p; value := v; overwritten := overwritten p;
     meta_data := meta_data p; file_data := file_data p;
     default_value := default_value p |}.

Definition set_file_data (fd : option FileData) (p : Param) : Param :=
  {| name := name p; value := value p; overwritten := overwritten p;
     meta_data := meta_data p; file_data := fd;
     default_value := default_value p |}.

(** [Parameter.__parse_file_parameter(param_subentry_value,
    sysdef_param_path_value)].  [param_subentry_value] is the
    [is_file] field, a [bool] by its declaration, so the branch that
    raises on a non-boolean is not reachable. *)
Definition parse_file_parameter (self : Param) (param_subentry_value : bool)
    (sysdef_param_path_value : Value) : result Param :=
  if param_subentry_value then
    let self := {| name := name self; value := value self;
                   overwritten := overwritten self; meta_data := meta_data self;
                   file_data := file_data self;
                   default_value := sysdef_param_path_value |} in
    if overwritten self then
      match value self with
      | VUrl u =>
          creds ← match Dataformats.credentials u with
                  | Some c => b ← bytes_ascii c; Ok (Some b)
                  | None => Ok None
                  end;
          Ok (set_file_data (Some {|
                file_name := None; file_state := PENDING;
                file_path_default := sysdef_param_path_value;
                file_path_origin := Some (VStr (url u));
                file_path_local := None; file_path_container := None;
                credentials := creds |}) self)
      | v =>
          Ok (set_file_data (Some {|
                file_name := None; file_state := PENDING;
                file_path_default := sysdef_param_path_value;
                file_path_origin := Some v;
                file_path_local := None; file_path_container := None;
                credentials := None |}) self)
      end
    else
      Ok (set_file_data (Some {|
            file_name := None; file_state := DEFAULT;
            file_path_default := sysdef_param_path_value;
            file_path_origin := None;
            file_path_local := None;
            file_path_container := Some (default_value self);
            credentials := None |}) self)
  else Ok self.

(** [Parameter.__init__(name, value, sysdef_param_value, overwritten)] *)
Definition init (name0 : string) (value0 sysdef_param_value : Value)
    (overwritten0 : bool) : result Param :=
  let self := {| name := name0; value := value0; overwritten := overwritten0;
                 meta_data := None; file_data := None;
                 default_value := sysdef_param_value |} in
  match sysdef_param_value with
  | VCmplx c =>
      let dv := VPrim (Dataformats.default_value c) in
      let self := {| name := name0;
                     value := if overwritten0 then value0 else dv;
                     overwritten := overwritten0;
                     meta_data := None; file_data := None;
                     default_value := dv |} in
      match meta c with
      | Some m =>
          let self := {| name := name self; value := value self;
                         overwritten := overwritten self; meta_data := Some m;
                         file_data := None; default_value := default_value self |} in
          match m with
          | SysDefParameterFile is_file =>
              parse_file_parameter self is_file (default_value self)
          | _ => Ok self
          end
      | None => Ok self
      end
  | _ => Ok self
  end.

(** [os.path.isfile(x)] on whatever object [x] is. *)
Definition isfile (h : Host) (fs : FS) (x : option Value) : result bool :=
  match x with
  | Some (VPrim (PStr s)) => Ok (bool_decide (is_Some (fs !! s)))
  | Some (VPrim (PInt z)) => Ok (fd_isfile h z)
  | Some (VPrim (PBool b)) => Ok (fd_isfile h (Z.b2z b))
  | _ => Raise TypeError
  end.

(** The directory [<base>/<session>/inputs/<group>/<parameter>] *)
Definition input_dir (h : Host) (session_id : string) (group : ParameterGroup)
    (pname : string) : result string :=
  os_path_join (Some (SESSIONS_BASE_DIR h))
    [Some session_id; Some "inputs"; Some (ParameterGroup_value group); Some pname].

(** The path of the file as the container sees it *)
Definition mounted_path (group : ParameterGroup) (pname : string)
    (fname : option string) : result string :=
  os_path_join (Some CONTAINER_WORKDIR)
    [Some "inputs"; Some (ParameterGroup_value group); Some pname; fname].

Definition with_staged (fd : FileData) (fname : option string)
    (container local_ : string) : FileData :=
  {| file_name := fname; file_state := STAGED;
     file_path_default := file_path_default fd;
     file_path_origin := file_path_origin fd;
     file_path_local := Some local_;
     file_path_container := Some (VStr container);
     credentials := credentials fd |}.

Definition with_file_name (fd : FileData) (fname : option string) : FileData :=
  {| file_name := fname; file_state := file_state fd;
     file_path_default := file_path_default fd;
     file_path_origin := file_path_origin fd;
     file_path_local := file_path_local fd;
     file_path_container := file_path_container fd;
     credentials := credentials fd |}.

(** [Parameter.process_input_file(session_id, group, file_name, file)].
    [file] is a [bytes] object (the API) or a path (native use). *)
Inductive Upload : Type :=
| UploadBytes (content : list Byte.byte)
| UploadPath (p : string).

Definition process_input_file (h : Host) (session_id : string)
    (group : ParameterGroup) (fname : option string) (file : Upload)
    (self : Param) (fs : FS) : (Param * FS) * result unit :=
  match file_data self with
  | None =>
      ((self, fs),
       Raise (NameError ("Selected parameter '" ++ name self ++
                         "' is not a file and cannot be uploaded with a file.")))
  | Some fd =>
      match file_path_container fd, file_path_origin fd with
      | None, None =>
          ((self, fs),
           Raise (ValueError ("Corrupted parameter '" ++ name self ++
                              "': Marked as file parameter but has no valid path.")))
      | _, _ =>
          match (destination_path ← input_dir h session_id group (name self);
                 os_path_join (Some destination_path) [fname]) with
          | Raise e => ((self, fs), Raise e)
          | Ok destination_file =>
              let file_str := match file with
                              | UploadBytes b => bytes_str h b
                              | UploadPath p => p
                              end in
              let written :=
                if bool_decide (is_Some (fs !! file_str))
                then copyfile file_str destination_file fs
                else match file with
                     | UploadBytes b => write_file destination_file b fs
                     | UploadPath _ =>
                         (* [open(.., 'wb')] creates the file, [write(str)] raises *)
                         match write_file destination_file [] fs with
                         | (fs', Ok _) => (fs', Raise TypeError)
                         | r => r
                         end
                     end in
              match written with
              | (fs', Raise e) => ((self, fs'), Raise e)
              | (fs', Ok _) =>
                  let fd1 := with_file_name fd fname in
                  let self1 := set_file_data (Some fd1) self in
                  match mounted_path group (name self) fname with
                  | Raise e =>
                      ((set_file_data
                          (Some {| file_name := fname; file_state := STAGED;
                                   file_path_default := file_path_default fd;
                                   file_path_origin := file_path_origin fd;
                                   file_path_local := file_path_local fd;
                                   file_path_container := file_path_container fd;
                                   credentials := credentials fd |}) self, fs'),
                       Raise e)
                  | Ok target_mounted_dir =>
                      ((set_file_data
                          (Some (with_staged fd1 fname target_mounted_dir destination_file))
                          self1, fs'),
                       Ok ())
                  end
              end
          end
      end
  end.

(** [Parameter.reset()] *)
Definition reset (self : Param) (fs : FS) : Param * FS :=
  match file_data self with
  | Some fd =>
      let fs' := match file_path_local fd with
                 | Some l => if bool_decide (is_Some (fs !! l)) then delete l fs else fs
                 | None => fs
                 end in
      (set_file_data
         (Some {| file_name := None; file_state := DEFAULT;
                  file_path_default := file_path_default fd;
                  file_path_origin := None;
                  file_path_local := None;
                  file_path_container := Some (file_path_default fd);
                  credentials := None |}) self,
       fs')
  | None => (set_value (default_value self) self, fs)
  end.

(** [Parameter.mark_file_parameter_available()] *)
Definition mark_file_parameter_available (self : Param) : Param :=
  match file_data self with
  | Some fd =>
      if bool_decide (file_state fd = STAGED)
      then set_file_data
             (Some {| file_name := file_name fd; file_state := AVAILABLE;
                      file_path_default := file_path_default fd;
                      file_path_origin := file_path_origin fd;
                      file_path_local := file_path_local fd;
                      file_path_container := file_path_container fd;
                      credentials := credentials fd |}) self
      else self
  | None => self
  end.

(** [new_value.lower()]: only a [str] has the method. *)
Definition value_lower (v : Value) : result string :=
  match v with
  | VPrim (PStr s) => Ok (lower s)
  | _ => Raise AttributeError
  end.

(** [Parameter.update_parameter(new_value)] *)
Definition update_parameter (new_value : Value) (self : Param) : result Param :=
  if is_bool (value self) then
    if is_bool new_value then Ok (set_value new_value self)
    else
      l ← value_lower new_value;
      if String.eqb l "true" then Ok (set_value (VBool true) self)
      else Ok (set_value (VBool false) self)
  else Ok (set_value new_value self).

(** The string an origin is, when it has [startswith] and [split]. *)
Definition origin_str (o : option Value) : result string :=
  match o with
  | Some (VPrim (PStr s)) => Ok s
  | _ => Raise AttributeError
  end.

(** [shutil.copyfile(origin, dst)] where [origin] passed [isfile]. *)
Definition copy_origin (h : Host) (o : option Value) (dst : string) (fs : FS)
  : FS * result unit :=
  match o with
  | Some (VPrim (PStr s)) => copyfile s dst fs
  | Some (VPrim (PInt z)) => write_file dst (fd_read h z) fs
  | Some (VPrim (PBool b)) => write_file dst (fd_read h (Z.b2z b)) fs
  | _ => (fs, Raise TypeError)
  end.

(** The [Authorization] header of the request: a bearer credential
    when the file data has credentials, no header otherwise. *)
Definition authorization_header (fd : FileData) : result (option string) :=
  match credentials fd with
  | Some c => t ← decode_utf8 c; Ok (Some ("Bearer " ++ t))
  | None => Ok None
  end.

(** The body of the [try] block of the download branch: the state it
    leaves and either the destination file or the exception. *)
Definition download (h : Host) (session_id : string) (group : ParameterGroup)
    (origin : string) (self : Param) (fd : FileData) (fs : FS)
  : (Param * FS) * result string :=
  match authorization_header fd with
  | Raise e => ((self, fs), Raise e)
  | Ok authorization =>
      match urlopen h origin authorization with
      | HTTPError text =>
          ((self, fs),
           Raise (FileNotFoundError
                    ("Unable to download file from URL '" ++ origin ++
                     "' for the parameter '" ++ name self ++ "': " ++ text)))
      | Failed e => ((self, fs), Raise e)
      | Fetched content =>
          match input_dir h session_id group (name self) with
          | Raise e => ((self, fs), Raise e)
          | Ok destination_path =>
              match index_from_end (split "/" origin) 1 with
              | Raise e => ((self, fs), Raise e)
              | Ok fname =>
                  let self1 := set_file_data (Some (with_file_name fd (Some fname))) self in
                  match os_path_join (Some destination_path) [Some fname] with
                  | Raise e => ((self1, fs), Raise e)
                  | Ok destination_file =>
                      match write_file destination_file content fs with
                      | (fs', Raise e) => ((self1, fs'), Raise e)
                      | (fs', Ok _) => ((self1, fs'), Ok destination_file)
                      end
                  end
              end
          end
      end
  end.

(** [Parameter.stage_file(session_id, group)] *)
Definition stage_file (h : Host) (session_id : string) (group : ParameterGroup)
    (self : Param) (fs : FS) : (Param * FS) * result unit :=
  match file_data self with
  | None => ((self, fs), Ok ())
  | Some fd =>
      match file_state fd with
      | PENDING =>
          match isfile h fs (file_path_origin fd) with
          | Raise e => ((self, fs), Raise e)
          | Ok true =>
              match (destination_path ← input_dir h session_id group (name self);
                     os_path_join (Some destination_path) [file_name fd]) with
              | Raise e => ((self, fs), Raise e)
              | Ok destination_file =>
                  match copy_origin h (file_path_origin fd) destination_file fs with
                  | (fs', Raise e) => ((self, fs'), Raise e)
                  | (fs', Ok _) =>
                      match mounted_path group (name self) (file_name fd) with
                      | Raise e => ((self, fs'), Raise e)
                      | Ok target_mounted_dir =>
                          ((set_file_data
                              (Some (with_staged fd (file_name fd)
                                       target_mounted_dir destination_file)) self,
                            fs'),
                           Ok ())
                      end
                  end
              end
          | Ok false =>
              match origin_str (file_path_origin fd) with
              | Raise e => ((self, fs), Raise e)
              | Ok origin =>
                  if startswith_any ["http://"; "https://"; "ftp://"] origin then
                    match download h session_id group origin self fd fs with
                    | (st, Raise e) => (st, Raise e)
                    | ((self1, fs'), Ok destination_file) =>
                        let fname := match file_data self1 with
                                     | Some fd1 => file_name fd1
                                     | None => None
                                     end in
                        match mounted_path group (name self1) fname with
                        | Raise e => ((self1, fs'), Raise e)
                        | Ok target_mounted_dir =>
                            ((set_file_data
                                (Some (with_staged fd fname
                                         target_mounted_dir destination_file)) self1,
                              fs'),
                             Ok ())
                        end
                    end
                  else
                    ((self, fs),
                     Raise (FileNotFoundError
                              ("Cannot make file parameter '" ++ name self ++
                               "' with origin file path '" ++ origin ++
                               "' available. Use 'add' API call to upload the file.")))
              end
          end
      | _ => ((self, fs), Ok ())
      end
  end.

End Params.

(* ===================================================================== *)
(** ** runtime_manager/src/system.py                                     *)
(* ===================================================================== *)
Module System.
Import Params.

(** A [dict] with string keys, in insertion order.  The keys of a
    Python [dict] are distinct; statements that need it assume
    [NoDup (dict_keys d)]. *)
Definition dict (V : Type) : Type := list (string * V).

Definition dict_keys {V} (d : dict V) : list string := fst <$> d.

(** [k in d] *)
Definition dict_has {V} (k : string) (d : dict V) : bool :=
  existsb (String.eqb k) (dict_keys d).

(** [d[k]], [None] standing for [KeyError] *)
Fixpoint dict_get {V} (k : string) (d : dict V) : option V :=
  match d with
  | [] => None
  | (k', v) :: r => if String.eqb k k' then Some v else dict_get k r
  end.

(** The loop of [System.__parse_parameter_group] that checks that all
    parameters in SysCfg are defined in SysDef. *)
Fixpoint check_syscfg_names (sysdef_parameters : dict Value) (names : list string)
  : result unit :=
  match names with
  | [] => Ok ()
  | param_name :: r =>
      if negb (dict_has param_name sysdef_parameters)
      then Raise (ValueError ("Cannot find parameter '" ++ param_name ++
                              "' of SysCfg file in SysDef file!"))
      else check_syscfg_names sysdef_parameters r
  end.

(** The loop over [sysdef_parameters.items()]; [all_parameter_names]
    are the names met so far. *)
Fixpoint parse_entries (syscfg_parameters : option (dict Value))
    (all_parameter_names : list string) (items : dict Value)
  : result (list Param) :=
  match items with
  | [] => Ok []
  | (param_name, sysdef_param_value) :: r =>
      if existsb (String.eqb param_name) all_parameter_names
      then Raise (ValueError ("Parameter '" ++ param_name ++
             "' is multiple times defined. Parameter names must be unique inside a parameter group."))
      else
        let override :=
          match syscfg_parameters with
          | Some cfg =>
              if dict_has param_name cfg then
                match dict_get param_name cfg with
                | Some VNone | None => None
                | Some v => Some v
                end
              else None
          | None => None
          end in
        parameter ← match override with
                    | Some param_value =>
                        init param_name param_value sysdef_param_value true
                    | None =>
                        init param_name sysdef_param_value sysdef_param_value false
                    end;
        rest ← parse_entries syscfg_parameters
                 (all_parameter_names ++ [param_name]) r;
        Ok (parameter :: rest)
  end.

(** [System.__parse_parameter_group(sysdef_parameters, syscfg_parameters)] *)
Definition parse_parameter_group (sysdef_parameters syscfg_parameters : option (dict Value))
  : result (list Param) :=
  _ ← match syscfg_parameters with
      | Some cfg =>
          match sysdef_parameters with
          | None =>
              if (0 <? length cfg)%nat
              then Raise (ValueError "Cannot find parameter group of SysCfg file in SysDef file!")
              else check_syscfg_names [] (dict_keys cfg)
          | Some def => check_syscfg_names def (dict_keys cfg)
          end
      | None => Ok ()
      end;
  match sysdef_parameters with
  | None => Ok []
  | Some def => parse_entries syscfg_parameters [] def
  end.

(** [class SystemData]: the parameters of the three groups and the
    result definitions. *)
Record SystemData : Type := {
  common_parameters : list Param;
  build_parameters : list Param;
  run_parameters : list Param;
  results : dict SysDefResult
}.

(** [data.parameters[group]] *)
Definition parameters (d : SystemData) (g : ParameterGroup) : list Param :=
  match g with
  | COMMON => common_parameters d
  | BUILD => build_parameters d
  | RUN => run_parameters d
  end.

Definition set_parameters (g : ParameterGroup) (l : list Param) (d : SystemData)
  : SystemData :=
  {| common_parameters := if bool_decide (g = COMMON) then l else common_parameters d;
     build_parameters := if bool_decide (g = BUILD) then l else build_parameters d;
     run_parameters := if bool_decide (g = RUN) then l else run_parameters d;
     results := results d |}.

(** [class System], as far as the session looks at it *)
Record System : Type := {
  has_build : bool;
  data : SystemData
}.

(** The search of [System.get_parameter] in one group *)
Fixpoint find_parameter (parameter_name : string) (l : list Param) : option Param :=
  match l with
  | [] => None
  | parameter :: r =>
      if String.eqb (name parameter) parameter_name then Some parameter
      else find_parameter parameter_name r
  end.

(** [System.get_parameter(parameter_group, parameter_name)] *)
Definition get_parameter (self : System) (parameter_group : ParameterGroup)
    (parameter_name : string) : option Param :=
  find_parameter parameter_name (parameters (data self) parameter_group).

(** The object [get_parameter] returns is the one in the list: a
    method called on it changes the list element it is. *)
Fixpoint store_parameter (parameter_name : string) (p' : Param) (l : list Param)
  : list Param :=
  match l with
  | [] => []
  | parameter :: r =>
      if String.eqb (name parameter) parameter_name then p' :: r
      else parameter :: store_parameter parameter_name p' r
  end.

Definition put_parameter (parameter_group : ParameterGroup) (parameter_name : string)
    (p' : Param) (self : System) : System :=
  {| has_build := has_build self;
     data := set_parameters parameter_group
               (store_parameter parameter_name p' (parameters (data self) parameter_group))
               (data self) |}.

End System.

(* ===================================================================== *)
(** ** runtime_manager/src/session.py                                    *)
(* ===================================================================== *)
Module Session.
Import Params System.

(** [class Session]: the owned system, the state and the identifier
    (details and log entries play no part below). *)
Record Session : Type := {
  system : System.System;
  state : State;
  session_id : string
}.

Definition set_state (st : State) (self : Session) : Session :=
  {| system := system self; state := st; session_id := session_id self |}.

Definition set_system (sy : System.System) (self : Session) : Session :=
  {| system := sy; state := state self; session_id := session_id self |}.

(** [Session.__update_state_after_param_change(changed_param_group)] *)
Definition update_state_after_param_change (changed_param_group : ParameterGroup)
    (self : Session) : Session :=
  if bool_decide (changed_param_group ∈ [COMMON; BUILD]) then
    if State_in (state self) [BUILT; FAILED_BUILD; RAN; FAILED_RUN] then
      if has_build (system self) then set_state CREATED self
      else set_state BUILT self
    else self
  else if bool_decide (changed_param_group = RUN) then
    if State_in (state self) [RAN; FAILED_RUN] then set_state BUILT self
    else self
  else self.

(** [Session.update(parameter_group, parameter_name, parameter_value)] *)
Definition update (parameter_group : ParameterGroup) (parameter_name : string)
    (parameter_value : Value) (self : Session) : Session * result unit :=
  if State_in (state self) [BUILDING; RUNNING] then (self, Raise LockedSessionError)
  else
    match get_parameter (system self) parameter_group parameter_name with
    | Some parameter =>
        match update_parameter parameter_value parameter with
        | Raise e => (self, Raise e)
        | Ok parameter' =>
            (update_state_after_param_change parameter_group
               (set_system (put_parameter parameter_group parameter_name parameter'
                              (system self)) self),
             Ok ())
        end
    | None =>
        (self, Raise (ValueError ("Selected parameter '" ++ parameter_name ++
                                  "' is not part of system definition.")))
    end.

(** The text of a group in an f-string, as Python 3.11 and later format
    a member of a mixed-in enumeration (earlier versions give its value);
    no statement below depends on it. *)
Definition group_str (g : ParameterGroup) : string :=
  match g with
  | COMMON => "ParameterGroup.COMMON"
  | BUILD => "ParameterGroup.BUILD"
  | RUN => "ParameterGroup.RUN"
  end.

Definition not_part_message (parameter_group : ParameterGroup) (parameter_name : string)
  : string :=
  "Selected parameter '" ++ parameter_name ++ "' in parameter group '" ++
  group_str parameter_group ++ "' is not part of system definition.".

(** [Session.add(parameter_group, parameter_name, file_name, file)] *)
Definition add (h : Host) (parameter_group : ParameterGroup) (parameter_name : string)
    (fname : option string) (file : Upload) (self : Session) (fs : FS)
  : (Session * FS) * result unit :=
  if State_in (state self) [BUILDING; RUNNING] then ((self, fs), Raise LockedSessionError)
  else
    match get_parameter (system self) parameter_group parameter_name with
    | Some parameter =>
        match process_input_file h (session_id self) parameter_group fname file
                parameter fs with
        | ((parameter', fs'), r) =>
            let self' := set_system (put_parameter parameter_group parameter_name
                                       parameter' (system self)) self in
            match r with
            | Raise e => ((self', fs'), Raise e)
            | Ok _ => ((update_state_after_param_change parameter_group self', fs'), Ok ())
            end
        end
    | None =>
        ((self, fs), Raise (ValueError (not_part_message parameter_group parameter_name)))
    end.

(** [Session.delete(parameter_group, parameter_name)] *)
Definition delete (parameter_group : ParameterGroup) (parameter_name : string)
    (self : Session) (fs : FS) : (Session * FS) * result unit :=
  match get_parameter (system self) parameter_group parameter_name with
  | Some parameter =>
      match reset parameter fs with
      | (parameter', fs') =>
          ((update_state_after_param_change parameter_group
              (set_system (put_parameter parameter_group parameter_name parameter'
                             (system self)) self),
            fs'),
           Ok ())
      end
  | None =>
      ((self, fs), Raise (ValueError (not_part_message parameter_group parameter_name)))
  end.

(** The sessions on disk, by identifier.  [with SessionsHandler(id) as
    session] loads the one stored under [id]; the lock it takes is
    free in a sequential run. *)
Definition open_session (store : gmap string Session) (sid : string) : result Session :=
  match store !! sid with
  | Some session => Ok session
  | None => Raise (InvalidSessionError
                     ("No session file found for session id '" ++ sid ++ "'."))
  end.

(** The checks of [Session.__execute_precondition_check] on the loaded
    session *)
Definition precondition (command : string) (session : Session) : result unit :=
  if State_in (state session) [BUILDING; RUNNING] then
    Raise (UnexpectedSessionState
             ("Cannot execute '" ++ command ++
              "' as session is already 'building' or 'running'!"))
  else if String.eqb command "run" && has_build (system session) &&
          negb (State_in (state session) [BUILT; RAN; FAILED_RUN]) then
    Raise (UnexpectedSessionState
             "Cannot execute 'run' as session state is not 'built' or 'ran'!")
  else Ok ().

(** [Session.__execute_precondition_check(session_id, command)] *)
Definition execute_precondition_check (store : gmap string Session)
    (sid command : string) : result unit :=
  session ← open_session store sid;
  precondition command session.

(** [Session.execute(session_id, command, ...)] up to the point where
    the command starts: [rest] is what the remaining steps (log entry,
    backend call, state transition) come back with. *)
Definition execute (store : gmap string Session) (sid command : string)
    (rest : result string) : result string :=
  _ ← execute_precondition_check store sid command;
  if negb (bool_decide (command ∈ ["build"; "run"]))
  then Raise (ValueError ("Invalid command: " ++ command))
  else rest.

Definition state_message (name0 : string) (st required : State) : string :=
  "Result '" ++ name0 ++ "' is not available: Session state is '" ++ State_str st ++
  "' but at least '" ++ State_str required ++ "' is required.".

(** One turn of the loop over [enabled_by]: [Some message] when the
    turn returns [(False, message)], [None] when the loop goes on. *)
Definition check_enable_entry (self : Session) (name0 enable_entry : string)
  : result (option string) :=
  let segments := split "/" enable_entry in
  parameter_name ← index_from_end segments 1;
  group_name ← index_from_end segments 2;
  parameter_group ← ParameterGroup_of_value group_name;
  match get_parameter (system self) parameter_group parameter_name with
  | None => Raise AttributeError
  | Some parameter =>
      match value parameter with
      | VPrim (PBool false) =>
          Ok (Some ("Result '" ++ name0 ++ "' is not available: Required parameter '" ++
                    name parameter ++ "' is not set to 'true'."))
      | VPrim (PBool true) =>
          if bool_decide (parameter_group = BUILD) &&
             negb (State_in (state self) [BUILT; RUNNING; RAN; FAILED_RUN])
          then Ok (Some (state_message name0 (state self) BUILT))
          else if bool_decide (parameter_group = RUN) &&
                  negb (str_contains (State_value (state self)) (State_value RAN))
          then Ok (Some (state_message name0 (state self) RAN))
          else Ok None
      | _ =>
          Ok (Some ("Result '" ++ name0 ++ "' cannot be generated: Required parameter '" ++
                    name parameter ++
                    "' is not a boolean type. The SysDef is invalid for this result."))
      end
  end.

Fixpoint check_enabled_by (self : Session) (name0 : string) (entries : list string)
  : result (option string) :=
  match entries with
  | [] => Ok None
  | enable_entry :: r =>
      verdict ← check_enable_entry self name0 enable_entry;
      match verdict with
      | Some message => Ok (Some message)
      | None => check_enabled_by self name0 r
      end
  end.

(** [Session.get_result_availability(name)] *)
Definition get_result_availability (self : Session) (name0 : string)
  : result (bool * option string) :=
  match dict_get name0 (results (data (system self))) with
  | None => Raise KeyError
  | Some result0 =>
      match enabled_by result0 with
      | Some entries =>
          verdict ← check_enabled_by self name0 entries;
          match verdict with
          | Some message => Ok (false, Some message)
          | None => Ok (true, None)
          end
      | None =>
          if negb (bool_decide (state self = RAN))
          then Ok (false, Some (state_message name0 (state self) RAN))
          else Ok (true, None)
      end
  end.

End Session.

(* ===================================================================== *)
(** ** dataformats/dataformats.py: the documents                         *)
(* ===================================================================== *)
Module Documents.
Import System.

(** [d[k] = v]: a known key keeps its place, a new one goes last. *)
Fixpoint dict_set {V} (k : string) (v : V) (d : dict V) : dict V :=
  match d with
  | [] => [(k, v)]
  | (k', v') :: r => if String.eqb k k' then (k, v) :: r else (k', v') :: dict_set k v r
  end.

(** [class SysDef] (the documentation entry left out) *)
Record SysDef : Type := {
  dataformat : option string;
  name : string;
  version : string;
  docker_image : string;
  build_command : option string;
  run_command : string;
  delete_command : option string;
  common_parameters : option (dict Value);
  build_parameters : option (dict Value);
  run_parameters : option (dict Value);
  results : option (dict SysDefResult)
}.

(** [sysdef[group]] *)
Definition group_of (self : SysDef) (g : ParameterGroup) : option (dict Value) :=
  match g with
  | COMMON => common_parameters self
  | BUILD => build_parameters self
  | RUN => run_parameters self
  end.

(** The checks of [SysDef.check_result_enabled_by] on one enabler.
    pydantic reports a [ValueError] of a validator as a validation
    error of the document and lets any other exception through. *)
Definition check_enabler (self : SysDef) (enabler : string) : result unit :=
  if negb (startswith "#/" enabler)
  then Raise (ValueError ("'enabled_by' must start with '#/' to be a valid JSON pointer: '" ++
                          enabler ++ "'"))
  else
    let enabler_hierarchy := split "/" enabler in
    group_name ← match nth_error enabler_hierarchy 1 with
                 | Some x => Ok x
                 | None => Raise IndexError
                 end;
    parameter_group ← ParameterGroup_of_value group_name;
    parameter_name ← match nth_error enabler_hierarchy 2 with
                     | Some x => Ok x
                     | None => Raise IndexError
                     end;
    match group_of self parameter_group with
    | None => Raise TypeError
    | Some parameters =>
        if negb (dict_has parameter_name parameters)
        then Raise (ValueError ("Enabling parameter name does not exist: '" ++ enabler ++ "'"))
        else
          match dict_get parameter_name parameters with
          | Some (VPrim (PBool _)) => Ok ()
          | _ => Raise (ValueError ("Enabling parameter must be of type bool: '" ++
                                    enabler ++ "'"))
          end
    end.

Fixpoint check_enablers (self : SysDef) (enablers : list string) : result unit :=
  match enablers with
  | [] => Ok ()
  | enabler :: r => _ ← check_enabler self enabler; check_enablers self r
  end.

Fixpoint check_results (self : SysDef) (rs : list SysDefResult) : result unit :=
  match rs with
  | [] => Ok ()
  | result0 :: r =>
      _ ← match enabled_by result0 with
          | Some enablers => check_enablers self enablers
          | None => Ok ()
          end;
      check_results self r
  end.

(** [SysDef.check_result_enabled_by]: [self.results.values()] has no
    [values] when [results] is [None]. *)
Definition check_result_enabled_by (self : SysDef) : result SysDef :=
  match results self with
  | None => Raise AttributeError
  | Some rs => _ ← check_results self (snd <$> rs); Ok self
  end.

(** [class SysCfgSystem] *)
Record SysCfgSystem : Type := {
  system_name : string;
  system_version : string
}.

(** [class SysCfg] *)
Record SysCfg : Type := {
  cfg_dataformat : option string;
  system : SysCfgSystem;
  cfg_common_parameters : option (dict Value);
  cfg_build_parameters : option (dict Value);
  cfg_run_parameters : option (dict Value)
}.

(** The group that [SysCfg.from_sysdef] fills for one group of the
    definition: nothing for an absent or empty group, the defaults of
    the entries otherwise. *)
Definition default_group (g : option (dict Value)) : option (dict Value) :=
  match g with
  | None | Some [] => None
  | Some d =>
      Some (fold_left
              (fun acc kv =>
                 match kv.2 with
                 | VCmplx c => dict_set kv.1 (VPrim (Dataformats.default_value c)) acc
                 | v => dict_set kv.1 v acc
                 end) d [])
  end.

(** [SysCfg.from_sysdef(sysdef)] *)
Definition from_sysdef (sysdef : SysDef) : SysCfg :=
  {| cfg_dataformat := Some SYSCFG_DATAFORMAT_IDENTIFIER;
     system := {| system_name := name sysdef; system_version := version sysdef |};
     cfg_common_parameters := default_group (common_parameters sysdef);
     cfg_build_parameters := default_group (build_parameters sysdef);
     cfg_run_parameters := default_group (run_parameters sysdef) |}.

(** What pydantic makes of one value of a parameter group when a
    [SysCfg] is constructed: [None], a primitive and a
    [SysCfgUrlParameter] are kept; a [dict] is read as a
    [SysCfgUrlParameter] when it has a string under [url] (and, if at
    all, a string under [credentials]); anything else is refused. *)
Definition validate_cfg_value (v : Value) : result Value :=
  match v with
  | VNone | VPrim _ | VUrl _ => Ok v
  | VDict items =>
      match dict_get "url" items with
      | Some (PStr u) =>
          match dict_get "credentials" items with
          | None => Ok (VUrl {| url := u; Dataformats.credentials := None |})
          | Some (PStr c) => Ok (VUrl {| url := u; Dataformats.credentials := Some c |})
          | Some _ => Raise (ValidationError "Input should be a valid string")
          end
      | _ => Raise (ValidationError "Input should be a valid dictionary or instance of SysCfgUrlParameter")
      end
  | VCmplx _ => Raise (ValidationError "Input should be a valid dictionary or instance of SysCfgUrlParameter")
  end.

Fixpoint validate_cfg_group (d : dict Value) : result (dict Value) :=
  match d with
  | [] => Ok []
  | (k, v) :: r =>
      v' ← validate_cfg_value v;
      r' ← validate_cfg_group r;
      Ok ((k, v') :: r')
  end.

(** [class LogEntry]; the timestamp is the text of the clock. *)
Record LogEntry : Type := {
  timestamp : string;
  producer : string;
  message : string
}.

End Documents.

(* ===================================================================== *)
(** ** The exceptions of the other modules                               *)
(* ===================================================================== *)
Module Raised.

(** An exception in flight: one of the interpreter or of session.py
    ([Exn]), one of the classes that compute_if.py, system_db.py and
    session.py add, or one of a library (docker, git), with its
    message. *)
Inductive Failure : Type :=
| Python (e : Exn)
| RuntimeError (msg : string)
| ComputeError (msg : string)
| ComputeTimeoutError (msg : string)
| ComputeFileError (msg : string)
| ComputeResourceUnavailableError (msg : string)
| ComputeResourceCredentialsError (msg : string)
| ComputeResourceError (msg : string)
| ResultNotAvailable (msg : string)
| SystemNotFound (msg : string)
| LibraryError (class msg : string).

Inductive outcome (A : Type) : Type :=
| Return (a : A)
| Throw (f : Failure).
Arguments Return {A} a.
Arguments Throw {A} f.

(** [str(exc)]: the message the exception was raised with;
    [builtin_text] gives the text of the exceptions that the interpreter
    raises with a text of its own. *)
Definition text_of (builtin_text : Exn → string) (f : Failure) : string :=
  match f with
  | Python (ValueError m) | Python (NameError m) | Python (FileNotFoundError m)
  | Python (URLError m) | Python (ValidationError m) | Python (InvalidSessionError m)
  | Python (UnexpectedSessionState m) => m
  | Python e => builtin_text e
  | RuntimeError m | ComputeError m | ComputeTimeoutError m | ComputeFileError m
  | ComputeResourceUnavailableError m | ComputeResourceCredentialsError m
  | ComputeResourceError m | ResultNotAvailable m | SystemNotFound m
  | LibraryError _ m => m
  end.

End Raised.

(* ===================================================================== *)
(** ** runtime_manager/src/system_db.py                                  *)
(* ===================================================================== *)
Module SystemDb.
Import Raised.

(** [class LocationType(str, enum.Enum)] *)
Inductive LocationType : Type := GIT | FILE | DIR | IMG.

(** [class System]: one version of one system.  [id] is the field with
    the alias [_id]. *)
Record System : Type := {
  id : option string;
  name : string;
  version : string;
  description : option string;
  type : LocationType;
  location : string;
  branch : string
}.

(** The JSON file of the system references: missing, holding a list of
    systems, or not a valid document. *)
Inductive JsonFile : Type :=
| Missing
| Holds (systems : list System)
| Malformed.

(** [SystemJsonFile.__parse_file()] *)
Definition parse_file (file : JsonFile) : outcome (list System) :=
  match file with
  | Missing => Return []
  | Holds systems => Return systems
  | Malformed => Throw (Python (ValidationError "Invalid JSON"))
  end.

(** The file after [file.write(systems_db.model_dump_json(indent=2))]:
    the dump writes the field [id] under its name, the parser reads it
    under its alias [_id] only, so an identifier does not come back. *)
Definition forget_id (s : System) : System :=
  {| id := None; name := name s; version := version s; description := description s;
     type := type s; location := location s; branch := branch s |}.

Definition written (systems : list System) : JsonFile := Holds (forget_id <$> systems).


(** [SystemJsonFile.get_system_names()] *)
Definition get_system_names (file : JsonFile) : outcome (list string) :=
  match parse_file file with
  | Throw f => Throw f
  | Return systems =>
      Return (fold_left
                (fun names system =>
                   if existsb (String.eqb (name system)) names then names
                   else (names ++ [name system])%list)
                systems [])
  end.

(** [SystemJsonFile.get_system_versions(name)] *)
Definition get_system_versions (name0 : string) (file : JsonFile) : outcome (list string) :=
  match parse_file file with
  | Throw f => Throw f
  | Return systems =>
      Return (version <$> filter (fun s => String.eqb (name s) name0 = true) systems)
  end.

Definition matches (name0 version0 : string) (s : System) : bool :=
  String.eqb (name s) name0 && String.eqb (version s) version0.

Definition not_found (name0 version0 : string) : Failure :=
  SystemNotFound ("Cannot find the system '" ++ name0 ++ "' with version '" ++
                  version0 ++ "'!").

(** [SystemJsonFile.get_system(name, version)] *)
Definition get_system (name0 version0 : string) (file : JsonFile) : outcome System :=
  match parse_file file with
  | Throw f => Throw f
  | Return systems =>
      match find (matches name0 version0) systems with
      | Some system => Return system
      | None => Throw (not_found name0 version0)
      end
  end.



End SystemDb.

(* ===================================================================== *)
(** ** runtime_manager/src/compute_if.py and compute_docker.py           *)
(* ===================================================================== *)
Module Backend.
Import System Documents Raised.

(** [class ComputeFile]: the paths are the objects found in the file
    data of a parameter. *)
Record ComputeFile : Type := {
  source_path : option string;
  destination_path : option Value
}.

(** [class ComputeInterface], as [System] uses it: what a call comes
    back with.  With a progress callback the backend reports chunks of
    output while the command runs. *)
Record ComputeInterface : Type := {
  build_system : list ComputeFile → option Z → bool → list string * outcome string;
  run_system : list ComputeFile → option Z → bool → list string * outcome string;
  get_result : string → outcome string;
  stop_command : outcome unit;
  remove_resource : outcome unit
}.

(** [class ComputeSystem] (the requirements are an empty [dict]) *)
Record ComputeSystem : Type := {
  session_id : string;
  image : string;
  local_dir : string;
  mount_dir : string;
  work_dir : string;
  build_command : string;
  run_command : string;
  delete_command : option string;
  files : list ComputeFile
}.

(** The names that [ComputeDocker.__set_environment] looks up. *)
Definition proxy_env_names : list string :=
  ["http_proxy"; "https_proxy"; "HTTP_PROXY"; "HTTPS_PROXY"; "no_proxy"; "NO_PROXY"].

(** [ComputeDocker.__set_environment()] for the environment [environ]
    of the process *)
Definition set_environment (environ : gmap string string) : dict string :=
  fold_left
    (fun environment proxy_env_name =>
       match environ !! proxy_env_name with
       | Some env_value => dict_set proxy_env_name env_value environment
       | None => environment
       end)
    proxy_env_names [].

End Backend.

(* ===================================================================== *)
(** ** system.py and session.py: configuration, staging, execution       *)
(* ===================================================================== *)
Module Execution.
Import Params System Raised Backend.

(** What the process has around it when a command is executed. *)
Record Runtime : Type := {
  host : Host;
  compute_backend : ComputeInterface;
  (** [datetime.datetime.now()] *)
  now : string;
  (** [syscfg.model_dump_json()] *)
  dump_json : Documents.SysCfg → list Byte.byte;
  (** [str(exc)] of an exception raised by the interpreter itself *)
  builtin_text : Exn → string
}.

(** [class SystemIdentifier] *)
Record SystemIdentifier : Type := {
  id_name : string;
  id_version : string
}.

(** What [get_current_system_config] puts into the configuration for a
    parameter: the container path of a file that has one, the value
    otherwise. *)
Definition config_value (parameter : Param) : Value :=
  match file_data parameter with
  | Some fd =>
      match file_path_container fd with
      | Some container => container
      | None => value parameter
      end
  | None => value parameter
  end.

Definition config_group (parameter_group : list Param) : dict Value :=
  fold_left (fun acc parameter => Documents.dict_set (name parameter) (config_value parameter) acc)
    parameter_group [].

(** [System.get_current_system_config()] *)
Definition get_current_system_config (system_id : SystemIdentifier) (self : System.System)
  : result Documents.SysCfg :=
  common ← Documents.validate_cfg_group (config_group (parameters (data self) COMMON));
  build ← Documents.validate_cfg_group (config_group (parameters (data self) BUILD));
  run ← Documents.validate_cfg_group (config_group (parameters (data self) RUN));
  Ok {| Documents.cfg_dataformat := Some SYSCFG_DATAFORMAT_IDENTIFIER;
        Documents.system := {| Documents.system_name := id_name system_id;
                               Documents.system_version := id_version system_id |};
        Documents.cfg_common_parameters := Some common;
        Documents.cfg_build_parameters := Some build;
        Documents.cfg_run_parameters := Some run |}.

(** [System.mark_file_parameters_available_for_build()] and [..._for_run()] *)
Definition mark_file_parameters_available_for_build (self : System.System) : System.System :=
  {| has_build := has_build self;
     data := set_parameters BUILD
               (mark_file_parameter_available <$> parameters (data self) BUILD) (data self) |}.

Definition mark_file_parameters_available_for_run (self : System.System) : System.System :=
  {| has_build := has_build self;
     data := set_parameters RUN
               (mark_file_parameter_available <$> parameters (data self) RUN) (data self) |}.

(** The file to copy for a parameter after staging: one for a file
    that is STAGED, none otherwise. *)
Definition copy_entry (parameter : Param) : list ComputeFile :=
  match file_data parameter with
  | Some fd =>
      if bool_decide (file_state fd = STAGED)
      then [{| source_path := file_path_local fd;
               destination_path := file_path_container fd |}]
      else []
  | None => []
  end.

(** The loop of [System.__get_file_copy_list]: the parameters as the
    loop leaves them, the files, and the list or the exception of the
    first parameter that cannot be staged. *)
Fixpoint stage_parameters (h : Host) (session_id : string) (parameter_group : ParameterGroup)
    (todo : list Param) (fs : FS) : (list Param * FS) * result (list ComputeFile) :=
  match todo with
  | [] => (([], fs), Ok [])
  | parameter :: r =>
      match stage_file h session_id parameter_group parameter fs with
      | ((parameter', fs'), Raise e) => ((parameter' :: r, fs'), Raise e)
      | ((parameter', fs'), Ok _) =>
          match stage_parameters h session_id parameter_group r fs' with
          | ((r', fs''), Ok files) =>
              ((parameter' :: r', fs''), Ok (copy_entry parameter' ++ files)%list)
          | ((r', fs''), Raise e) => ((parameter' :: r', fs''), Raise e)
          end
      end
  end.

(** [System.__get_file_copy_list(parameter_group)] *)
Definition get_file_copy_list (h : Host) (session_id : string)
    (parameter_group : ParameterGroup) (self : System.System) (fs : FS)
  : (System.System * FS) * result (list ComputeFile) :=
  match stage_parameters h session_id parameter_group
          (parameters (data self) parameter_group) fs with
  | ((l, fs'), r) =>
      (({| has_build := has_build self;
           data := set_parameters parameter_group l (data self) |}, fs'), r)
  end.

(** [System.syscfg_container_path] *)
Definition syscfg_container_path : string :=
  join2 (join2 CONTAINER_WORKDIR "inputs") "syscfg.json".

(** [System.__generate_syscfg_file()]; the directory it makes is
    implicit in the files. *)
Definition generate_syscfg_file (rt : Runtime) (system_id : SystemIdentifier)
    (session_id : string) (self : System.System) (fs : FS) : FS * result string :=
  match get_current_system_config system_id self with
  | Raise e => (fs, Raise e)
  | Ok syscfg =>
      let destination_path := join2 (join2 (SESSIONS_BASE_DIR (host rt)) session_id) "inputs" in
      let destination_file := join2 destination_path "syscfg.json" in
      match write_file destination_file (dump_json rt syscfg) fs with
      | (fs', Raise e) => (fs', Raise e)
      | (fs', Ok _) => (fs', Ok destination_file)
      end
  end.

(** The part of [System.execute] that both commands share: stage the
    common group and the group of the command, write the configuration,
    call the backend. *)
Definition stage_and_call (rt : Runtime) (system_id : SystemIdentifier) (session_id : string)
    (parameter_group : ParameterGroup)
    (call : list ComputeFile → option Z → bool → list string * outcome string)
    (timeout : option Z) (progress : bool) (self : System.System) (fs : FS)
  : (System.System * FS) * (list string * outcome string) :=
  match get_file_copy_list (host rt) session_id COMMON self fs with
  | ((self1, fs1), Raise e) => ((self1, fs1), ([], Throw (Python e)))
  | ((self1, fs1), Ok files_common) =>
      match get_file_copy_list (host rt) session_id parameter_group self1 fs1 with
      | ((self2, fs2), Raise e) => ((self2, fs2), ([], Throw (Python e)))
      | ((self2, fs2), Ok files_group) =>
          match generate_syscfg_file rt system_id session_id self2 fs2 with
          | (fs3, Raise e) => ((self2, fs3), ([], Throw (Python e)))
          | (fs3, Ok syscfg_file) =>
              let files := (files_common ++ files_group ++
                            [{| source_path := Some syscfg_file;
                                destination_path := Some (VStr syscfg_container_path) |}])%list in
              ((self2, fs3), call files timeout progress)
          end
      end
  end.

(** [System.execute(command, timeout, progress)] *)
Definition execute (rt : Runtime) (system_id : SystemIdentifier) (session_id : string)
    (command : string) (timeout : option Z) (progress : bool)
    (self : System.System) (fs : FS)
  : (System.System * FS) * (list string * outcome string) :=
  if String.eqb command "build" then
    if has_build self then
      match stage_and_call rt system_id session_id BUILD
              (build_system (compute_backend rt)) timeout progress self fs with
      | ((self', fs'), (chunks, Return output)) =>
          ((mark_file_parameters_available_for_build self', fs'), (chunks, Return output))
      | r => r
      end
    else ((self, fs), ([], Return ""))
  else
    match stage_and_call rt system_id session_id RUN
            (run_system (compute_backend rt)) timeout progress self fs with
    | ((self', fs'), (chunks, Return output)) =>
        ((mark_file_parameters_available_for_run self', fs'), (chunks, Return output))
    | r => r
    end.

(** [class SessionDetails] *)
Record SessionDetails : Type := {
  display_name : string;
  session_description : string;
  creator_name : string;
  creation_date : string;
  remote : option bool
}.

(** [class CreateSessionItem] *)
Record CreateSessionItem : Type := {
  syscfg : Documents.SysCfg;
  creator : option string;
  description : option string;
  item_display_name : option string;
  item_remote : option bool
}.

(** [x if x else ""] *)
Definition or_empty (x : option string) : string := default "" x.

(** [SessionDetails.from_create_item(create_data)] *)
Definition from_create_item (rt : Runtime) (create_data : CreateSessionItem) : SessionDetails :=
  {| display_name := or_empty (item_display_name create_data);
     session_description := or_empty (description create_data);
     creator_name := or_empty (creator create_data);
     creation_date := now rt;
     remote := item_remote create_data |}.

(** A [Session] object with the attributes that [Session.Session]
    leaves out: the identity of the system, the details and the log. *)
Record SessionObj : Type := {
  core : Session.Session;
  system_id : SystemIdentifier;
  details : SessionDetails;
  log_entries : list Documents.LogEntry
}.

Definition with_core (c : Session.Session) (s : SessionObj) : SessionObj :=
  {| core := c; system_id := system_id s; details := details s;
     log_entries := log_entries s |}.

Definition with_log (l : list Documents.LogEntry) (s : SessionObj) : SessionObj :=
  {| core := core s; system_id := system_id s; details := details s; log_entries := l |}.

(** The line feed of ["...\n"] *)
Definition nl : string := String (ascii_of_N 10) EmptyString.

Definition start_marker : string := "--- starting execution ---" ++ nl.

(** [log_entries[-1].message += text] *)
Fixpoint add_to_last (text : string) (l : list Documents.LogEntry)
  : result (list Documents.LogEntry) :=
  match l with
  | [] => Raise IndexError
  | [e] => Ok [{| Documents.timestamp := Documents.timestamp e;
                  Documents.producer := Documents.producer e;
                  Documents.message := Documents.message e ++ text |}]
  | e :: r => match add_to_last text r with
              | Ok r' => Ok (e :: r')
              | Raise x => Raise x
              end
  end.

(** [state_mapping[command]]: the state while the command runs, after
    it succeeded and after it failed. *)
Definition state_mapping (command : string) : option (State * State * State) :=
  if String.eqb command "build" then Some (BUILDING, BUILT, FAILED_BUILD)
  else if String.eqb command "run" then Some (RUNNING, RAN, FAILED_RUN)
  else None.

(** [with SessionsHandler(session_id) as session] on the stored
    sessions, in a sequential run: the lock is free, and the backend
    that is unpickled with the session finds its volume. *)
Definition open_obj (store : gmap string SessionObj) (sid : string) : result SessionObj :=
  match store !! sid with
  | Some session => Ok session
  | None => Raise (InvalidSessionError
                     ("No session file found for session id '" ++ sid ++ "'."))
  end.

Definition no_output (command : string) : string :=
  "No output generated by " ++ command ++ " command.".

(** The last [with] block of [Session.execute]: the synchronous
    execution on the opened session. *)
Definition run_sync (rt : Runtime) (command : string) (timeout : option Z)
    (success_state failure_state : State) (s : SessionObj) (fs : FS)
  : (SessionObj * FS) * outcome string :=
  match execute rt (system_id s) (Session.session_id (core s)) command timeout false
          (Session.system (core s)) fs with
  | ((sys', fs'), (_, out)) =>
      let output := match out with
                    | Return o => o
                    | Throw f => text_of (builtin_text rt) f
                    end in
      let st := match out with Return _ => success_state | Throw _ => failure_state end in
      match add_to_last output (log_entries s) with
      | Raise e =>
          (* no entry to add to: the handler of the [try] raises as well *)
          ((with_core {| Session.system := sys'; Session.state := failure_state;
                         Session.session_id := Session.session_id (core s) |} s, fs'),
           Throw (Python e))
      | Ok l1 =>
          let l2 := if String.eqb output ""
                    then match add_to_last (no_output command) l1 with
                         | Ok l => l
                         | Raise _ => l1
                         end
                    else l1 in
          ((with_log l2
              (with_core {| Session.system := sys'; Session.state := st;
                            Session.session_id := Session.session_id (core s) |} s), fs'),
           match out with
           | Return o => Return o
           | Throw _ => Throw (Python (UnexpectedSessionState output))
           end)
      end
  end.

(** [Session.execute(session_id, command, async_call, timeout)].  With
    [async_call] the thread it starts is [execute_async] below. *)
Definition execute_session (rt : Runtime) (sid command : string) (async_call : bool)
    (timeout : option Z) (store : gmap string SessionObj) (fs : FS)
  : (gmap string SessionObj * FS) * outcome string :=
  match open_obj store sid with
  | Raise e => ((store, fs), Throw (Python e))
  | Ok s =>
      match Session.precondition command (core s) with
      | Raise e => ((store, fs), Throw (Python e))
      | Ok _ =>
          match state_mapping command with
          | None => ((store, fs), Throw (Python (ValueError ("Invalid command: " ++ command))))
          | Some (initial_state, success_state, failure_state) =>
              let s1 := with_log (log_entries s ++
                                  [{| Documents.timestamp := now rt;
                                      Documents.producer := "container." ++ command;
                                      Documents.message := start_marker |}])%list s in
              if async_call then
                ((<[sid := with_core (Session.set_state initial_state (core s1)) s1]> store, fs),
                 Return (command ++ " command started asynchronously."))
              else
                match run_sync rt command timeout success_state failure_state s1 fs with
                | ((s2, fs'), out) => ((<[sid := s2]> store, fs'), out)
                end
          end
      end
  end.

(** The chunks that the progress callback [write_to_log] adds to the
    last log entry of the stored session, one [with] block each. *)
Definition write_chunks (chunks : list string) (l : list Documents.LogEntry)
  : result (list Documents.LogEntry) :=
  fold_left (fun acc chunk => l' ← acc; add_to_last chunk l') chunks (Ok l).

(** [Session.__execute_async(session_id, command, timeout)], the body
    of the thread.  The session that executes is opened read-only: what
    staging changes in it is not stored. *)
Definition execute_async (rt : Runtime) (sid command : string) (timeout : option Z)
    (store : gmap string SessionObj) (fs : FS) : gmap string SessionObj * FS :=
  match store !! sid with
  | None => (store, fs)
  | Some s =>
      match execute rt (system_id s) (Session.session_id (core s)) command timeout true
              (Session.system (core s)) fs with
      | ((_, fs'), (chunks, out)) =>
          match write_chunks chunks (log_entries s) with
          | Raise _ => (store, fs')
          | Ok l1 =>
              match l1 with
              | [] => (store, fs')
              | _ =>
                  let finished (added : string) (st : State) :=
                    match add_to_last added l1 with
                    | Ok l2 => with_log l2 (with_core (Session.set_state st (core s)) s)
                    | Raise _ => s
                    end in
                  match out with
                  | Return output =>
                      let added :=
                        match last l1 with
                        | Some e =>
                            if String.eqb (Documents.message e) start_marker
                            then (if String.eqb output "" then no_output command else output)
                            else ""
                        | None => ""
                        end in
                      (<[sid := finished added
                                  (if String.eqb command "build" then BUILT else RAN)]> store,
                       fs')
                  | Throw f =>
                      (<[sid := finished (text_of (builtin_text rt) f)
                                  (if String.eqb command "build" then FAILED_BUILD
                                   else FAILED_RUN)]> store,
                       fs')
                  end
              end
          end
      end
  end.

(** What the creation of a session finds around it. *)
Record Provisioning : Type := {
  (** [docker.from_env()] in the constructor of the backend *)
  docker_from_env : outcome unit;
  (** the file [constants.SYSTEM_REFERENCES_FILE] *)
  systems_file : SystemDb.JsonFile;
  (** [__copy_system_files] into the repository path, then
      [__get_system_definition]: the files it leaves and the definition
      document it reads *)
  copy_and_read : SystemDb.System → string → FS → FS * outcome Documents.SysDef;
  (** [pathlib.Path(repo_clone_path).rglob('*')], relative to the path *)
  repo_listing : string → FS → list string;
  (** [compute_backend.create_resource(compute_data)] *)
  create_resource : ComputeSystem → outcome unit;
  (** [uuid.uuid4()] as a string *)
  uuid4 : string
}.

(** [str(x)] for an optional string: [None] prints as ["None"]. *)
Definition str_option (x : option string) : string := default "None" x.

(** [System.__parse_system_config(syscfg, repo_clone_path)] *)
Definition parse_system_config (rt : Runtime) (pv : Provisioning) (session_id : string)
    (syscfg : Documents.SysCfg) (repo_clone_path : string) (fs : FS)
  : FS * outcome (System.System * SystemIdentifier * ComputeSystem) :=
  let system_id := {| id_name := Documents.system_name (Documents.system syscfg);
                      id_version := Documents.system_version (Documents.system syscfg) |} in
  match SystemDb.get_system (id_name system_id) (id_version system_id) (systems_file pv) with
  | Throw f => (fs, Throw f)
  | Return sysref =>
      match copy_and_read pv sysref repo_clone_path fs with
      | (fs', Throw f) => (fs', Throw f)
      | (fs', Return sysdef) =>
          if negb (String.eqb (Documents.name sysdef) (id_name system_id)) then
            (fs', Throw (Python (FileNotFoundError
                                   ("System name '" ++ id_name system_id ++
                                    "' not matching in system definition file!"))))
          else if negb (String.eqb (Documents.version sysdef) (id_version system_id)) then
            (fs', Throw (Python (FileNotFoundError
                                   ("System version '" ++ id_version system_id ++
                                    "' not matching in system definition file!"))))
          else
            let build_command0 :=
              match Documents.build_command sysdef with
              | Some c => if (String.length c =? 0)%nat then None else Some c
              | None => None
              end in
            let has_build0 := match build_command0 with Some _ => true | None => false end in
            if (String.length (Documents.run_command sysdef) =? 0)%nat then
              (fs', Throw (Python AttributeError))
            else
              let syscfg_path := syscfg_container_path in
              let build_command1 := str_option build_command0 ++ " " ++ syscfg_path in
              let run_command1 := Documents.run_command sysdef ++ " " ++ syscfg_path in
              let delete_command1 :=
                match Documents.delete_command sysdef with
                | Some c => if (0 <? String.length c)%nat then Some (c ++ " " ++ syscfg_path)
                            else None
                | None => None
                end in
              match (common ← parse_parameter_group (Documents.common_parameters sysdef)
                                (Documents.cfg_common_parameters syscfg);
                     build ← parse_parameter_group (Documents.build_parameters sysdef)
                               (Documents.cfg_build_parameters syscfg);
                     run ← parse_parameter_group (Documents.run_parameters sysdef)
                             (Documents.cfg_run_parameters syscfg);
                     Ok (common, build, run)) with
              | Raise e => (fs', Throw (Python e))
              | Ok (common, build, run) =>
                  let container_repo_path := join2 CONTAINER_WORKDIR "repository" in
                  let repo_files :=
                    (fun file => {| source_path := Some (join2 repo_clone_path file);
                                    destination_path :=
                                      Some (VStr (join2 container_repo_path file)) |})
                      <$> repo_listing pv repo_clone_path fs' in
                  let compute_data :=
                    {| Backend.session_id := session_id;
                       image := Documents.docker_image sysdef;
                       mount_dir := CONTAINER_WORKDIR;
                       local_dir := join2 (SESSIONS_BASE_DIR (host rt)) session_id;
                       work_dir := container_repo_path;
                       build_command := build_command1;
                       run_command := run_command1;
                       delete_command := delete_command1;
                       files := repo_files |} in
                  match create_resource pv compute_data with
                  | Throw f => (fs', Throw f)
                  | Return _ =>
                      (fs',
                       Return ({| has_build := has_build0;
                                  data := {| common_parameters := common;
                                             build_parameters := build;
                                             run_parameters := run;
                                             results := default [] (Documents.results sysdef) |} |},
                               system_id, compute_data))
                  end
              end
      end
  end.

(** [Session.__init__(session_id, syscfg, details)], with the
    constructor of [System] that it calls *)
Definition init_session (rt : Runtime) (pv : Provisioning) (session_id : string)
    (syscfg : Documents.SysCfg) (details0 : SessionDetails) (fs : FS)
  : FS * outcome SessionObj :=
  match docker_from_env pv with
  | Throw f => (fs, Throw f)
  | Return _ =>
      let repo_clone_path :=
        join2 (join2 (SESSIONS_BASE_DIR (host rt)) session_id) "repository" in
      match parse_system_config rt pv session_id syscfg repo_clone_path fs with
      | (fs', Throw f) => (fs', Throw f)
      | (fs', Return (sys, system_id0, _)) =>
          (fs',
           Return {| core := {| Session.system := sys;
                                Session.state := if has_build sys then CREATED else BUILT;
                                Session.session_id := session_id |};
                     system_id := system_id0;
                     details := details0;
                     log_entries := [] |})
      end
  end.

(** [SessionsHandler.create_session(create_session_item)] *)
Definition create_session (rt : Runtime) (pv : Provisioning)
    (create_session_item : CreateSessionItem) (store : gmap string SessionObj) (fs : FS)
  : (gmap string SessionObj * FS) * outcome string :=
  let session_id := uuid4 pv in
  let session_details := from_create_item rt create_session_item in
  match init_session rt pv session_id (syscfg create_session_item) session_details fs with
  | (fs', Throw f) => ((store, fs'), Throw f)
  | (fs', Return session_data) => ((<[session_id := session_data]> store, fs'), Return session_id)
  end.

End Execution.

(* ===================================================================== *)
(** * Vocabulary of the statements                                       *)
(* ===================================================================== *)
Import Params System Session.

(** ** Sample objects *)

(** A plain integer parameter [level] with default 1, overridden to 3. *)
Definition level_param : Param :=
  {| name := "level"; value := VInt 3; overwritten := true;
     meta_data := None; file_data := None; default_value := VInt 1 |}.

(** A boolean parameter [tracing], switched on. *)
Definition tracing_param : Param :=
  {| name := "tracing"; value := VBool true; overwritten := true;
     meta_data := None; file_data := None; default_value := VBool false |}.

Definition demo_system : System.System :=
  {| has_build := true;
     data := {| common_parameters := [];
                build_parameters := [level_param; tracing_param];
                run_parameters := [];
                results := [("trace.vcd",
                             {| type := "vcd"; path := "out/trace.vcd";
                                enabled_by := Some ["#/build_parameters/tracing"];
                                result_description := None |});
                            ("log", {| type := "text"; path := "out/log.txt";
                                       enabled_by := None;
                                       result_description := None |})] |} |}.

Definition demo_session (st : State) : Session.Session :=
  {| system := demo_system; state := st; session_id := "s1" |}.

Definition demo_host : Host :=
  {| SESSIONS_BASE_DIR := "/srv/sessions";
     urlopen := fun _ _ => Failed (URLError "unreachable");
     fd_isfile := fun _ => false;
     fd_read := fun _ => [];
     bytes_str := fun _ => "b'..'" |}.

(** ** Vocabulary of the state machine *)

(** A state is busy while a command executes. *)
Definition busy (st : State) : Prop := st = BUILDING ∨ st = RUNNING.

(** The states from which a system with a build command may run. *)
Definition runnable (st : State) : Prop := st = BUILT ∨ st = RAN ∨ st = FAILED_RUN.

(** The states in which a build has been attempted and has ended, and
    those in which a run has. *)
Definition build_ended (st : State) : Prop :=
  st = BUILT ∨ st = FAILED_BUILD ∨ st = RAN ∨ st = FAILED_RUN.

Definition run_ended (st : State) : Prop := st = RAN ∨ st = FAILED_RUN.

(** The state a mutation in group [g] leaves, as the transition rules
    word it. *)
Definition regresses (hb : bool) (g : ParameterGroup) (st st' : State) : Prop :=
  let invalidates_build := (g = COMMON ∨ g = BUILD) ∧ build_ended st in
  let invalidates_run := g = RUN ∧ run_ended st in
  (invalidates_build → st' = if hb then CREATED else BUILT) ∧
  (invalidates_run → st' = BUILT) ∧
  (¬ invalidates_build → ¬ invalidates_run → st' = st).

(** ** Vocabulary of parameter resolution *)

(** The keys and the entries of an optional group. *)
Definition keys_of (g : option (dict Value)) : list string :=
  match g with Some d => dict_keys d | None => [] end.

Definition entries_of (g : option (dict Value)) : dict Value :=
  match g with Some d => d | None => [] end.

(** The non-null override a configuration group holds for a name. *)
Definition override_of (cfg : option (dict Value)) (k : string) : option Value :=
  match cfg with
  | Some d => match dict_get k d with
              | Some VNone | None => None
              | Some v => Some v
              end
  | None => None
  end.

(** The default a definition entry records: the [default_value] of a
    complex entry, the entry itself otherwise. *)
Definition definition_default (dv : Value) : Value :=
  match dv with
  | VCmplx c => VPrim (Dataformats.default_value c)
  | v => v
  end.

(** What resolution makes of one definition entry. *)
Definition resolved (cfg : option (dict Value)) (entry : string * Value) (p : Param) : Prop :=
  name p = entry.1 ∧
  default_value p = definition_default entry.2 ∧
  match override_of cfg entry.1 with
  | Some v => value p = v ∧ overwritten p = true
  | None => value p = definition_default entry.2 ∧ overwritten p = false
  end.

Definition is_ascii (s : string) : Prop :=
  forallb is_ascii_char (list_ascii_of_string s) = true.

(** The credential of an override, when the entry is a file parameter
    overridden by a URL with a credential: the one string that
    resolution encodes. *)
Definition encoded_credential (dv : Value) (ov : option Value) : option string :=
  match dv, ov with
  | VCmplx c, Some (VUrl u) =>
      match meta c with
      | Some (SysDefParameterFile true) => Dataformats.credentials u
      | _ => None
      end
  | _, _ => None
  end.

Definition credentials_ascii (def cfg : option (dict Value)) : Prop :=
  ∀ k dv t, (k, dv) ∈ entries_of def →
            encoded_credential dv (override_of cfg k) = Some t → is_ascii t.

(** A file parameter [input] of the definition, and two overrides of
    it by a URL: one with an ASCII token, one with the token [t\246ken]
    (o with diaeresis, U+00F6). *)
Definition input_entry : string * Value :=
  ("input", VCmplx {| Dataformats.default_value := PStr "data/in.bin";
                      meta := Some (SysDefParameterFile true);
                      description := None |}).

Definition input_override (token : string) : string * Value :=
  ("input", VUrl {| url := "https://example/data.bin";
                    Dataformats.credentials := Some token |}).

Definition latin1_token : string := "t" ++ String (ascii_of_N 246) "ken".

(** ** Vocabulary of validation, reset and staging *)

(** The number a bound is. *)
Definition bound (n : Num) : Float :=
  match n with NumInt z => float_of_int z | NumFloat f => f end.

(** The file data [reset] leaves for a file parameter. *)
Definition default_file_data (fd : FileData) : FileData :=
  {| file_name := None; file_state := DEFAULT;
     file_path_default := file_path_default fd;
     file_path_origin := None; file_path_local := None;
     file_path_container := Some (file_path_default fd);
     credentials := None |}.

(** A file parameter uploaded into the session, with its staged copy. *)
Definition staged_param : Param :=
  {| name := "input"; value := VStr "https://example/data.bin"; overwritten := true;
     meta_data := Some (SysDefParameterFile true);
     file_data := Some {| file_name := Some "data.bin"; file_state := STAGED;
                          file_path_default := VStr "data/in.bin";
                          file_path_origin := Some (VStr "https://example/data.bin");
                          file_path_local :=
                            Some "/srv/sessions/s1/inputs/run_parameters/input/data.bin";
                          file_path_container :=
                            Some (VStr "/sysapi/inputs/run_parameters/input/data.bin");
                          credentials := None |};
     default_value := VStr "data/in.bin" |}.

Definition staged_files : FS :=
  {[ "/srv/sessions/s1/inputs/run_parameters/input/data.bin" := [Byte.x2a] ]}.

(** A string without the separator. *)
Definition no_slash (s : string) : Prop :=
  forallb (fun c => negb (Ascii.eqb c "/")) (list_ascii_of_string s) = true.

(** The download branch on sample hosts. *)
Definition pending_url_param (token : option (list Byte.byte)) : Param :=
  {| name := "input"; value := VStr "https://example/data.bin"; overwritten := true;
     meta_data := Some (SysDefParameterFile true);
     file_data := Some {| file_name := None; file_state := PENDING;
                          file_path_default := VStr "data/in.bin";
                          file_path_origin := Some (VStr "https://example/data.bin");
                          file_path_local := None; file_path_container := None;
                          credentials := token |};
     default_value := VStr "data/in.bin" |}.

Definition host_with (answer : string → option string → Fetch) : Host :=
  {| SESSIONS_BASE_DIR := "/srv/sessions"; urlopen := answer;
     fd_isfile := fun _ => false; fd_read := fun _ => [];
     bytes_str := fun _ => "b'..'" |}.

(** The server hands the file out to the bearer of the token [k]. *)
Definition token_server (u : string) (authorization : option string) : Fetch :=
  if String.eqb u "https://example/data.bin" then
    match authorization with
    | Some a => if String.eqb a "Bearer k" then Fetched [Byte.x2a]
                else HTTPError "HTTP Error 403: Forbidden"
    | None => HTTPError "HTTP Error 401: Unauthorized"
    end
  else HTTPError "HTTP Error 404: Not Found".

(** ** Vocabulary of result availability *)

(** The life cycle of a session, one step at a time:
    CREATED → BUILDING → BUILT | FAILED_BUILD and
    BUILT → RUNNING → RAN | FAILED_RUN. *)
Inductive lifecycle : State → State → Prop :=
| start_build : lifecycle CREATED BUILDING
| build_succeeds : lifecycle BUILDING BUILT
| build_fails : lifecycle BUILDING FAILED_BUILD
| start_run : lifecycle BUILT RUNNING
| run_succeeds : lifecycle RUNNING RAN
| run_fails : lifecycle RUNNING FAILED_RUN.

(** [st] is at least [a]: [a] itself or a state that follows it in the
    life cycle. *)
Definition at_least (a st : State) : Prop := rtc lifecycle a st.

(** Enabling references are JSON pointers [#/<group>/<name>]. *)
Definition pointer (g : ParameterGroup) (pname : string) : string :=
  "#/" ++ ParameterGroup_value g ++ "/" ++ pname.

(** The reference [entry] resolves to the parameter [p] of group [g]. *)
Definition resolves (self : Session.Session) (entry : string)
    (g : ParameterGroup) (p : Param) : Prop :=
  ∃ pname, entry = pointer g pname ∧ no_slash pname ∧
           get_parameter (system self) g pname = Some p.

(** The conditions an enabling reference puts on the session. *)
Definition enabler_satisfied (self : Session.Session) (entry : string) : Prop :=
  ∃ g p, resolves self entry g p ∧ value p = VBool true ∧
         (g = BUILD → at_least BUILT (state self)) ∧
         (g = RUN → state self = RAN).

(** When a result is available: without enabling references
    ([enabled_by] absent) after a completed run; with them, when each is
    satisfied. *)
Definition available (self : Session.Session) (r : SysDefResult) : Prop :=
  match enabled_by r with
  | None => state self = RAN
  | Some entries => Forall (enabler_satisfied self) entries
  end.

Definition not_boolean_message (name0 : string) (p : Param) : string :=
  "Result '" ++ name0 ++ "' cannot be generated: Required parameter '" ++ name p ++
  "' is not a boolean type. The SysDef is invalid for this result.".

(** What one turn of the loop does with a reference that resolves. *)
Definition entry_verdict (self : Session.Session) (name0 : string)
    (g : ParameterGroup) (p : Param) : option string :=
  match value p with
  | VPrim (PBool false) =>
      Some ("Result '" ++ name0 ++ "' is not available: Required parameter '" ++
            name p ++ "' is not set to 'true'.")
  | VPrim (PBool true) =>
      if bool_decide (g = BUILD) &&
         negb (State_in (state self) [BUILT; RUNNING; RAN; FAILED_RUN])
      then Some (state_message name0 (state self) BUILT)
      else if bool_decide (g = RUN) &&
              negb (str_contains (State_value (state self)) (State_value RAN))
      then Some (state_message name0 (state self) RAN)
      else None
  | _ => Some (not_boolean_message name0 p)
  end.

(** ** Vocabulary of uploads *)





(** ** Vocabulary of the references of a definition *)

(** A definition with the boolean build parameter [tracing] and a
    result whose enabling reference has a fourth segment. *)
Definition long_pointer_sysdef : Documents.SysDef :=
  {| Documents.dataformat := Some SYSDEF_DATAFORMAT_IDENTIFIER;
     Documents.name := "demo"; Documents.version := "1.0";
     Documents.docker_image := "demo:latest";
     Documents.build_command := Some "make";
     Documents.run_command := "./run";
     Documents.delete_command := None;
     Documents.common_parameters := None;
     Documents.build_parameters := Some [("tracing", VBool true)];
     Documents.run_parameters := None;
     Documents.results :=
       Some [("trace.vcd", {| type := "vcd"; path := "out/trace.vcd";
                              enabled_by := Some ["#/build_parameters/tracing/extra"];
                              result_description := None |})] |}.

(** The session of a definition without configuration, in state [st]:
    the parameters are those that resolution gives. *)
Definition session_of (sysdef : Documents.SysDef) (st : State) : Session.Session :=
  let group g := match parse_parameter_group (Documents.group_of sysdef g) None with
                 | Ok ps => ps
                 | Raise _ => []
                 end in
  {| system := {| has_build := match Documents.build_command sysdef with
                               | Some c => negb (String.eqb c "")
                               | None => false
                               end;
                  data := {| common_parameters := group COMMON;
                             build_parameters := group BUILD;
                             run_parameters := group RUN;
                             results := default [] (Documents.results sysdef) |} |};
     state := st; session_id := "s1" |}.

(** A session with one common parameter and one result. *)
Definition session_with_result (entries : option (list string)) (st : State)
  : Session.Session :=
  {| system := {| has_build := true;
                  data := {| common_parameters := [tracing_param];
                             build_parameters := []; run_parameters := [];
                             results := [("report",
                                          {| type := "text"; path := "out/report.txt";
                                             enabled_by := entries;
                                             result_description := None |})] |} |};
     state := st; session_id := "s1" |}.

(** ** Vocabulary of the further properties *)

(** A definition entry that marks a file parameter. *)
Definition is_file_entry (dv : Value) : bool :=
  match dv with
  | VCmplx c => match meta c with
                | Some (SysDefParameterFile true) => true
                | _ => false
                end
  | _ => false
  end.


(** ** Vocabulary of the execution *)

(** What the log shows for an output: the output, or the note that
    there was none. *)
Definition logged (command output : string) : string :=
  if String.eqb output "" then Execution.no_output command else output.

(** The log entry of an execution of [command] that gave [output]. *)
Definition execution_entry (rt : Execution.Runtime) (command output : string)
  : Documents.LogEntry :=
  {| Documents.timestamp := Execution.now rt;
     Documents.producer := "container." ++ command;
     Documents.message := Execution.start_marker ++ logged command output |}.

(** The text of an outcome: the output, or the text of the exception. *)
Definition outcome_text (rt : Execution.Runtime) (out : Raised.outcome string) : string :=
  match out with
  | Raised.Return o => o
  | Raised.Throw f => Raised.text_of (Execution.builtin_text rt) f
  end.

(** The execution of the system of a stored session, without progress
    callback. *)
Definition system_run (rt : Execution.Runtime) (command : string) (timeout : option Z)
    (progress : bool) (s : Execution.SessionObj) (fs : FS)
  : (System.System * FS) * (list string * Raised.outcome string) :=
  Execution.execute rt (Execution.system_id s) (Session.session_id (Execution.core s))
    command timeout progress (Session.system (Execution.core s)) fs.

(** The states that the execution of [command] ends in. *)
Definition success_state (command : string) : State :=
  if String.eqb command "build" then BUILT else RAN.

Definition failure_state (command : string) : State :=
  if String.eqb command "build" then FAILED_BUILD else FAILED_RUN.

(** The state while [command] executes in its thread. *)
Definition running_state (command : string) : State :=
  if String.eqb command "build" then BUILDING else RUNNING.

(** A session object in its store, with an empty log. *)
Definition demo_obj (sy : System.System) (st : State) : Execution.SessionObj :=
  {| Execution.core := {| Session.system := sy; Session.state := st;
                          Session.session_id := "s1" |};
     Execution.system_id := {| Execution.id_name := "demo"; Execution.id_version := "1.0" |};
     Execution.details := {| Execution.display_name := ""; Execution.session_description := "";
                             Execution.creator_name := ""; Execution.creation_date := "";
                             Execution.remote := None |};
     Execution.log_entries := [] |}.

(** A backend whose commands print [output], in one chunk when there
    is a progress callback. *)
Definition printing_backend (output : string) : Backend.ComputeInterface :=
  {| Backend.build_system := fun _ _ progress =>
       (if progress then [output] else [], Raised.Return output);
     Backend.run_system := fun _ _ progress =>
       (if progress then [output] else [], Raised.Return output);
     Backend.get_result := fun path => Raised.Return ("/srv/sessions/s1/results/" ++ path);
     Backend.stop_command := Raised.Return ();
     Backend.remove_resource := Raised.Return () |}.

Definition demo_runtime (backend : Backend.ComputeInterface) : Execution.Runtime :=
  {| Execution.host := demo_host; Execution.compute_backend := backend;
     Execution.now := "2025-01-01 00:00:00";
     Execution.dump_json := fun _ => [];
     Execution.builtin_text := fun _ => "" |}.

(** A system without a build command and without parameters. *)
Definition plain_system : System.System :=
  {| has_build := false;
     data := {| common_parameters := []; build_parameters := [];
                run_parameters := []; results := [] |} |}.

(** The file state of a parameter, if it is a file. *)
Definition fstate (p : Param) : option FileState := file_state <$> file_data p.

(** A parameter with a file that is STAGED (uploaded or fetched, not
    yet marked available). *)
Definition staged_file (p : Param) : Prop := fstate p = Some STAGED.

(** A system with a build command whose common group holds the staged
    file parameter. *)
Definition staged_common_system : System.System :=
  {| has_build := true;
     data := {| common_parameters := [staged_param]; build_parameters := [];
                run_parameters := []; results := [] |} |}.

(** ** Vocabulary of the creation of a session *)

(** The build command of a definition that counts: an empty one is
    none. *)
Definition effective_build_command (sysdef : Documents.SysDef) : option string :=
  match Documents.build_command sysdef with
  | Some c => if String.eqb c "" then None else Some c
  | None => None
  end.

(** The directory that the files of the system of a session go to. *)
Definition repository_path (rt : Execution.Runtime) (sid : string) : string :=
  join2 (join2 (SESSIONS_BASE_DIR (Execution.host rt)) sid) "repository".

(** A definition without build command and without parameters, its
    reference, and surroundings in which the creation works. *)
Definition plain_sysdef : Documents.SysDef :=
  {| Documents.dataformat := Some SYSDEF_DATAFORMAT_IDENTIFIER;
     Documents.name := "demo"; Documents.version := "1.0";
     Documents.docker_image := "demo:latest";
     Documents.build_command := None;
     Documents.run_command := "./run.sh";
     Documents.delete_command := None;
     Documents.common_parameters := None;
     Documents.build_parameters := None;
     Documents.run_parameters := None;
     Documents.results := Some [] |}.

Definition plain_sysref : SystemDb.System :=
  {| SystemDb.id := None; SystemDb.name := "demo"; SystemDb.version := "1.0";
     SystemDb.description := None; SystemDb.type := SystemDb.FILE;
     SystemDb.location := "/srv/systems/demo/sysdef.json"; SystemDb.branch := "" |}.

Definition plain_provisioning : Execution.Provisioning :=
  {| Execution.docker_from_env := Raised.Return ();
     Execution.systems_file := SystemDb.Holds [plain_sysref];
     Execution.copy_and_read := fun _ _ fs => (fs, Raised.Return plain_sysdef);
     Execution.repo_listing := fun _ _ => ["sysdef.json"];
     Execution.create_resource := fun _ => Raised.Return ();
     Execution.uuid4 := "s1" |}.

Definition plain_create_item : Execution.CreateSessionItem :=
  {| Execution.syscfg := Documents.from_sysdef plain_sysdef;
     Execution.creator := None; Execution.description := None;
     Execution.item_display_name := None; Execution.item_remote := Some false |}.

(** ** Vocabulary of the default configuration *)

(** The entries of the configuration that [SysCfg.from_sysdef] makes of
    a definition group: every name with its default. *)
Definition defaults_of (d : dict Value) : dict Value :=
  (λ kv, (kv.1, definition_default kv.2)) <$> d.

(** The origin and the container path of the file of a parameter. *)
Definition origin_of (p : Param) : option Value := file_data p ≫= file_path_origin.

Definition container_of (p : Param) : option Value := file_data p ≫= file_path_container.

(* ===================================================================== *)
(** * Properties                                                         *)
(* ===================================================================== *)

(** ** Session state machine *)

Lemma State_in_true (x : State) (l : list State) : State_in x l = true ↔ x ∈ l.
Proof. unfold State_in. apply bool_decide_eq_true. Qed.


Lemma precondition_build (session : Session.Session) :
  (busy (state session) →
     ∃ msg, precondition "build" session = Raise (UnexpectedSessionState msg)) ∧
  (¬ busy (state session) → precondition "build" session = Ok ()).
Proof.
  destruct session as [sy st sid]; unfold busy, precondition; simpl.
  destruct st; simpl; split; intros H; try reflexivity; eauto;
    try (exfalso; apply H; auto; fail);
    destruct H; discriminate.
Qed.

Lemma precondition_run (session : Session.Session) :
  let refused := busy (state session) ∨
                 (has_build (system session) = true ∧ ¬ runnable (state session)) in
  (refused → ∃ msg, precondition "run" session = Raise (UnexpectedSessionState msg)) ∧
  (¬ refused → precondition "run" session = Ok ()).
Proof.
  destruct session as [[hb d] st sid]; unfold busy, runnable, precondition; simpl.
  destruct st, hb; simpl; split; intros H; try reflexivity; eauto;
    try (exfalso; apply H; intuition (try discriminate; auto); fail);
    exfalso; intuition (try discriminate).
Qed.

(** C1.  For a stored session, [Session.execute(session_id, 'build')]
    fails with [UnexpectedSessionState] when the state is BUILDING or
    RUNNING; [Session.execute(session_id, 'run')] fails with it when the
    state is BUILDING or RUNNING or, for a system with a build command,
    when the state is not one of BUILT, RAN, FAILED_RUN; in every other
    state the precondition check passes and [execute] goes on to the rest
    of its steps. *)
Theorem C1_execute_precondition
    (store : gmap string Session.Session) (sid : string) (session : Session.Session) :
  store !! sid = Some session →
  let refused_run := busy (state session) ∨
                     (has_build (system session) = true ∧ ¬ runnable (state session)) in
  (busy (state session) →
     ∃ msg, execute_precondition_check store sid "build" = Raise (UnexpectedSessionState msg)
            ∧ ∀ rest, execute store sid "build" rest = Raise (UnexpectedSessionState msg)) ∧
  (¬ busy (state session) →
     execute_precondition_check store sid "build" = Ok ()
     ∧ ∀ rest, execute store sid "build" rest = rest) ∧
  (refused_run →
     ∃ msg, execute_precondition_check store sid "run" = Raise (UnexpectedSessionState msg)
            ∧ ∀ rest, execute store sid "run" rest = Raise (UnexpectedSessionState msg)) ∧
  (¬ refused_run →
     execute_precondition_check store sid "run" = Ok ()
     ∧ ∀ rest, execute store sid "run" rest = rest).
Proof.
  intros Hs refused_run.
  assert (Hc : ∀ c, execute_precondition_check store sid c = precondition c session).
  { intros c. unfold execute_precondition_check, open_session. rewrite Hs. reflexivity. }
  destruct (precondition_build session) as [Hb1 Hb2].
  destruct (precondition_run session) as [Hr1 Hr2].
  unfold execute. rewrite !Hc.
  repeat split.
  - intros H. destruct (Hb1 H) as [msg E]. exists msg. rewrite E. split; [|intros rest]; reflexivity.
  - rewrite (Hb2 H). reflexivity.
  - intros rest. rewrite (Hb2 H). reflexivity.
  - intros H. destruct (Hr1 H) as [msg E]. exists msg. rewrite E. split; [|intros rest]; reflexivity.
  - rewrite (Hr2 H). reflexivity.
  - intros rest. rewrite (Hr2 H). reflexivity.
Qed.

Lemma C1_execute_precondition_witness :
  ∃ msg, execute_precondition_check {[ "s1" := demo_session CREATED ]} "s1" "run"
         = Raise (UnexpectedSessionState msg).
Proof.
  destruct (C1_execute_precondition {[ "s1" := demo_session CREATED ]} "s1"
              (demo_session CREATED)) as (_ & _ & Hrun & _).
  - reflexivity.
  - destruct Hrun as (msg & E & _).
    + right. split; [reflexivity|]. unfold runnable; simpl. intros [H|[H|H]]; discriminate.
    + exists msg. exact E.
Defined.

(** ** Parameter mutation and the session state *)

Lemma update_state_regresses (g : ParameterGroup) (s : Session.Session) :
  regresses (has_build (system s)) g (state s)
    (state (update_state_after_param_change g s)).
Proof.
  destruct s as [[hb d] st sid].
  unfold regresses, build_ended, run_ended; simpl.
  destruct g, st, hb; repeat split; intros; try reflexivity;
    exfalso; intuition (discriminate || auto).
Qed.

Lemma update_state_keeps_system (g : ParameterGroup) (s : Session.Session) :
  system (update_state_after_param_change g s) = system s.
Proof.
  unfold update_state_after_param_change.
  repeat case_match; reflexivity.
Qed.

(** The run of C2 the specification singles out: a run parameter
    changed in RAN takes the session back to BUILT. *)
Example update_run_parameter_in_RAN :
  let s := {| system := {| has_build := true;
                           data := {| common_parameters := []; build_parameters := [];
                                      run_parameters := [level_param]; results := [] |} |};
              state := RAN; session_id := "s1" |} in
  (update RUN "level" (VInt 7) s).2 = Ok () ∧
  state (update RUN "level" (VInt 7) s).1 = BUILT ∧
  (value <$> get_parameter (system (update RUN "level" (VInt 7) s).1) RUN "level")
    = Some (VInt 7).
Proof. vm_compute. repeat split. Qed.

(** ** Mutation while a command executes *)

(** [Session.update] and [Session.add] refuse a busy session and leave
    it, and the files, as they are. *)
Lemma update_locked (g : ParameterGroup) (pname : string) (v : Value) (s : Session.Session) :
  busy (state s) → update g pname v s = (s, Raise LockedSessionError).
Proof. intros [H | H]; unfold update; rewrite H; reflexivity. Qed.

Lemma add_locked (h : Host) (g : ParameterGroup) (pname : string) (fname : option string)
    (file : Upload) (s : Session.Session) (fs : FS) :
  busy (state s) → add h g pname fname file s fs = ((s, fs), Raise LockedSessionError).
Proof. intros [H | H]; unfold add; rewrite H; reflexivity. Qed.

(** [Session.delete] never looks at the state before it resets the
    parameter: it raises only for an unknown parameter. *)
Lemma delete_not_locked (g : ParameterGroup) (pname : string) (s : Session.Session) (fs : FS) :
  (delete g pname s fs).2 ≠ Raise LockedSessionError.
Proof.
  unfold delete. destruct (get_parameter (system s) g pname); [|discriminate].
  destruct (reset _ fs). discriminate.
Qed.

Lemma find_store_parameter (pname : string) (p p' : Param) (l : list Param) :
  find_parameter pname l = Some p → name p' = pname →
  find_parameter pname (store_parameter pname p' l) = Some p'.
Proof.
  intros Hf Hn. induction l as [|q r IH]; simpl in *; [discriminate|].
  destruct (String.eqb (name q) pname) eqn:E; simpl.
  - by rewrite Hn, String.eqb_refl.
  - rewrite E. by apply IH.
Qed.

Lemma parameters_set_parameters (g : ParameterGroup) (l : list Param) (d : SystemData) :
  parameters (set_parameters g l d) g = l.
Proof. by destruct g. Qed.

Lemma reset_name (p : Param) (fs : FS) : name (reset p fs).1 = name p.
Proof. unfold reset. by destruct (file_data p). Qed.

Lemma find_parameter_name (pname : string) (p : Param) (l : list Param) :
  find_parameter pname l = Some p → name p = pname.
Proof.
  induction l as [|q r IH]; simpl; [discriminate|].
  destruct (String.eqb_spec (name q) pname); [by intros [= <-] | exact IH].
Qed.

(** In a busy session [Session.delete] goes through for every known
    parameter: the parameter is reset and the state stays busy. *)
Lemma delete_while_busy (g : ParameterGroup) (pname : string) (s : Session.Session)
    (fs : FS) (p : Param) :
  busy (state s) → get_parameter (system s) g pname = Some p →
  (delete g pname s fs).2 = Ok () ∧
  get_parameter (system (delete g pname s fs).1.1) g pname = Some (reset p fs).1 ∧
  (delete g pname s fs).1.2 = (reset p fs).2 ∧
  state (delete g pname s fs).1.1 = state s.
Proof.
  intros Hb Hp. unfold delete. rewrite Hp.
  destruct (reset p fs) as [p' fs'] eqn:Er. simpl.
  assert (Hn : name p' = pname).
  { pose proof (reset_name p fs) as H. rewrite Er in H. simpl in H.
    rewrite H. by apply find_parameter_name in Hp. }
  split; [done|]. split; [|split; [done|]].
  - rewrite update_state_keeps_system. unfold get_parameter; simpl.
    rewrite parameters_set_parameters. by apply (find_store_parameter pname p).
  - destruct (update_state_regresses g
                (set_system (put_parameter g pname p' (system s)) s)) as (H1 & H2 & H3).
    simpl in *. apply H3; unfold build_ended, run_ended;
      destruct Hb as [-> | ->]; intuition discriminate.
Qed.

(** C3 (what the code does).  In a session that is BUILDING,
    [Session.delete] on the build parameter [level] returns normally and
    the parameter is back at its default, where the statement asks for a
    [LockedSessionError] and an unchanged parameter. *)
Theorem C3_delete_in_BUILDING_resets :
  let s := demo_session BUILDING in
  (delete BUILD "level" s ∅).2 = Ok () ∧
  (value <$> get_parameter (system s) BUILD "level") = Some (VInt 3) ∧
  (value <$> get_parameter (system (delete BUILD "level" s ∅).1.1) BUILD "level")
    = Some (VInt 1) ∧
  state (delete BUILD "level" s ∅).1.1 = BUILDING.
Proof. vm_compute. repeat split. Qed.

(** ** Parameter resolution *)

Lemma dict_has_elem {V} (k : string) (d : dict V) : dict_has k d = true ↔ k ∈ dict_keys d.
Proof.
  unfold dict_has. rewrite existsb_exists. split.
  - intros (x & Hin & E). apply String.eqb_eq in E. subst. by apply list_elem_of_In.
  - intros Hin. exists k. split; [by apply list_elem_of_In | apply String.eqb_refl].
Qed.

Lemma dict_has_get {V} (k : string) (d : dict V) :
  dict_has k d = false → dict_get k d = None.
Proof.
  unfold dict_has, dict_keys. induction d as [|[k' v] r IH]; simpl; [done|].
  destruct (String.eqb k k'); simpl; [done | exact IH].
Qed.

Lemma init_not_overwritten (k : string) (dv : Value) :
  ∃ p, init k dv dv false = Ok p ∧ name p = k ∧ overwritten p = false ∧
       value p = definition_default dv ∧ default_value p = definition_default dv.
Proof.
  destruct dv as [|pr|u|c|items]; simpl; eauto 10.
  destruct c as [d [[vs|lo hi|[|]]|] ds]; simpl; eauto 10.
Qed.

Lemma init_overwritten (k : string) (v dv : Value) :
  (∀ t, encoded_credential dv (Some v) = Some t → is_ascii t) →
  ∃ p, init k v dv true = Ok p ∧ name p = k ∧ overwritten p = true ∧
       value p = v ∧ default_value p = definition_default dv.
Proof.
  intros Hc.
  destruct dv as [|pr|u|c|items]; simpl; eauto 10.
  destruct c as [d [[vs|lo hi|[|]]|] ds]; simpl; eauto 10.
  unfold parse_file_parameter; simpl.
  destruct v as [|pr|[u [t|]]|c|items]; simpl; eauto 10.
  unfold bytes_ascii. rewrite (Hc t eq_refl). simpl. eauto 10.
Qed.

Lemma check_syscfg_names_ok (def : dict Value) (names : list string) :
  (∀ k, k ∈ names → k ∈ dict_keys def) → check_syscfg_names def names = Ok ().
Proof.
  induction names as [|k r IH]; intros H; simpl; [done|].
  assert (Hk : dict_has k def = true) by (apply dict_has_elem, H; left).
  rewrite Hk. simpl. apply IH. intros k' Hk'. apply H. by right.
Qed.

Lemma check_syscfg_names_fails (def : dict Value) (names : list string) :
  (∃ k, k ∈ names ∧ k ∉ dict_keys def) →
  ∃ msg, check_syscfg_names def names = Raise (ValueError msg).
Proof.
  induction names as [|k r IH]; intros (k0 & Hin & Hout); simpl.
  - by apply elem_of_nil in Hin.
  - destruct (dict_has k def) eqn:E; simpl; [|eauto].
    apply IH. exists k0. split; [|done].
    apply elem_of_cons in Hin as [-> | Hin]; [|done].
    exfalso. apply Hout. by apply dict_has_elem.
Qed.

Lemma parse_entries_ok (cfg : option (dict Value)) (items : dict Value) :
  ∀ seen : list string,
    NoDup (seen ++ dict_keys items) →
    (∀ k dv t, (k, dv) ∈ items →
               encoded_credential dv (override_of cfg k) = Some t → is_ascii t) →
    ∃ ps, parse_entries cfg seen items = Ok ps ∧ Forall2 (resolved cfg) items ps.
Proof.
  induction items as [|[k dv] r IH]; intros seen Hnd Hc; simpl.
  - exists []. split; [done | constructor].
  - assert (Hfresh : existsb (String.eqb k) seen = false).
    { apply not_true_is_false. rewrite existsb_exists. intros (x & Hin & E).
      apply String.eqb_eq in E. subst x. apply NoDup_app in Hnd as (_ & Hd & _).
      apply (Hd k); [by apply list_elem_of_In | simpl; left]. }
    rewrite Hfresh.
    assert (Ho : match cfg with
                 | Some d => if dict_has k d
                             then match dict_get k d with
                                  | Some VNone | None => None
                                  | Some v => Some v
                                  end
                             else None
                 | None => None
                 end = override_of cfg k).
    { unfold override_of. destruct cfg as [d|]; [|done].
      destruct (dict_has k d) eqn:E; [done|]. by rewrite (dict_has_get _ _ E). }
    rewrite Ho.
    assert (Hp : ∃ p, match override_of cfg k with
                      | Some param_value => init k param_value dv true
                      | None => init k dv dv false
                      end = Ok p ∧ resolved cfg (k, dv) p).
    { unfold resolved; simpl. destruct (override_of cfg k) as [v|] eqn:Eo.
      - destruct (init_overwritten k v dv) as (p & -> & ? & ? & ? & ?).
        + intros t Ht. apply (Hc k dv t); [left | by rewrite Eo].
        + exists p. auto.
      - destruct (init_not_overwritten k dv) as (p & -> & ? & ? & ? & ?).
        exists p. auto. }
    destruct Hp as (p & -> & Hres). simpl.
    destruct (IH (seen ++ [k])%list) as (ps & -> & Hall).
    + rewrite <- app_assoc. exact Hnd.
    + intros k' dv' t Hin. apply Hc. by right.
    + simpl. exists (p :: ps). split; [done | by constructor].
Qed.

(** C4 (as stated, refuted).  The only configuration key, [input], names
    a definition entry, and resolution of the group fails all the same:
    the credential of the override is not ASCII and [bytes(.., 'ascii')]
    raises [UnicodeEncodeError] in the constructor of the parameter. *)
Lemma C4_resolution_fails_on_latin1_credential :
  let def := Some [input_entry] in
  let cfg := Some [input_override latin1_token] in
  (∀ k, k ∈ keys_of cfg → k ∈ keys_of def) ∧
  parse_parameter_group def cfg = Raise UnicodeEncodeError.
Proof.
  split; [|reflexivity].
  intros k Hk. exact Hk.
Qed.

(** C4 (amended).  For a definition group (a [dict], so with distinct
    names) and an optional configuration group:
    - if every configuration key names a definition entry, and every
      credential that comes with a URL override of a file parameter is
      ASCII, resolution succeeds with one parameter per definition entry,
      in order, which takes the non-null override as its value with
      [overwritten = true], or the definition's default with
      [overwritten = false] when there is no non-null override;
    - if some configuration key is absent from the definition group,
      resolution fails with [ValueError]. *)
Theorem C4_parameter_group_resolution (def cfg : option (dict Value)) :
  NoDup (keys_of def) →
  ((∀ k, k ∈ keys_of cfg → k ∈ keys_of def) →
   credentials_ascii def cfg →
   ∃ ps, parse_parameter_group def cfg = Ok ps ∧
         Forall2 (resolved cfg) (entries_of def) ps) ∧
  ((∃ k, k ∈ keys_of cfg ∧ k ∉ keys_of def) →
   ∃ msg, parse_parameter_group def cfg = Raise (ValueError msg)).
Proof.
  intros Hnd. split.
  - intros Hkeys Hcred. unfold parse_parameter_group.
    assert (Hcheck : match cfg with
                     | Some c =>
                         match def with
                         | None =>
                             if (0 <? length c)%nat
                             then Raise (ValueError
                                    "Cannot find parameter group of SysCfg file in SysDef file!")
                             else check_syscfg_names [] (dict_keys c)
                         | Some d => check_syscfg_names d (dict_keys c)
                         end
                     | None => Ok ()
                     end = Ok ()).
    { destruct cfg as [c|]; [|done]. destruct def as [d|].
      - by apply check_syscfg_names_ok.
      - destruct c as [|[k v] r]; [done|].
        exfalso. specialize (Hkeys k). simpl in Hkeys.
        eapply elem_of_nil, Hkeys. left. }
    rewrite Hcheck. simpl.
    destruct def as [d|].
    + apply (parse_entries_ok cfg d []); [exact Hnd | exact Hcred].
    + exists []. split; [done | constructor].
  - intros (k & Hin & Hout). unfold parse_parameter_group.
    destruct cfg as [c|]; [|by apply elem_of_nil in Hin].
    destruct def as [d|].
    + destruct (check_syscfg_names_fails d (dict_keys c)) as (msg & ->); [by exists k|].
      by exists msg.
    + destruct c as [|kv r]; [by apply elem_of_nil in Hin|]. simpl. eauto.
Qed.

Lemma C4_parameter_group_resolution_witness :
  ∃ ps, parse_parameter_group (Some [input_entry; ("level", VInt 1)])
          (Some [input_override "token"]) = Ok ps ∧
        Forall2 (resolved (Some [input_override "token"]))
          [input_entry; ("level", VInt 1)] ps.
Proof.
  apply (C4_parameter_group_resolution (Some [input_entry; ("level", VInt 1)])
           (Some [input_override "token"])).
  - simpl. repeat constructor; simpl; intros H;
      repeat (apply elem_of_cons in H as [H|H]; [discriminate|]);
      by apply elem_of_nil in H.
  - simpl. intros k Hk. apply list_elem_of_singleton in Hk. subst. left.
  - intros k dv t Hin. simpl in Hin.
    apply elem_of_cons in Hin as [Hin|Hin].
    + inversion Hin; subst. simpl. intros [= <-]. reflexivity.
    + apply list_elem_of_singleton in Hin. inversion Hin; subst. discriminate.
Defined.

(** ** Validation of complex definition parameters *)

(** What [check_default_value] accepts for an enum: the list has a first
    value, the default is an instance of that value's type and equal to
    one of the values. *)
Lemma check_default_value_enum (c : SysDefCmplxParameter) (vs : EnumValues) :
  meta c = Some (SysDefParameterEnum vs) →
  check_default_value c = Ok c ↔
  ∃ first, head (elements vs) = Some first ∧
           isinstance (Dataformats.default_value c) (type_of first) = true ∧
           py_in (Dataformats.default_value c) (elements vs) = true.
Proof.
  intros Hm. unfold check_default_value. rewrite Hm.
  destruct (elements vs) as [|first r] eqn:E; simpl.
  - split; [discriminate | intros (? & ? & _); discriminate].
  - destruct (isinstance (Dataformats.default_value c) (type_of first)) eqn:Ei; simpl.
    + destruct (py_eq (Dataformats.default_value c) first ||
                py_in (Dataformats.default_value c) r) eqn:Ein; simpl.
      * split; [|done]. intros _. by exists first.
      * split; [discriminate|]. intros (f & [= <-] & _ & H). discriminate.
    + split; [discriminate|]. intros (f & [= <-] & H & _). congruence.
Qed.

(** A rejected enum default is rejected by the validator itself, with
    [ValueError] or, for an empty list, [IndexError]. *)
Lemma check_default_value_total (c : SysDefCmplxParameter) :
  check_default_value c = Ok c ∨ ∃ e, check_default_value c = Raise e.
Proof.
  unfold check_default_value.
  destruct (meta c) as [[vs|lo hi|f]|]; [| | |by left].
  - destruct (index_first (elements vs)); simpl; [|eauto].
    repeat (case_match; eauto).
  - destruct (negb _); [eauto|].
    destruct (py_le (Num_prim lo) (Dataformats.default_value c)) as [[|]|]; simpl; [| |eauto].
    + destruct (py_le (Dataformats.default_value c) (Num_prim hi)) as [[|]|]; simpl; eauto.
    + eauto.
  - destruct (negb _); eauto.
Qed.

(** The first value of an enum has the element type of its list. *)
Lemma head_elements_type (vs : EnumValues) (first : Prim) :
  head (elements vs) = Some first → type_of first = enum_type vs.
Proof. destruct vs as [[|]|[|]|[|]|[|]]; simpl; intros [= <-]; reflexivity. Qed.

(** For a default that is not a boolean the statement holds: an accepted
    enum default has the type of the enum values and is one of them. *)
Lemma enum_default_same_type (c : SysDefCmplxParameter) (vs : EnumValues) :
  meta c = Some (SysDefParameterEnum vs) →
  type_of (Dataformats.default_value c) ≠ TBool →
  check_default_value c = Ok c →
  type_of (Dataformats.default_value c) = enum_type vs ∧
  py_in (Dataformats.default_value c) (elements vs) = true.
Proof.
  intros Hm Hb Hok. apply (check_default_value_enum c vs Hm) in Hok as (f & Hh & Hi & Hin).
  split; [|done]. rewrite <- (head_elements_type vs f Hh).
  destruct (Dataformats.default_value c), (type_of f); simpl in *; congruence.
Qed.

Lemma as_float_Num_prim (n : Num) : as_float (Num_prim n) = Some (bound n).
Proof. by destruct n. Qed.

Lemma numeric_as_float (d : Prim) :
  isinstance d TInt || isinstance d TFloat = true ↔ ∃ x, as_float d = Some x.
Proof.
  destruct d; simpl; split; eauto; try discriminate; intros [? ?]; discriminate.
Qed.

(** What [check_default_value] accepts for a range: a default that is
    an [int] (so also a [bool]) or a [float], between the bounds. *)
Lemma check_default_value_range (c : SysDefCmplxParameter) (lo hi : Num) :
  meta c = Some (SysDefParameterRange lo hi) →
  check_default_value c = Ok c ↔
  ∃ x, as_float (Dataformats.default_value c) = Some x ∧
       float_le (bound lo) x = true ∧ float_le x (bound hi) = true.
Proof.
  intros Hm. unfold check_default_value. rewrite Hm.
  destruct (isinstance (Dataformats.default_value c) TInt ||
            isinstance (Dataformats.default_value c) TFloat) eqn:En; cbn [negb].
  - apply numeric_as_float in En as [x Ex].
    unfold py_le. rewrite !as_float_Num_prim, Ex. cbn -[float_le].
    destruct (float_le (bound lo) x) eqn:El; cbn -[float_le].
    + destruct (float_le x (bound hi)) eqn:Eu; cbn -[float_le].
      * split; [|done]. intros _. by exists x.
      * split; [discriminate|]. intros (y & [= <-] & _ & ?). congruence.
    + split; [discriminate|]. intros (y & [= <-] & ? & _). congruence.
  - split; [discriminate|]. intros (x & Ex & _).
    assert (H : isinstance (Dataformats.default_value c) TInt ||
                isinstance (Dataformats.default_value c) TFloat = true)
      by (apply numeric_as_float; eauto).
    congruence.
Qed.

(** [float_le] on finite numbers is the order of the rationals. *)
Lemma float_le_finite (p q : Q) : float_le (Finite p) (Finite q) = true ↔ (p <= q)%Q.
Proof. simpl. apply Qle_bool_iff. Qed.

(** C5 (what the code does).  The complex parameter with default [true]
    and the enumerated integers [0, 1] passes [check_default_value]: a
    [bool] is an instance of [int] and [True == 1].  The default is a
    boolean, the enum values are integers, and validation does not fail. *)
Theorem C5_bool_default_passes_int_enum :
  let c := {| Dataformats.default_value := PBool true;
              meta := Some (SysDefParameterEnum (EInt [0; 1]));
              description := None |} in
  check_default_value c = Ok c ∧
  type_of (Dataformats.default_value c) ≠ enum_type (EInt [0; 1]).
Proof. split; [reflexivity | discriminate]. Qed.

(** The same slip on a range: the boolean default [true] passes for the
    range from 0 to 5. *)
Example bool_default_passes_range :
  let c := {| Dataformats.default_value := PBool true;
              meta := Some (SysDefParameterRange (NumInt 0) (NumInt 5));
              description := None |} in
  check_default_value c = Ok c.
Proof. reflexivity. Qed.

(** An enum default outside the set, and a range default outside the
    bounds, are rejected. *)
Example enum_default_not_member :
  check_default_value {| Dataformats.default_value := PStr "fast";
                         meta := Some (SysDefParameterEnum (EStr ["slow"; "exact"]));
                         description := None |}
  = Raise (ValueError "Unexpected default value of enum-parameter").
Proof. reflexivity. Qed.

Example range_default_outside :
  check_default_value {| Dataformats.default_value := PInt 11;
                         meta := Some (SysDefParameterRange (NumInt 0) (NumInt 10));
                         description := None |}
  = Raise (ValueError "Default value of range-parameter is not inside boundaries").
Proof. reflexivity. Qed.

(** ** The dataformat tag *)

(** [SysRef] pins its tag with [Literal]: only the recognized tag, or no
    tag, goes through. *)
Lemma SysRef_dataformat_pinned (tag : string) :
  succeeded (SysRef_dataformat (RawStr tag)) = true ↔ tag = "sysref:1.0".
Proof.
  unfold SysRef_dataformat, validate_literal.
  destruct (String.eqb_spec tag "sysref:1.0"); simpl; split; congruence.
Qed.

(** C9 (what the code does).  [SysDef.dataformat] and
    [SysCfg.dataformat] are declared [Optional[str]] with the recognized
    identifier as default only: every string, and [null], passes the
    validation of the field, so a document tagged [sysdef:9.9] or
    [syscfg:0.1] is not rejected. *)
Theorem C9_unrecognized_tag_accepted :
  (∀ tag, SysDef_dataformat (RawStr tag) = Ok (Some tag) ∧
          SysCfg_dataformat (RawStr tag) = Ok (Some tag)) ∧
  SysDef_dataformat (RawStr "sysdef:9.9") = Ok (Some "sysdef:9.9") ∧
  "sysdef:9.9" ≠ SYSDEF_DATAFORMAT_IDENTIFIER ∧
  SysCfg_dataformat (RawStr "syscfg:0.1") = Ok (Some "syscfg:0.1") ∧
  "syscfg:0.1" ≠ SYSCFG_DATAFORMAT_IDENTIFIER ∧
  SysDef_dataformat RawNull = Ok None ∧
  SysCfg_dataformat RawNull = Ok None.
Proof. repeat split; discriminate. Qed.

(** Documents that carry the recognized tag, or none, are accepted. *)
Lemma recognized_tag_accepted :
  SysDef_dataformat (RawStr SYSDEF_DATAFORMAT_IDENTIFIER) = Ok (Some SYSDEF_DATAFORMAT_IDENTIFIER) ∧
  SysCfg_dataformat (RawStr SYSCFG_DATAFORMAT_IDENTIFIER) = Ok (Some SYSCFG_DATAFORMAT_IDENTIFIER) ∧
  SysDef_dataformat Absent = Ok (Some SYSDEF_DATAFORMAT_IDENTIFIER) ∧
  SysCfg_dataformat Absent = Ok (Some SYSCFG_DATAFORMAT_IDENTIFIER).
Proof. repeat split. Qed.

(** ** Updating a parameter *)

(** X29.  What [update_parameter] makes of a boolean and of a string.  On a
    parameter whose current value is a boolean it takes a boolean new
    value as it is and turns a string new value into the boolean that
    tells whether the string, lowercased, equals ["true"]; on a
    parameter whose current value is not a boolean it stores any new
    value verbatim.  No other field of the parameter changes and nothing
    is checked against [meta_data]. *)
Lemma update_parameter_coercion (p : Param) :
  (is_bool (value p) = true →
     (∀ b, update_parameter (VBool b) p = Ok (set_value (VBool b) p)) ∧
     (∀ s, update_parameter (VStr s) p
           = Ok (set_value (VBool (bool_decide (lower s = "true"))) p))) ∧
  (is_bool (value p) = false →
     ∀ v, update_parameter v p = Ok (set_value v p)).
Proof.
  unfold update_parameter. split; intros ->.
  - split; [reflexivity|]. intros s. simpl.
    destruct (String.eqb_spec (lower s) "true") as [E|E].
    + by rewrite bool_decide_eq_true_2.
    + by rewrite bool_decide_eq_false_2.
  - reflexivity.
Qed.

Lemma update_parameter_coercion_witness :
  update_parameter (VStr "TRUE") (set_value (VBool false) tracing_param)
    = Ok tracing_param ∧
  update_parameter (VStr "yes") tracing_param
    = Ok (set_value (VBool false) tracing_param) ∧
  update_parameter (VStr "1") tracing_param
    = Ok (set_value (VBool false) tracing_param) ∧
  update_parameter (VStr "seven") level_param
    = Ok (set_value (VStr "seven") level_param).
Proof.
  destruct (update_parameter_coercion tracing_param) as [Hb _].
  destruct (update_parameter_coercion (set_value (VBool false) tracing_param)) as [Hb' _].
  destruct (update_parameter_coercion level_param) as [_ Hn].
  split; [|split; [|split]].
  - exact (proj2 (Hb' eq_refl) "TRUE").
  - exact (proj2 (Hb eq_refl) "yes").
  - exact (proj2 (Hb eq_refl) "1").
  - exact (Hn eq_refl (VStr "seven")).
Defined.

(** A new value that is neither a boolean nor a string has no [lower]:
    on a boolean parameter the call raises and nothing is stored. *)
Lemma update_boolean_with_number (p : Param) (z : Z) :
  is_bool (value p) = true → update_parameter (VInt z) p = Raise AttributeError.
Proof. unfold update_parameter. intros ->. reflexivity. Qed.

(** C10 (what the code does).  On a parameter whose current value is a
    boolean, a new value that is neither a boolean nor a string (a
    number or a [dict], which the update request admits as well) is not
    coerced: [new_value.lower()] raises [AttributeError], so
    [update_parameter] stores nothing, where the statement has the value
    become false.  The boolean build parameter [tracing] updated with
    the integer 1 through [Session.update] in a session that is BUILT:
    the call raises [AttributeError], an exception that the handler of
    the request does not catch, and the session is left as it was. *)
Theorem C10_number_for_boolean_raises :
  (∀ p v, is_bool (value p) = true → is_bool v = false → (∀ t, v ≠ VStr t) →
          update_parameter v p = Raise AttributeError) ∧
  is_bool (value tracing_param) = true ∧
  update_parameter (VInt 1) tracing_param = Raise AttributeError ∧
  update BUILD "tracing" (VInt 1) (demo_session BUILT)
  = (demo_session BUILT, Raise AttributeError).
Proof.
  split; [|by repeat split].
  intros p v Hp Hv Hs. unfold update_parameter. rewrite Hp, Hv.
  destruct v as [|[t| | |]|u|c|items]; try reflexivity.
  by destruct (Hs t).
Qed.

(** ** Reset *)

(** C8.  [reset] is idempotent on the parameter and on the files, and
    restores the recorded default: the value of a parameter without file
    data becomes its default value; a file parameter is in DEFAULT state
    with file name, origin, local path and credentials discarded and the
    container path at the default of the definition, and its staged copy
    is gone from the file system. *)
Theorem C8_reset_idempotent_restores_default (p : Param) (fs : FS) :
  reset (reset p fs).1 (reset p fs).2 = reset p fs ∧
  (file_data p = None →
     value (reset p fs).1 = default_value p ∧ (reset p fs).2 = fs) ∧
  (∀ fd, file_data p = Some fd →
     file_data (reset p fs).1 = Some (default_file_data fd) ∧
     value (reset p fs).1 = value p ∧
     ∀ l, file_path_local fd = Some l → (reset p fs).2 !! l = None).
Proof.
  unfold reset. destruct p as [n v o m [fd|] d]; simpl.
  - split; [reflexivity | split; [discriminate|]].
    intros fd' [= <-]. split; [reflexivity | split; [reflexivity|]].
    intros l ->. case_bool_decide as Hl.
    + apply lookup_delete_eq.
    + destruct (fs !! l) eqn:E; [|done]. exfalso. apply Hl. eauto.
  - split; [reflexivity | split; [intros _; split; reflexivity | discriminate]].
Qed.

Lemma C8_reset_witness :
  (file_state <$> file_data (reset staged_param staged_files).1) = Some DEFAULT ∧
  (reset staged_param staged_files).2
    !! "/srv/sessions/s1/inputs/run_parameters/input/data.bin" = None ∧
  value (reset level_param ∅).1 = VInt 1.
Proof.
  destruct (C8_reset_idempotent_restores_default staged_param staged_files)
    as (_ & _ & Hf).
  destruct (C8_reset_idempotent_restores_default level_param ∅) as (_ & Hv & _).
  destruct (Hf _ eq_refl) as (Hfd & _ & Hl).
  split; [|split].
  - rewrite Hfd. reflexivity.
  - apply Hl. reflexivity.
  - apply Hv. reflexivity.
Defined.

(** ** Staging of file parameters *)

(** The constructor never gives the file data a name. *)
Lemma init_file_name (k : string) (v dv : Value) (ow : bool) (p : Param) (fd : FileData) :
  init k v dv ow = Ok p → file_data p = Some fd → file_name fd = None.
Proof.
  unfold init. destruct dv as [|pr|u|c|items]; try (intros [= <-]; discriminate).
  destruct c as [d [[vs|lo hi|[|]]|] ds]; simpl; try (intros [= <-]; discriminate).
  unfold parse_file_parameter; simpl. destruct ow; simpl.
  - destruct v as [|pr|[u [t|]]|c|items]; simpl;
      try (intros [= <-]; simpl; intros [= <-]; reflexivity).
    destruct (bytes_ascii t); simpl; [|discriminate].
    intros [= <-]; simpl; intros [= <-]; reflexivity.
  - intros [= <-]; simpl; intros [= <-]; reflexivity.
Qed.

(** A pending file without a name whose origin is an existing file:
    [os.path.join(destination_path, None)] raises [TypeError] before
    anything is copied, and the parameter stays as it is. *)
Lemma stage_local_origin_raises (h : Host) (sid : string) (g : ParameterGroup)
    (p : Param) (fd : FileData) (fs : FS) :
  file_data p = Some fd → file_state fd = PENDING → file_name fd = None →
  isfile h fs (file_path_origin fd) = Ok true →
  stage_file h sid g p fs = ((p, fs), Raise TypeError).
Proof.
  intros Hfd Hst Hn Hi. unfold stage_file. rewrite Hfd, Hst, Hi, Hn. reflexivity.
Qed.

(** C6 (what the code does).  The file parameter [input], overridden in
    the configuration by the path [/data/in.bin] of an existing local
    file, is PENDING after construction; [stage_file] then raises
    [TypeError], copies nothing and leaves the parameter PENDING, where
    the statement has the file copied and the state STAGED. *)
Theorem C6_local_origin_is_not_staged :
  let fs : FS := {[ "/data/in.bin" := [Byte.x2a] ]} in
  ∃ p, init "input" (VStr "/data/in.bin") input_entry.2 true = Ok p ∧
       (file_state <$> file_data p) = Some PENDING ∧
       (file_path_origin <$> file_data p) = Some (Some (VStr "/data/in.bin")) ∧
       stage_file demo_host "s1" RUN p fs = ((p, fs), Raise TypeError).
Proof. eexists. repeat split. Qed.


(** *** Path segments *)

Lemma split_no_slash (s : string) : no_slash s → split "/" s = [s].
Proof.
  unfold no_slash. induction s as [|c r IH]; simpl; [done|].
  intros H. apply andb_prop in H as [Hc Hr].
  destruct (Ascii.eqb c "/"); [discriminate|]. by rewrite (IH Hr).
Qed.




Lemma append_cons (c : ascii) (a b : string) :
  String.append (String c a) b = String c (String.append a b).
Proof. reflexivity. Qed.






Example stage_download_with_token :
  stage_file (host_with token_server) "s1" RUN (pending_url_param (Some [Byte.x6b])) ∅
  = ((set_file_data
        (Some {| file_name := Some "data.bin"; file_state := STAGED;
                 file_path_default := VStr "data/in.bin";
                 file_path_origin := Some (VStr "https://example/data.bin");
                 file_path_local :=
                   Some "/srv/sessions/s1/inputs/run_parameters/input/data.bin";
                 file_path_container :=
                   Some (VStr "/sysapi/inputs/run_parameters/input/data.bin");
                 credentials := Some [Byte.x6b] |})
        (pending_url_param (Some [Byte.x6b])),
      {[ "/srv/sessions/s1/inputs/run_parameters/input/data.bin" := [Byte.x2a] ]}),
     Ok ()).
Proof. vm_compute. reflexivity. Qed.

Example stage_download_http_error :
  stage_file (host_with token_server) "s1" RUN (pending_url_param None) ∅
  = ((pending_url_param None, ∅),
     Raise (FileNotFoundError
              "Unable to download file from URL 'https://example/data.bin' for the parameter 'input': HTTP Error 401: Unauthorized")).
Proof. vm_compute. reflexivity. Qed.

(** Only [HTTPError] is caught: a host that cannot be reached makes
    [urlopen] raise [URLError], which [stage_file] lets through. *)
Example stage_download_url_error :
  stage_file demo_host "s1" RUN (pending_url_param None) ∅
  = ((pending_url_param None, ∅), Raise (URLError "unreachable")).
Proof. vm_compute. reflexivity. Qed.

(** A URL that ends in the separator has the empty last segment: the
    destination is the input directory itself and [open] raises. *)
Example stage_download_trailing_slash :
  let p := set_file_data
             (Some {| file_name := None; file_state := PENDING;
                      file_path_default := VStr "data/in.bin";
                      file_path_origin := Some (VStr "https://example/dir/");
                      file_path_local := None; file_path_container := None;
                      credentials := None |}) (pending_url_param None) in
  (stage_file (host_with (fun _ _ => Fetched [Byte.x2a])) "s1" RUN p ∅).2
  = Raise IsADirectoryError.
Proof. vm_compute. reflexivity. Qed.

(** ** Mutation of a parameter through the session *)












(** ** Result availability *)

Lemma at_least_BUILT (st : State) :
  at_least BUILT st ↔ State_in st [BUILT; RUNNING; RAN; FAILED_RUN] = true.
Proof.
  split.
  - intros H.
    assert (G : ∀ a b, rtc lifecycle a b →
                State_in a [BUILT; RUNNING; RAN; FAILED_RUN] = true →
                State_in b [BUILT; RUNNING; RAN; FAILED_RUN] = true).
    { induction 1 as [|a b c Hs _ IH]; [done|].
      intros Ha. apply IH. destruct Hs; try reflexivity; discriminate. }
    exact (G BUILT st H eq_refl).
  - unfold at_least. destruct st; try discriminate; intros _.
    + apply rtc_refl.
    + apply rtc_once. constructor.
    + eapply rtc_l; [apply start_run|]. apply rtc_once. constructor.
    + eapply rtc_l; [apply start_run|]. apply rtc_once. constructor.
Qed.

(** BUILDING and FAILED_BUILD are not at least BUILT. *)
Lemma not_at_least_BUILT :
  ¬ at_least BUILT CREATED ∧ ¬ at_least BUILT BUILDING ∧ ¬ at_least BUILT FAILED_BUILD.
Proof. repeat split; rewrite at_least_BUILT; discriminate. Qed.

(** The membership test [self.state not in State.RAN] is a substring
    test on the strings the members are; it tells RAN from the rest. *)
Lemma state_in_RAN (st : State) :
  str_contains (State_value st) (State_value RAN) = true ↔ st = RAN.
Proof. destruct st; vm_compute; split; congruence. Qed.

Lemma check_enable_entry_resolved (self : Session.Session) (name0 entry : string)
    (g : ParameterGroup) (p : Param) :
  resolves self entry g p →
  check_enable_entry self name0 entry = Ok (entry_verdict self name0 g p).
Proof.
  intros (pname & -> & Hns & Hp).
  unfold check_enable_entry, pointer, entry_verdict.
  destruct g; cbv [ParameterGroup_value String.append]; simpl;
    rewrite (split_no_slash pname Hns); simpl; rewrite Hp;
    destruct (value p) as [|[s|[|]|z|f]|u|c|items]; try reflexivity;
    simpl; repeat case_match; reflexivity.
Qed.

Lemma entry_verdict_None (self : Session.Session) (name0 : string)
    (g : ParameterGroup) (p : Param) :
  entry_verdict self name0 g p = None ↔
  value p = VBool true ∧ (g = BUILD → at_least BUILT (state self)) ∧
  (g = RUN → state self = RAN).
Proof.
  unfold entry_verdict. rewrite at_least_BUILT, <- state_in_RAN.
  destruct (value p) as [|[s|[|]|z|f]|u|c|items];
    try (split; [discriminate | intros [? _]; discriminate]).
  destruct (State_in (state self) [BUILT; RUNNING; RAN; FAILED_RUN]);
    destruct (str_contains (State_value (state self)) (State_value RAN));
    destruct g; simpl; split; try discriminate; try (intros _; repeat split; done);
    intros (_ & H1 & H2); try (specialize (H1 eq_refl)); try (specialize (H2 eq_refl));
    discriminate.
Qed.

Lemma entry_verdict_not_boolean (self : Session.Session) (name0 : string)
    (g : ParameterGroup) (p : Param) :
  is_bool (value p) = false →
  entry_verdict self name0 g p = Some (not_boolean_message name0 p).
Proof.
  unfold entry_verdict. destruct (value p) as [|[s|[|]|z|f]|u|c|items]; done.
Qed.

Lemma check_enabled_by_resolved (self : Session.Session) (name0 : string)
    (entries : list string) :
  Forall (λ e, ∃ g p, resolves self e g p) entries →
  ∃ verdict, check_enabled_by self name0 entries = Ok verdict ∧
             (verdict = None ↔ Forall (enabler_satisfied self) entries).
Proof.
  induction 1 as [|e r (g & p & Hres) _ (v & IHv & IHiff)]; simpl.
  - exists None. split; [done|]. split; [constructor | done].
  - rewrite (check_enable_entry_resolved self name0 e g p Hres). simpl.
    destruct (entry_verdict self name0 g p) as [m|] eqn:Ev.
    + exists (Some m). split; [done|]. split; [discriminate|].
      intros Hall. apply Forall_cons in Hall as [(g' & p' & Hres' & Hsat) _].
      pose proof (check_enable_entry_resolved self name0 e g p Hres) as E1.
      rewrite (check_enable_entry_resolved self name0 e g' p' Hres') in E1.
      injection E1 as E1. rewrite Ev in E1.
      apply (entry_verdict_None self name0) in Hsat. congruence.
    + exists v. split; [exact IHv|]. rewrite IHiff. split.
      * intros Hr. constructor; [|exact Hr]. exists g, p. split; [exact Hres|].
        by apply (entry_verdict_None self name0).
      * intros Hall. by apply Forall_cons in Hall as [_ ?].
Qed.

Lemma check_enabled_by_skip (self : Session.Session) (name0 : string)
    (pre rest : list string) :
  Forall (enabler_satisfied self) pre →
  check_enabled_by self name0 (pre ++ rest) = check_enabled_by self name0 rest.
Proof.
  induction 1 as [|e r (g & p & Hres & Hsat) _ IH]; simpl; [done|].
  rewrite (check_enable_entry_resolved self name0 e g p Hres). simpl.
  apply (entry_verdict_None self name0) in Hsat. rewrite Hsat. exact IH.
Qed.

(** X28.  The verdict on a result whose enabling references resolve.  For a
    result of the definition whose enabling references resolve to
    parameters of the session, [get_result_availability] returns, and
    returns [(True, None)] exactly when the result is available: [enabled_by] is absent and the state is RAN, or every
    enabling reference points to a parameter whose value is the boolean
    true, with the state at least BUILT (BUILT, RUNNING, RAN or
    FAILED_RUN: BUILT or a state after it in the life cycle, so neither
    BUILDING nor FAILED_BUILD) for a reference into the build group and
    the state RAN for a reference into the run group.  In every other case
    it returns [False] with a message, and the first reference not
    satisfied that points to a parameter that is not a boolean gives the
    message that the definition is invalid for this result. *)
Lemma result_availability_of_resolving_references (self : Session.Session) (name0 : string)
    (r : SysDefResult) :
  dict_get name0 (results (data (system self))) = Some r →
  (∀ entries, enabled_by r = Some entries →
              Forall (λ e, ∃ g p, resolves self e g p) entries) →
  ∃ verdict,
    get_result_availability self name0 = Ok verdict ∧
    (verdict = (true, None) ↔ available self r) ∧
    (¬ available self r → ∃ message, verdict = (false, Some message)) ∧
    (∀ (pre : list string) (e : string) (post : list string) g p,
       enabled_by r = Some (pre ++ e :: post)%list →
       Forall (enabler_satisfied self) pre →
       resolves self e g p → is_bool (value p) = false →
       verdict = (false, Some (not_boolean_message name0 p))).
Proof.
  intros Hr Hres. unfold get_result_availability, available. rewrite Hr.
  destruct (enabled_by r) as [entries|] eqn:Een.
  - destruct (check_enabled_by_resolved self name0 entries (Hres entries eq_refl))
      as (v & Hv & Hiff).
    rewrite Hv. simpl. destruct v as [m|].
    + exists (false, Some m). split; [done|]. split; [|split].
      * split; [discriminate|]. intros H. apply Hiff in H. discriminate.
      * intros _. by exists m.
      * intros pre e post g p [= ->] Hpre Hp Hnb.
        rewrite (check_enabled_by_skip self name0 pre (e :: post) Hpre) in Hv.
        simpl in Hv. rewrite (check_enable_entry_resolved self name0 e g p Hp) in Hv.
        rewrite (entry_verdict_not_boolean self name0 g p Hnb) in Hv. simpl in Hv.
        congruence.
    + exists (true, None). split; [done|]. split; [|split].
      * split; [intros _; by apply Hiff | done].
      * intros H. exfalso. apply H. by apply Hiff.
      * intros pre e post g p [= ->] Hpre Hp Hnb.
        rewrite (check_enabled_by_skip self name0 pre (e :: post) Hpre) in Hv.
        simpl in Hv. rewrite (check_enable_entry_resolved self name0 e g p Hp) in Hv.
        rewrite (entry_verdict_not_boolean self name0 g p Hnb) in Hv. simpl in Hv.
        discriminate.
  - case_bool_decide as Hst; simpl.
    + exists (true, None). split; [done|]. split; [done|]. split; [done|].
      intros; discriminate.
    + exists (false, Some (state_message name0 (state self) RAN)).
      split; [done|]. split; [|split].
      * split; [discriminate | done].
      * intros _. eauto.
      * intros; discriminate.
Qed.

Lemma tracing_resolves (st : State) :
  resolves (demo_session st) "#/build_parameters/tracing" BUILD tracing_param.
Proof. exists "tracing". repeat split. Qed.

Lemma result_availability_of_resolving_references_witness :
  get_result_availability (demo_session RAN) "trace.vcd" = Ok (true, None) ∧
  (∃ message, get_result_availability (demo_session FAILED_BUILD) "trace.vcd"
              = Ok (false, Some message)).
Proof.
  split.
  - destruct (result_availability_of_resolving_references (demo_session RAN) "trace.vcd"
                {| type := "vcd"; path := "out/trace.vcd";
                   enabled_by := Some ["#/build_parameters/tracing"];
                   result_description := None |}) as (v & -> & Hav & _).
    + reflexivity.
    + intros entries [= <-]. constructor; [|constructor].
      exists BUILD, tracing_param. apply tracing_resolves.
    + f_equal. apply Hav. simpl. constructor; [|constructor].
      exists BUILD, tracing_param. split; [apply tracing_resolves|].
      split; [reflexivity|]. split; [|discriminate].
      intros _. apply at_least_BUILT. reflexivity.
  - destruct (result_availability_of_resolving_references (demo_session FAILED_BUILD) "trace.vcd"
                {| type := "vcd"; path := "out/trace.vcd";
                   enabled_by := Some ["#/build_parameters/tracing"];
                   result_description := None |}) as (v & -> & _ & Hna & _).
    + reflexivity.
    + intros entries [= <-]. constructor; [|constructor].
      exists BUILD, tracing_param. apply tracing_resolves.
    + destruct Hna as [m ->]; [|by exists m].
      simpl. intros Hall. apply Forall_cons in Hall as [(g & p & Hres & _ & Hb & _) _].
      destruct Hres as (pname & Hpt & _ & _).
      assert (g = BUILD) as ->.
      { destruct g; [discriminate | reflexivity | discriminate]. }
      apply (proj2 (proj2 not_at_least_BUILT)).
      by apply Hb.
Defined.

(** C7 (what the code does).  Two results that the definition format
    accepts and on which [get_result_availability] does not do what the
    statement says.  The definition with the boolean build parameter
    [tracing] and the enabling reference [#/build_parameters/tracing/extra]
    passes [SysDef.check_result_enabled_by], which reads the segments 1
    and 2 of the reference; [get_result_availability] reads the last two
    segments, looks for a parameter group named [tracing] and raises
    [ValueError] in every state, where the statement has it return
    not-available with a message.  And a result whose list of enabling
    references is empty is reported available in every state, CREATED
    included, where the statement has a result without enabling
    references available in RAN only. *)
Theorem C7_accepted_reference_raises :
  Documents.check_result_enabled_by long_pointer_sysdef = Ok long_pointer_sysdef ∧
  (value <$> get_parameter (system (session_of long_pointer_sysdef RAN)) BUILD "tracing")
  = Some (VBool true) ∧
  (∀ st, ∃ msg, get_result_availability (session_of long_pointer_sysdef st) "trace.vcd"
                = Raise (ValueError msg)) ∧
  (∀ st, get_result_availability (session_with_result (Some []) st) "report"
         = Ok (true, None)).
Proof.
  split; [reflexivity|]. split; [reflexivity|]. split.
  - intros st. eexists. reflexivity.
  - intros st. reflexivity.
Qed.

(** The enabler of a result with no state condition of its own: a
    reference into the common group is satisfied in every state. *)
Example common_enabler_in_CREATED :
  let flag := {| name := "verbose"; value := VBool true; overwritten := false;
                 meta_data := None; file_data := None; default_value := VBool true |} in
  let s := {| system := {| has_build := true;
                           data := {| common_parameters := [flag];
                                      build_parameters := []; run_parameters := [];
                                      results := [("report",
                                        {| type := "text"; path := "out/report.txt";
                                           enabled_by := Some ["#/common_parameters/verbose"];
                                           result_description := None |})] |} |};
              state := CREATED; session_id := "s1" |} in
  get_result_availability s "report" = Ok (true, None).
Proof. reflexivity. Qed.

(* ===================================================================== *)
(** * Further properties of the code                                     *)
(* ===================================================================== *)

(** ** Session: parameter operations and the state *)

(** X1.  A parameter name that the group does not hold is refused with
    [ValueError] by [Session.delete] in every state, and by
    [Session.update] and [Session.add] in every state that is not busy;
    the session and the files are unchanged. *)
Theorem unknown_parameter_is_refused (h : Host) (g : ParameterGroup) (pname : string)
    (s : Session.Session) (fs : FS) :
  get_parameter (system s) g pname = None →
  (∃ msg, delete g pname s fs = ((s, fs), Raise (ValueError msg))) ∧
  (¬ busy (state s) →
     (∀ v, ∃ msg, update g pname v s = (s, Raise (ValueError msg))) ∧
     (∀ fname file, ∃ msg, add h g pname fname file s fs = ((s, fs), Raise (ValueError msg)))).
Proof.
  intros Hp. split.
  - unfold delete. rewrite Hp. eauto.
  - intros Hb.
    assert (Hin : State_in (state s) [BUILDING; RUNNING] = false).
    { unfold busy in Hb. destruct (state s); try reflexivity; exfalso; apply Hb; auto. }
    split.
    + intros v. unfold update. rewrite Hin, Hp. eauto.
    + intros fname file. unfold add. rewrite Hin, Hp. eauto.
Qed.

Lemma unknown_parameter_is_refused_witness :
  ∃ msg, delete RUN "level" (demo_session BUILT) ∅
         = ((demo_session BUILT, ∅), Raise (ValueError msg)).
Proof.
  apply (unknown_parameter_is_refused demo_host RUN "level" (demo_session BUILT) ∅).
  reflexivity.
Defined.

(** X2.  [Session.__update_state_after_param_change] is idempotent, and
    it neither makes a session busy nor ends a busy state: a second
    change of the same group does not move the state again. *)
Theorem state_after_change_idempotent (g : ParameterGroup) (s : Session.Session) :
  update_state_after_param_change g (update_state_after_param_change g s)
    = update_state_after_param_change g s ∧
  (busy (state (update_state_after_param_change g s)) ↔ busy (state s)).
Proof.
  destruct s as [[hb d] st sid]. unfold busy.
  destruct g, st, hb; (split; [reflexivity|]); simpl;
    split; intros [H|H]; try discriminate; auto.
Qed.

Lemma update_ok_state (g : ParameterGroup) (pname : string) (v : Value)
    (s s' : Session.Session) :
  update g pname v s = (s', Ok ()) →
  state s' = state (update_state_after_param_change g s) ∧
  has_build (system s') = has_build (system s).
Proof.
  unfold update. destruct (State_in (state s) [BUILDING; RUNNING]); [discriminate|].
  destruct (get_parameter (system s) g pname) as [p|]; [|discriminate].
  destruct (update_parameter v p) as [p'|e]; [|discriminate].
  intros [= <-]. rewrite update_state_keeps_system.
  destruct s as [[hb d] st sid]. split; [|reflexivity].
  unfold update_state_after_param_change; simpl. repeat case_match; reflexivity.
Qed.

(** X3.  After a successful [Session.update] of a common or build
    parameter in a session that has a build command and whose build had
    ended, [run] is refused by the precondition check and [build] is
    admitted: the system has to be built again.  After a successful
    update of a run parameter in RAN or FAILED_RUN, [run] is admitted
    without a new build. *)
Theorem run_needs_rebuild_after_build_parameter_change (g : ParameterGroup)
    (pname : string) (v : Value) (s s' : Session.Session) :
  has_build (system s) = true →
  update g pname v s = (s', Ok ()) →
  ((g = COMMON ∨ g = BUILD) → build_ended (state s) →
     (∃ msg, precondition "run" s' = Raise (UnexpectedSessionState msg)) ∧
     precondition "build" s' = Ok ()) ∧
  (g = RUN → run_ended (state s) → precondition "run" s' = Ok ()).
Proof.
  intros Hhb Hu. apply update_ok_state in Hu as [Hst Hhb'].
  rewrite Hhb in Hhb'.
  destruct s as [[hb d] st sid], s' as [[hb' d'] st' sid']. simpl in *. subst hb hb'.
  unfold build_ended, run_ended. split.
  - intros Hg Hs. unfold precondition; simpl. rewrite Hst.
    destruct Hg as [-> | ->], Hs as [-> | [-> | [-> | ->]]]; simpl; eauto.
  - intros -> Hs. unfold precondition; simpl. rewrite Hst.
    destruct Hs as [-> | ->]; reflexivity.
Qed.

Lemma run_needs_rebuild_witness :
  ∃ msg, precondition "run" (update BUILD "level" (VInt 5) (demo_session RAN)).1
         = Raise (UnexpectedSessionState msg).
Proof.
  destruct (run_needs_rebuild_after_build_parameter_change BUILD "level" (VInt 5)
              (demo_session RAN) (update BUILD "level" (VInt 5) (demo_session RAN)).1)
    as [H _].
  - reflexivity.
  - reflexivity.
  - destruct H as [Hrun _].
    + by right.
    + unfold build_ended. simpl. auto.
    + exact Hrun.
Defined.

(** ** Session: result availability *)

(** X4.  A result whose [enabled_by] is the empty list is reported
    available in every session state: the loop has nothing to check and
    the check on RAN applies only when [enabled_by] is absent. *)
Theorem empty_enabler_list_is_available (self : Session.Session) (name0 : string)
    (r : SysDefResult) :
  dict_get name0 (results (data (system self))) = Some r →
  enabled_by r = Some [] →
  get_result_availability self name0 = Ok (true, None).
Proof.
  intros Hr He. unfold get_result_availability. rewrite Hr, He. reflexivity.
Qed.

Lemma empty_enabler_list_is_available_witness :
  get_result_availability (session_with_result (Some []) CREATED) "report" = Ok (true, None).
Proof.
  apply (empty_enabler_list_is_available (session_with_result (Some []) CREATED) "report"
           {| type := "text"; path := "out/report.txt"; enabled_by := Some [];
              result_description := None |}); reflexivity.
Defined.

(** X5.  Enabling references into the common group carry no condition
    on the state: a result all of whose references point to common
    parameters with the value true is available in every session state,
    CREATED included. *)
Theorem common_enablers_ignore_state (self : Session.Session) (name0 : string)
    (r : SysDefResult) (entries : list string) :
  dict_get name0 (results (data (system self))) = Some r →
  enabled_by r = Some entries →
  Forall (λ e, ∃ p, resolves self e COMMON p ∧ value p = VBool true) entries →
  get_result_availability self name0 = Ok (true, None).
Proof.
  intros Hr He Hall. unfold get_result_availability. rewrite Hr, He.
  assert (Hc : check_enabled_by self name0 entries = Ok None).
  { clear Hr He. induction Hall as [|e l (p & Hres & Hv) _ IH]; [reflexivity|].
    simpl. rewrite (check_enable_entry_resolved self name0 e COMMON p Hres).
    unfold entry_verdict. rewrite Hv. simpl. exact IH. }
  rewrite Hc. reflexivity.
Qed.

Lemma common_enablers_ignore_state_witness :
  get_result_availability
    (session_with_result (Some ["#/common_parameters/tracing"]) CREATED) "report"
  = Ok (true, None).
Proof.
  apply (common_enablers_ignore_state
           (session_with_result (Some ["#/common_parameters/tracing"]) CREATED) "report"
           {| type := "text"; path := "out/report.txt";
              enabled_by := Some ["#/common_parameters/tracing"];
              result_description := None |} ["#/common_parameters/tracing"]);
    [reflexivity | reflexivity |].
  constructor; [|constructor]. exists tracing_param. split; [|reflexivity].
  exists "tracing". repeat split.
Defined.

(** ** Parameters: construction, upload, staging *)











(** X11.  An update that succeeds changes the value only: name, default
    value, overwritten flag, meta data and file data stay, a boolean
    parameter stays boolean whatever was given, and a reset of a
    parameter that is no file gives the default value back. *)
Theorem update_changes_the_value_only (v : Value) (p p' : Param) :
  update_parameter v p = Ok p' →
  name p' = name p ∧ default_value p' = default_value p ∧
  overwritten p' = overwritten p ∧ meta_data p' = meta_data p ∧
  file_data p' = file_data p ∧
  (is_bool (value p) = true → is_bool (value p') = true) ∧
  (file_data p = None → ∀ fs, value (reset p' fs).1 = default_value p).
Proof.
  unfold update_parameter.
  assert (Hset : ∀ w, (is_bool (value p) = true → is_bool w = true) →
            Ok (set_value w p) = Ok p' →
            name p' = name p ∧ default_value p' = default_value p ∧
            overwritten p' = overwritten p ∧ meta_data p' = meta_data p ∧
            file_data p' = file_data p ∧
            (is_bool (value p) = true → is_bool (value p') = true) ∧
            (file_data p = None → ∀ fs, value (reset p' fs).1 = default_value p)).
  { intros w Hw [= <-]. simpl. split; [done|]. split; [done|]. split; [done|].
    split; [done|]. split; [done|]. split; [done|].
    intros Hfd fs. unfold reset. simpl. by rewrite Hfd. }
  destruct (is_bool (value p)) eqn:Eb.
  - destruct (is_bool v) eqn:Ev; [by apply Hset|].
    destruct (value_lower v) as [l|e]; simpl; [|discriminate].
    destruct (String.eqb l "true"); by apply Hset.
  - apply Hset. discriminate.
Qed.

Lemma update_changes_the_value_only_witness :
  value (reset (set_value (VBool false) tracing_param) ∅).1 = VBool false.
Proof.
  destruct (update_changes_the_value_only (VStr "off") tracing_param
              (set_value (VBool false) tracing_param) eq_refl)
    as (_ & _ & _ & _ & _ & _ & H).
  exact (H eq_refl ∅).
Defined.



(** ** The system references (system_db.py) *)

Lemma existsb_eqb_elem (k : string) (l : list string) :
  existsb (String.eqb k) l = true ↔ k ∈ l.
Proof.
  induction l as [|x l IH]; simpl.
  - split; [discriminate | by intros ?%elem_of_nil].
  - rewrite orb_true_iff, IH, elem_of_cons, String.eqb_eq. tauto.
Qed.

Lemma names_fold_spec (systems : list SystemDb.System) (acc : list string) :
  NoDup acc →
  let names :=
    fold_left
      (fun names system =>
         if existsb (String.eqb (SystemDb.name system)) names then names
         else (names ++ [SystemDb.name system])%list)
      systems acc in
  NoDup names ∧
  ∀ n, n ∈ names ↔ n ∈ acc ∨ ∃ s, s ∈ systems ∧ SystemDb.name s = n.
Proof.
  revert acc. induction systems as [|s r IH]; intros acc Hacc; simpl.
  - split; [done|]. intros n. split; [by left|].
    intros [H | (s & Hs & _)]; [done | by apply elem_of_nil in Hs].
  - destruct (existsb (String.eqb (SystemDb.name s)) acc) eqn:E.
    + apply existsb_eqb_elem in E.
      destruct (IH acc Hacc) as [Hnd Hin]. split; [done|].
      intros n. rewrite Hin. split.
      * intros [H | (x & Hx & Hn)]; [by left | right].
        exists x. split; [by apply elem_of_cons; right | done].
      * intros [H | (x & Hx & Hn)]; [by left|].
        apply elem_of_cons in Hx as [-> | Hx]; [left; by rewrite <- Hn | right; eauto].
    + assert (Hnew : SystemDb.name s ∉ acc).
      { intros H. apply existsb_eqb_elem in H. congruence. }
      assert (Hacc' : NoDup (acc ++ [SystemDb.name s])).
      { apply NoDup_app. split; [done|]. split; [|apply NoDup_singleton].
        intros x Hx ->%list_elem_of_singleton. done. }
      destruct (IH _ Hacc') as [Hnd Hin]. split; [done|].
      intros n. rewrite Hin, elem_of_app, list_elem_of_singleton. split.
      * intros [[H | ->] | (x & Hx & Hn)].
        -- by left.
        -- right. exists s. split; [apply elem_of_cons; by left | done].
        -- right. exists x. split; [apply elem_of_cons; by right | done].
      * intros [H | (x & Hx & Hn)]; [by left; left|].
        apply elem_of_cons in Hx as [-> | Hx]; [left; right; done | right; eauto].
Qed.

Lemma matches_true (n v : string) (s : SystemDb.System) :
  SystemDb.matches n v s = true ↔ SystemDb.name s = n ∧ SystemDb.version s = v.
Proof.
  unfold SystemDb.matches. by rewrite andb_true_iff, !String.eqb_eq.
Qed.




Lemma find_matches_elem (n v : string) (l : list SystemDb.System) (s : SystemDb.System) :
  find (SystemDb.matches n v) l = Some s →
  ∃ pre post, l = (pre ++ s :: post)%list ∧
    Forall (λ x, SystemDb.matches n v x = false) pre ∧
    SystemDb.name s = n ∧ SystemDb.version s = v.
Proof.
  induction l as [|x r IH]; simpl; [discriminate|].
  destruct (SystemDb.matches n v x) eqn:E.
  - intros [= ->]. exists [], r. apply matches_true in E.
    split; [done|]. split; [constructor | done].
  - intros H. destruct (IH H) as (pre & post & -> & Hpre & Hn).
    exists (x :: pre), post. split; [done|]. split; [by constructor | done].
Qed.




(** X13.  The list of system names holds every name that has an entry in
    the file, and each one once, however many versions there are; a
    missing file gives the empty list. *)
Theorem system_names_are_listed_once (systems : list SystemDb.System) :
  SystemDb.get_system_names SystemDb.Missing = Raised.Return [] ∧
  ∃ names,
    SystemDb.get_system_names (SystemDb.Holds systems) = Raised.Return names ∧
    NoDup names ∧
    ∀ n, n ∈ names ↔ ∃ s, s ∈ systems ∧ SystemDb.name s = n.
Proof.
  split; [done|]. eexists. split; [reflexivity|].
  destruct (names_fold_spec systems [] (NoDup_nil_2)) as [Hnd Hin].
  split; [exact Hnd|]. intros n. rewrite (Hin n). split.
  - intros [H | H]; [by apply elem_of_nil in H | done].
  - by right.
Qed.

(** X14.  The versions listed for a name are the versions that
    [get_system] finds under that name, and what it finds is an entry of
    the file with that name and version; a name is among the system
    names exactly when it has a version. *)
Theorem listed_versions_can_be_fetched (n : string) (systems : list SystemDb.System) :
  ∃ versions names,
    SystemDb.get_system_versions n (SystemDb.Holds systems) = Raised.Return versions ∧
    SystemDb.get_system_names (SystemDb.Holds systems) = Raised.Return names ∧
    (n ∈ names ↔ versions ≠ []) ∧
    (∀ v, v ∈ versions ↔
          ∃ s, SystemDb.get_system n v (SystemDb.Holds systems) = Raised.Return s) ∧
    (∀ v s, SystemDb.get_system n v (SystemDb.Holds systems) = Raised.Return s →
            s ∈ systems ∧ SystemDb.name s = n ∧ SystemDb.version s = v).
Proof.
  eexists. eexists. split; [reflexivity|]. split; [reflexivity|].
  assert (Hv : ∀ v, v ∈ SystemDb.version <$>
                      filter (λ s, String.eqb (SystemDb.name s) n = true) systems ↔
                    ∃ s, s ∈ systems ∧ SystemDb.name s = n ∧ SystemDb.version s = v).
  { intros v. rewrite list_elem_of_fmap. split.
    - intros (s & -> & Hs). apply list_elem_of_filter in Hs as [Hn Hs].
      apply String.eqb_eq in Hn. eauto.
    - intros (s & Hs & Hn & Hver). exists s. split; [done|].
      apply list_elem_of_filter. split; [by apply String.eqb_eq | done]. }
  assert (Hget : ∀ v s, SystemDb.get_system n v (SystemDb.Holds systems) = Raised.Return s →
                        s ∈ systems ∧ SystemDb.name s = n ∧ SystemDb.version s = v).
  { intros v s. unfold SystemDb.get_system. simpl.
    destruct (find (SystemDb.matches n v) systems) as [s0|] eqn:E; [|discriminate].
    intros [= <-]. destruct (find_matches_elem n v systems s0 E)
      as (pre & post & -> & _ & Hn & Hver).
    split; [|done]. apply elem_of_app. right. apply elem_of_cons. by left. }
  split; [|split; [|exact Hget]].
  - destruct (names_fold_spec systems [] (NoDup_nil_2)) as [_ Hin].
    unfold SystemDb.get_system_names. simpl. rewrite (Hin n). split.
    + intros [H | (s & Hs & Hn)]; [by apply elem_of_nil in H|].
      intros Hnil.
      assert (Hin' : SystemDb.version s ∈ SystemDb.version <$>
                filter (λ s, String.eqb (SystemDb.name s) n = true) systems).
      { apply Hv. eauto. }
      rewrite Hnil in Hin'. by apply elem_of_nil in Hin'.
    + intros Hne. right.
      destruct (SystemDb.version <$>
                  filter (λ s, String.eqb (SystemDb.name s) n = true) systems)
        as [|v r] eqn:E; [done|].
      destruct (proj1 (Hv v)) as (s & Hs & Hn & _); [apply elem_of_cons; by left|].
      eauto.
  - intros v. rewrite Hv. split.
    + intros (s & Hs & Hn & Hver). unfold SystemDb.get_system. simpl.
      destruct (find (SystemDb.matches n v) systems) as [s0|] eqn:E; [eauto|].
      exfalso. apply list_elem_of_In in Hs.
      pose proof (find_none _ _ E s Hs) as Hf.
      assert (Ht : SystemDb.matches n v s = true) by (by apply matches_true).
      congruence.
    + intros (s & Hs). apply Hget in Hs. eauto.
Qed.



(** ** Dictionaries *)

Lemma dict_get_set_eq {V} (k : string) (v : V) (d : dict V) :
  dict_get k (Documents.dict_set k v d) = Some v.
Proof.
  induction d as [|[k' v'] r IH]; simpl.
  - by rewrite String.eqb_refl.
  - destruct (String.eqb k k') eqn:E; simpl.
    + by rewrite String.eqb_refl.
    + by rewrite E.
Qed.

Lemma dict_get_set_ne {V} (k k' : string) (v : V) (d : dict V) :
  k ≠ k' → dict_get k (Documents.dict_set k' v d) = dict_get k d.
Proof.
  intros Hne. apply String.eqb_neq in Hne.
  induction d as [|[k0 v0] r IH]; simpl.
  - by rewrite Hne.
  - destruct (String.eqb k' k0) eqn:E; simpl.
    + apply String.eqb_eq in E as <-. by rewrite Hne.
    + by rewrite IH.
Qed.

Lemma dict_keys_set {V} (k k' : string) (v : V) (d : dict V) :
  k' ∈ dict_keys (Documents.dict_set k v d) ↔ k' = k ∨ k' ∈ dict_keys d.
Proof.
  unfold dict_keys. induction d as [|[k0 v0] r IH]; simpl.
  - rewrite list_elem_of_singleton. split; [by left|].
    intros [H | H]; [done | by apply elem_of_nil in H].
  - destruct (String.eqb k k0) eqn:E; simpl.
    + apply String.eqb_eq in E as <-. rewrite !elem_of_cons. tauto.
    + rewrite !elem_of_cons, IH. tauto.
Qed.

Lemma dict_set_NoDup {V} (k : string) (v : V) (d : dict V) :
  NoDup (dict_keys d) → NoDup (dict_keys (Documents.dict_set k v d)).
Proof.
  unfold dict_keys. induction d as [|[k0 v0] r IH]; simpl.
  - intros _. apply NoDup_singleton.
  - intros [Hk0 Hr]%NoDup_cons. destruct (String.eqb k k0) eqn:E; simpl.
    + apply String.eqb_eq in E as <-. by apply NoDup_cons.
    + apply NoDup_cons. split; [|by apply IH].
      intros H. apply (dict_keys_set k k0 v r) in H as [-> | H]; [|done].
      by rewrite String.eqb_refl in E.
Qed.

(** ** The environment of the container (compute_docker.py) *)

Lemma environment_fold (environ : gmap string string) (names : list string)
    (acc : dict string) (k : string) :
  let environment :=
    fold_left
      (fun environment proxy_env_name =>
         match environ !! proxy_env_name with
         | Some env_value => Documents.dict_set proxy_env_name env_value environment
         | None => environment
         end) names acc in
  (NoDup (dict_keys acc) → NoDup (dict_keys environment)) ∧
  dict_get k environment
  = if bool_decide (k ∈ names)
    then match environ !! k with
         | Some v => Some v
         | None => dict_get k acc
         end
    else dict_get k acc.
Proof.
  revert acc. induction names as [|x r IH]; intros acc; cbn [fold_left].
  - split; [done|]. rewrite bool_decide_eq_false_2; [done|]. by intros ?%elem_of_nil.
  - destruct (IH (match environ !! x with
                  | Some env_value => Documents.dict_set x env_value acc
                  | None => acc
                  end)) as [Hnd Hget].
    split.
    + intros Hacc. apply Hnd. destruct (environ !! x); [by apply dict_set_NoDup | done].
    + rewrite Hget. clear Hnd Hget IH.
      destruct (decide (k = x)) as [-> | Hne].
      * rewrite (bool_decide_eq_true_2 (x ∈ x :: r)) by (apply elem_of_cons; by left).
        destruct (environ !! x) as [v|] eqn:E.
        -- rewrite dict_get_set_eq. by case_bool_decide.
        -- by case_bool_decide.
      * assert (Hacc : dict_get k (match environ !! x with
                                   | Some env_value => Documents.dict_set x env_value acc
                                   | None => acc
                                   end) = dict_get k acc).
        { destruct (environ !! x); [by apply dict_get_set_ne | done]. }
        rewrite Hacc.
        destruct (decide (k ∈ r)) as [Hin | Hnin].
        -- rewrite !bool_decide_eq_true_2; [done | apply elem_of_cons; by right | done].
        -- rewrite !bool_decide_eq_false_2; [done | | done].
           intros [? | ?]%elem_of_cons; done.
Qed.

(** X17.  The environment handed to the container holds the proxy
    variables that the process has, with the values it has, and nothing
    else: a variable of another name is never forwarded, and a proxy
    variable that is not set is left out. *)
Theorem proxy_settings_are_forwarded (environ : gmap string string) :
  NoDup (dict_keys (Backend.set_environment environ)) ∧
  ∀ k, dict_get k (Backend.set_environment environ)
       = if bool_decide (k ∈ Backend.proxy_env_names) then environ !! k else None.
Proof.
  split.
  - apply (environment_fold environ Backend.proxy_env_names [] ""). apply NoDup_nil_2.
  - intros k.
    destruct (environment_fold environ Backend.proxy_env_names [] k) as [_ H].
    unfold Backend.set_environment. rewrite H. simpl.
    case_bool_decide; [by destruct (environ !! k) | done].
Qed.

(** ** Execution of commands (session.py, system.py) *)

Lemma string_app_nil_r (s : string) : s ++ "" = s.
Proof. induction s as [|c r IH]; [done|]. by rewrite append_cons, IH. Qed.

Lemma string_app_assoc (a b c : string) : (a ++ b) ++ c = a ++ (b ++ c).
Proof. induction a as [|x r IH]; [done|]. by rewrite !append_cons, IH. Qed.

Lemma add_to_last_snoc (text : string) (l : list Documents.LogEntry)
    (e : Documents.LogEntry) :
  Execution.add_to_last text (l ++ [e])
  = Ok (l ++ [{| Documents.timestamp := Documents.timestamp e;
                 Documents.producer := Documents.producer e;
                 Documents.message := Documents.message e ++ text |}])%list.
Proof.
  induction l as [|x r IH]; [done|].
  change ((x :: r) ++ [e])%list with (x :: (r ++ [e]))%list.
  destruct (r ++ [e])%list as [|y t] eqn:E.
  - by destruct r.
  - cbn [Execution.add_to_last]. cbn [Execution.add_to_last] in IH. by rewrite IH.
Qed.

Lemma add_to_last_nonempty (text : string) (l : list Documents.LogEntry) :
  l ≠ [] → ∃ l', Execution.add_to_last text l = Ok l' ∧ length l' = length l ∧ l' ≠ [].
Proof.
  intros Hne. destruct (exists_last Hne) as (r & e & ->).
  change (r ++ e :: nil)%list with (r ++ [e])%list.
  rewrite add_to_last_snoc. eexists. split; [done|].
  split; [by rewrite !length_app | by destruct r].
Qed.

Lemma execute_session_sync (rt : Execution.Runtime) (sid command : string)
    (timeout : option Z) (store : gmap string Execution.SessionObj) (fs : FS)
    (s : Execution.SessionObj) (initial ok ko : State) :
  store !! sid = Some s →
  precondition command (Execution.core s) = Ok () →
  Execution.state_mapping command = Some (initial, ok, ko) →
  let r := system_run rt command timeout false s fs in
  let text := outcome_text rt r.2.2 in
  Execution.execute_session rt sid command false timeout store fs
  = ((<[sid := {| Execution.core :=
                    {| Session.system := r.1.1;
                       Session.state := match r.2.2 with
                                        | Raised.Return _ => ok
                                        | Raised.Throw _ => ko
                                        end;
                       Session.session_id := Session.session_id (Execution.core s) |};
                  Execution.system_id := Execution.system_id s;
                  Execution.details := Execution.details s;
                  Execution.log_entries :=
                    (Execution.log_entries s ++ [execution_entry rt command text])%list |}]>
        store, r.1.2),
     match r.2.2 with
     | Raised.Return o => Raised.Return o
     | Raised.Throw _ => Raised.Throw (Raised.Python (UnexpectedSessionState text))
     end).
Proof.
  intros Hs Hpre Hmap r text.
  unfold Execution.execute_session, Execution.open_obj. rewrite Hs, Hpre, Hmap.
  unfold Execution.run_sync. cbn [Execution.core Execution.with_log Execution.system_id
    Execution.log_entries Execution.details].
  fold (system_run rt command timeout false s fs). fold r.
  destruct r as [[sys' fs'] [chunks out]] eqn:Er. subst text. cbn [fst snd].
  rewrite add_to_last_snoc. cbn [Documents.timestamp Documents.producer Documents.message].
  unfold execution_entry, logged, outcome_text.
  destruct out as [o|f].
  - destruct (String.eqb o "") eqn:E.
    + apply String.eqb_eq in E as ->. rewrite add_to_last_snoc.
      cbn [Documents.timestamp Documents.producer Documents.message].
      by rewrite string_app_nil_r.
    + done.
  - destruct (String.eqb (Raised.text_of (Execution.builtin_text rt) f) "") eqn:E.
    + apply String.eqb_eq in E. rewrite E. rewrite add_to_last_snoc.
      cbn [Documents.timestamp Documents.producer Documents.message].
      by rewrite string_app_nil_r.
    + done.
Qed.

Lemma state_mapping_command (command : string) :
  command = "build" ∨ command = "run" →
  Execution.state_mapping command
  = Some (running_state command, success_state command, failure_state command).
Proof. by intros [-> | ->]. Qed.

Lemma precondition_busy (command : string) (c : Session.Session) :
  busy (state c) → ∃ msg, precondition command c = Raise (UnexpectedSessionState msg).
Proof. intros [H | H]; unfold precondition; rewrite H; simpl; eauto. Qed.

(** X18.  A command that is executed synchronously on a session that
    admits it: the session is stored with the system as the execution
    left it and with one more log entry, which holds the start marker
    and the output (or the text of the exception, or the note that there
    was no output); the state is BUILT or RAN and the output is returned
    when the system returned, FAILED_BUILD or FAILED_RUN and
    [UnexpectedSessionState] with the text of the exception is raised
    when it raised.  The session is never left BUILDING or RUNNING. *)
Theorem synchronous_execution_outcome (rt : Execution.Runtime) (sid command : string)
    (timeout : option Z) (store : gmap string Execution.SessionObj) (fs : FS)
    (s : Execution.SessionObj) :
  store !! sid = Some s →
  precondition command (Execution.core s) = Ok () →
  command = "build" ∨ command = "run" →
  let r := system_run rt command timeout false s fs in
  let ended := Execution.execute_session rt sid command false timeout store fs in
  ∃ s',
    ended.1 = (<[sid := s']> store, r.1.2) ∧
    Session.system (Execution.core s') = r.1.1 ∧
    Session.session_id (Execution.core s') = Session.session_id (Execution.core s) ∧
    Execution.log_entries s'
    = (Execution.log_entries s ++ [execution_entry rt command (outcome_text rt r.2.2)])%list ∧
    ¬ busy (state (Execution.core s')) ∧
    match r.2.2 with
    | Raised.Return o =>
        ended.2 = Raised.Return o ∧ state (Execution.core s') = success_state command
    | Raised.Throw f =>
        ended.2 = Raised.Throw (Raised.Python (UnexpectedSessionState
                                  (Raised.text_of (Execution.builtin_text rt) f))) ∧
        state (Execution.core s') = failure_state command
    end.
Proof.
  intros Hs Hpre Hcmd r ended. subst ended.
  rewrite (execute_session_sync rt sid command timeout store fs s _ _ _ Hs Hpre
             (state_mapping_command command Hcmd)).
  fold r. eexists. split; [reflexivity|]. cbn [fst snd Execution.core Execution.log_entries
    Session.system Session.session_id Session.state].
  split; [done|]. split; [done|]. split; [done|]. split.
  - unfold busy, success_state, failure_state.
    destruct Hcmd as [-> | ->]; destruct (r.2.2); simpl; intros [? | ?]; discriminate.
  - by destruct (r.2.2).
Qed.

Lemma synchronous_execution_outcome_witness :
  (Execution.execute_session (demo_runtime (printing_backend "done")) "s1" "run" false None
     {[ "s1" := demo_obj plain_system BUILT ]} ∅).2 = Raised.Return "done".
Proof.
  destruct (synchronous_execution_outcome (demo_runtime (printing_backend "done")) "s1" "run"
              None {[ "s1" := demo_obj plain_system BUILT ]} ∅ (demo_obj plain_system BUILT))
    as (s' & _ & _ & _ & _ & _ & H).
  - apply lookup_singleton_eq.
  - reflexivity.
  - by right.
  - exact (proj1 H).
Defined.

(** X19.  A build of a system that has no build command: the backend is
    not asked and no file is staged or written; the session becomes
    BUILT whatever state it was in, the empty output is returned, and
    the log entry notes that the build command gave no output. *)
Theorem build_without_build_command (rt : Execution.Runtime) (sid : string)
    (timeout : option Z) (store : gmap string Execution.SessionObj) (fs : FS)
    (s : Execution.SessionObj) :
  store !! sid = Some s →
  has_build (Session.system (Execution.core s)) = false →
  ¬ busy (state (Execution.core s)) →
  Execution.execute_session rt sid "build" false timeout store fs
  = ((<[sid := {| Execution.core := set_state BUILT (Execution.core s);
                  Execution.system_id := Execution.system_id s;
                  Execution.details := Execution.details s;
                  Execution.log_entries :=
                    (Execution.log_entries s ++
                     [{| Documents.timestamp := Execution.now rt;
                         Documents.producer := "container.build";
                         Documents.message :=
                           Execution.start_marker ++
                           "No output generated by build command." |}])%list |}]> store,
      fs),
     Raised.Return "").
Proof.
  intros Hs Hb Hbusy.
  rewrite (execute_session_sync rt sid "build" timeout store fs s BUILDING BUILT FAILED_BUILD Hs
             (proj2 (precondition_build (Execution.core s)) Hbusy) eq_refl).
  unfold system_run, Execution.execute. simpl. rewrite Hb. reflexivity.
Qed.

Lemma build_without_build_command_witness :
  (Execution.execute_session (demo_runtime (printing_backend "done")) "s1" "build" false None
     {[ "s1" := demo_obj plain_system RAN ]} ∅).2 = Raised.Return "".
Proof.
  rewrite (build_without_build_command (demo_runtime (printing_backend "done")) "s1" None
             {[ "s1" := demo_obj plain_system RAN ]} ∅ (demo_obj plain_system RAN)).
  - reflexivity.
  - apply lookup_singleton_eq.
  - reflexivity.
  - intros [H | H]; discriminate.
Defined.

(** X20.  A command that is started asynchronously on a session that
    admits it: nothing is executed or written yet, the session is stored
    BUILDING or RUNNING with the start marker as new log entry, and
    until the thread ends every further command is refused with
    [UnexpectedSessionState] and every update or upload with
    [LockedSessionError], all of which change nothing. *)
Theorem asynchronous_start_locks_the_session (rt : Execution.Runtime) (sid command : string)
    (timeout : option Z) (store : gmap string Execution.SessionObj) (fs : FS)
    (s : Execution.SessionObj) :
  store !! sid = Some s →
  precondition command (Execution.core s) = Ok () →
  command = "build" ∨ command = "run" →
  let started := Execution.execute_session rt sid command true timeout store fs in
  let s' := {| Execution.core := set_state (running_state command) (Execution.core s);
               Execution.system_id := Execution.system_id s;
               Execution.details := Execution.details s;
               Execution.log_entries :=
                 (Execution.log_entries s ++
                  [{| Documents.timestamp := Execution.now rt;
                      Documents.producer := "container." ++ command;
                      Documents.message := Execution.start_marker |}])%list |} in
  started = ((<[sid := s']> store, fs),
             Raised.Return (command ++ " command started asynchronously.")) ∧
  (∀ rt' command' async_call timeout',
     ∃ msg, Execution.execute_session rt' sid command' async_call timeout' started.1.1 fs
            = (started.1, Raised.Throw (Raised.Python (UnexpectedSessionState msg)))) ∧
  (∀ g pname v, update g pname v (Execution.core s')
                = (Execution.core s', Raise LockedSessionError)) ∧
  (∀ h g pname fname file fs',
     add h g pname fname file (Execution.core s') fs'
     = ((Execution.core s', fs'), Raise LockedSessionError)).
Proof.
  intros Hs Hpre Hcmd started s'.
  assert (Hstarted : started = ((<[sid := s']> store, fs),
                                Raised.Return (command ++ " command started asynchronously."))).
  { subst started. unfold Execution.execute_session, Execution.open_obj.
    rewrite Hs, Hpre, (state_mapping_command command Hcmd). reflexivity. }
  assert (Hbusy : busy (state (Execution.core s'))).
  { unfold busy, running_state. destruct Hcmd as [-> | ->]; simpl; auto. }
  split; [exact Hstarted|]. split; [|split].
  - intros rt' command' async_call timeout'. rewrite Hstarted. cbn [fst snd].
    destruct (precondition_busy command' (Execution.core s') Hbusy) as [msg Hmsg].
    exists msg. unfold Execution.execute_session, Execution.open_obj.
    rewrite lookup_insert_eq. by rewrite Hmsg.
  - intros g pname v. by apply update_locked.
  - intros h g pname fname file fs'. by apply add_locked.
Qed.

Lemma asynchronous_start_locks_the_session_witness :
  (Execution.execute_session (demo_runtime (printing_backend "done")) "s1" "run" true None
     {[ "s1" := demo_obj plain_system BUILT ]} ∅).2
  = Raised.Return "run command started asynchronously.".
Proof.
  destruct (asynchronous_start_locks_the_session (demo_runtime (printing_backend "done"))
              "s1" "run" None {[ "s1" := demo_obj plain_system BUILT ]} ∅
              (demo_obj plain_system BUILT)) as [H _].
  - apply lookup_singleton_eq.
  - reflexivity.
  - by right.
  - by rewrite H.
Defined.

Lemma write_chunks_nonempty (chunks : list string) (l : list Documents.LogEntry) :
  l ≠ [] →
  ∃ l', Execution.write_chunks chunks l = Ok l' ∧ length l' = length l ∧ l' ≠ [].
Proof.
  unfold Execution.write_chunks. revert l.
  induction chunks as [|c r IH]; intros l Hne; simpl.
  - by exists l.
  - destruct (add_to_last_nonempty c l Hne) as (l1 & H1 & Hlen & Hne1).
    rewrite H1. destruct (IH l1 Hne1) as (l' & H' & Hlen' & Hne').
    exists l'. split; [done|]. split; [congruence | done].
Qed.

(** X21.  The thread of an asynchronous command, running undisturbed on
    a stored session with a log: when it ends the session is stored
    BUILT or RAN if the system returned and FAILED_BUILD or FAILED_RUN
    if it raised, with as many log entries as before.  The system of the
    stored session is the one it had when the thread began: what the
    execution staged or marked available in the parameters is not
    stored, although the files it wrote are there. *)
Theorem asynchronous_execution_outcome (rt : Execution.Runtime) (sid command : string)
    (timeout : option Z) (store : gmap string Execution.SessionObj) (fs : FS)
    (s : Execution.SessionObj) :
  store !! sid = Some s →
  Execution.log_entries s ≠ [] →
  let r := system_run rt command timeout true s fs in
  ∃ s',
    Execution.execute_async rt sid command timeout store fs = (<[sid := s']> store, r.1.2) ∧
    Session.system (Execution.core s') = Session.system (Execution.core s) ∧
    length (Execution.log_entries s') = length (Execution.log_entries s) ∧
    state (Execution.core s') = match r.2.2 with
                                | Raised.Return _ => success_state command
                                | Raised.Throw _ => failure_state command
                                end.
Proof.
  intros Hs Hlog r. unfold Execution.execute_async. rewrite Hs.
  fold (system_run rt command timeout true s fs). fold r.
  destruct r as [[sys' fs'] [chunks out]]. cbn [fst snd].
  destruct (write_chunks_nonempty chunks (Execution.log_entries s) Hlog)
    as (l1 & H1 & Hlen1 & Hne1).
  rewrite H1. destruct l1 as [|e1 t1]; [done|].
  assert (Hfin : ∀ added st,
            ∃ s', match Execution.add_to_last added (e1 :: t1) with
                  | Ok l2 => Execution.with_log l2
                               (Execution.with_core (set_state st (Execution.core s)) s)
                  | Raise _ => s
                  end = s' ∧
                  Session.system (Execution.core s') = Session.system (Execution.core s) ∧
                  length (Execution.log_entries s') = length (Execution.log_entries s) ∧
                  state (Execution.core s') = st).
  { intros added st.
    destruct (add_to_last_nonempty added (e1 :: t1) Hne1) as (l2 & H2 & Hlen2 & _).
    rewrite H2. eexists. split; [reflexivity|]. simpl. split; [done|]. split; [|done].
    congruence. }
  destruct out as [o|f].
  - destruct (Hfin (match last (e1 :: t1) with
                    | Some e =>
                        if String.eqb (Documents.message e) Execution.start_marker
                        then (if String.eqb o "" then Execution.no_output command else o)
                        else ""
                    | None => ""
                    end) (if String.eqb command "build" then BUILT else RAN))
      as (s' & Hs' & Hsys & Hlen & Hst).
    exists s'. split; [by rewrite <- Hs'|]. done.
  - destruct (Hfin (Raised.text_of (Execution.builtin_text rt) f)
                (if String.eqb command "build" then FAILED_BUILD else FAILED_RUN))
      as (s' & Hs' & Hsys & Hlen & Hst).
    exists s'. split; [by rewrite <- Hs'|]. done.
Qed.

Lemma asynchronous_execution_outcome_witness :
  let started := (Execution.execute_session (demo_runtime (printing_backend "done")) "s1"
                    "run" true None {[ "s1" := demo_obj plain_system BUILT ]} ∅).1 in
  ∃ s', (Execution.execute_async (demo_runtime (printing_backend "done")) "s1" "run" None
           started.1 started.2).1 !! "s1" = Some s' ∧
        state (Execution.core s') = RAN.
Proof.
  simpl.
  destruct (asynchronous_execution_outcome (demo_runtime (printing_backend "done")) "s1" "run"
              None
              (Execution.execute_session (demo_runtime (printing_backend "done")) "s1"
                 "run" true None {[ "s1" := demo_obj plain_system BUILT ]} ∅).1.1
              ∅
              (Execution.with_core (set_state RUNNING (Execution.core (demo_obj plain_system BUILT)))
                 (Execution.with_log
                    [{| Documents.timestamp := "2025-01-01 00:00:00";
                        Documents.producer := "container.run";
                        Documents.message := Execution.start_marker |}]
                    (demo_obj plain_system BUILT))))
    as (s' & Hrun & _ & _ & Hst).
  - apply lookup_insert_eq.
  - discriminate.
  - exists s'. split; [|exact Hst].
    change ((Execution.execute_session (demo_runtime (printing_backend "done")) "s1"
               "run" true None {[ "s1" := demo_obj plain_system BUILT ]} ∅).1.2) with (∅ : FS).
    rewrite Hrun. apply lookup_insert_eq.
Defined.

(** ** Staging and marking of the files of a system (system.py) *)

Lemma stage_file_fstate (h : Host) (sid : string) (g : ParameterGroup) (p : Param) (fs : FS) :
  let p' := (stage_file h sid g p fs).1.1 in
  name p' = name p ∧
  (fstate p' = fstate p ∨ (fstate p = Some PENDING ∧ fstate p' = Some STAGED)).
Proof.
  unfold stage_file, fstate.
  destruct (file_data p) as [fd|] eqn:Hfd; [|simpl; rewrite Hfd; auto].
  destruct (file_state fd) eqn:Hst; try (simpl; rewrite Hfd; auto).
  assert (HP : file_state <$> Some fd = Some PENDING) by (simpl; by rewrite Hst).
  destruct (isfile h fs (file_path_origin fd)) as [[|]|e]; [| |simpl; rewrite Hfd; auto].
  - destruct (destination_path ← input_dir h sid g (name p);
              os_path_join (Some destination_path) [file_name fd])
      as [destination_file|e]; [|simpl; rewrite Hfd; auto].
    destruct (copy_origin h (file_path_origin fd) destination_file fs) as [fs' [u|e]];
      [|simpl; rewrite Hfd; auto].
    destruct (mounted_path g (name p) (file_name fd)); simpl; [auto | rewrite Hfd; auto].
  - destruct (origin_str (file_path_origin fd)) as [origin|e]; [|simpl; rewrite Hfd; auto].
    destruct (startswith_any _ origin); [|simpl; rewrite Hfd; auto].
    unfold download.
    destruct (authorization_header fd) as [authorization|e]; [|simpl; rewrite Hfd; auto].
    destruct (urlopen h origin authorization) as [content|text|e];
      [|simpl; rewrite Hfd; auto | simpl; rewrite Hfd; auto].
    destruct (input_dir h sid g (name p)) as [dir|e]; [|simpl; rewrite Hfd; auto].
    destruct (index_from_end (split "/" origin) 1) as [fname|e]; [|simpl; rewrite Hfd; auto].
    destruct (os_path_join (Some dir) [Some fname]) as [destination_file|e];
      [|simpl; rewrite Hst; auto].
    destruct (write_file destination_file content fs) as [fs' [u|e]];
      [|simpl; rewrite Hst; auto].
    simpl. destruct (mounted_path g (name p) (Some fname)); simpl; [auto | rewrite Hst; auto].
Qed.

Lemma stage_parameters_fstate (h : Host) (sid : string) (g : ParameterGroup)
    (todo : list Param) (fs : FS) :
  Forall2 (λ p p', name p' = name p ∧
                   (fstate p' = fstate p ∨ (fstate p = Some PENDING ∧ fstate p' = Some STAGED)))
    todo (Execution.stage_parameters h sid g todo fs).1.1.
Proof.
  revert fs. induction todo as [|p r IH]; intros fs; simpl; [constructor|].
  pose proof (stage_file_fstate h sid g p fs) as Hp.
  destruct (stage_file h sid g p fs) as [[p' fs'] [u|e]]; simpl in Hp.
  - specialize (IH fs').
    destruct (Execution.stage_parameters h sid g r fs') as [[r' fs''] [files|e]];
      simpl in *; by constructor.
  - simpl. constructor; [done|]. clear. induction r; constructor; auto.
Qed.

Lemma parameters_set_other (g g' : ParameterGroup) (l : list Param) (d : SystemData) :
  g ≠ g' → parameters (set_parameters g l d) g' = parameters d g'.
Proof. by destruct g, g'. Qed.

Lemma get_file_copy_list_parameters (h : Host) (sid : string) (g g' : ParameterGroup)
    (self : System.System) (fs : FS) :
  let self' := (Execution.get_file_copy_list h sid g self fs).1.1 in
  has_build self' = has_build self ∧
  parameters (data self') g'
  = if bool_decide (g = g')
    then (Execution.stage_parameters h sid g (parameters (data self) g) fs).1.1
    else parameters (data self) g'.
Proof.
  unfold Execution.get_file_copy_list.
  destruct (Execution.stage_parameters h sid g (parameters (data self) g) fs)
    as [[l fs'] r]. simpl. split; [done|].
  case_bool_decide as E.
  - subst. apply parameters_set_parameters.
  - by apply parameters_set_other.
Qed.

Lemma stage_and_call_common (rt : Execution.Runtime) (system_id : Execution.SystemIdentifier)
    (sid : string) (g : ParameterGroup)
    (call : list Backend.ComputeFile → option Z → bool → list string * Raised.outcome string)
    (timeout : option Z) (progress : bool) (self : System.System) (fs : FS) :
  g ≠ COMMON →
  parameters (data (Execution.stage_and_call rt system_id sid g call timeout progress
                      self fs).1.1) COMMON
  = (Execution.stage_parameters (Execution.host rt) sid COMMON
       (parameters (data self) COMMON) fs).1.1.
Proof.
  intros Hg. unfold Execution.stage_and_call.
  pose proof (get_file_copy_list_parameters (Execution.host rt) sid COMMON COMMON self fs)
    as [_ H1].
  rewrite bool_decide_eq_true_2 in H1 by done.
  destruct (Execution.get_file_copy_list (Execution.host rt) sid COMMON self fs)
    as [[self1 fs1] [files_common|e]]; cbn [fst snd] in *; [|done].
  pose proof (get_file_copy_list_parameters (Execution.host rt) sid g COMMON self1 fs1)
    as [_ H2].
  rewrite bool_decide_eq_false_2 in H2 by done.
  destruct (Execution.get_file_copy_list (Execution.host rt) sid g self1 fs1)
    as [[self2 fs2] [files_group|e]]; cbn [fst snd] in *; [|by rewrite H2].
  destruct (Execution.generate_syscfg_file rt system_id sid self2 fs2) as [fs3 [f|e]];
    cbn [fst snd]; by rewrite H2.
Qed.

Lemma execute_common (rt : Execution.Runtime) (system_id : Execution.SystemIdentifier)
    (sid command : string) (timeout : option Z) (progress : bool)
    (self : System.System) (fs : FS) :
  let after := (Execution.execute rt system_id sid command timeout progress self fs).1.1 in
  parameters (data after) COMMON = parameters (data self) COMMON ∨
  parameters (data after) COMMON
  = (Execution.stage_parameters (Execution.host rt) sid COMMON
       (parameters (data self) COMMON) fs).1.1.
Proof.
  unfold Execution.execute.
  destruct (String.eqb command "build").
  - destruct (has_build self); [|by left]. right.
    pose proof (stage_and_call_common rt system_id sid BUILD
                  (Backend.build_system (Execution.compute_backend rt)) timeout progress
                  self fs) as H.
    destruct (Execution.stage_and_call rt system_id sid BUILD _ timeout progress self fs)
      as [[self' fs'] [chunks [o|f]]]; simpl in *; by apply H.
  - right.
    pose proof (stage_and_call_common rt system_id sid RUN
                  (Backend.run_system (Execution.compute_backend rt)) timeout progress
                  self fs) as H.
    destruct (Execution.stage_and_call rt system_id sid RUN _ timeout progress self fs)
      as [[self' fs'] [chunks [o|f]]]; simpl in *; by apply H.
Qed.

(** X22.  No execution marks a file of the common group available: a
    build or a run stages the pending files of the common group, and
    then marks the files of the build or of the run group only.  Every
    common parameter keeps its name, and its file is AVAILABLE afterwards
    only if it was before; a staged common file stays STAGED, so that it
    is copied again by the next execution. *)
Theorem common_files_are_never_marked_available (rt : Execution.Runtime)
    (system_id : Execution.SystemIdentifier) (sid command : string) (timeout : option Z)
    (progress : bool) (self : System.System) (fs : FS) :
  let after := (Execution.execute rt system_id sid command timeout progress self fs).1.1 in
  Forall2 (λ p p', name p' = name p ∧
                   (fstate p' = Some AVAILABLE → fstate p = Some AVAILABLE) ∧
                   (staged_file p → staged_file p'))
    (parameters (data self) COMMON) (parameters (data after) COMMON).
Proof.
  intros after.
  assert (Hweak : ∀ l l' : list Param,
            Forall2 (λ p p', name p' = name p ∧
                             (fstate p' = fstate p ∨
                              (fstate p = Some PENDING ∧ fstate p' = Some STAGED))) l l' →
            Forall2 (λ p p', name p' = name p ∧
                             (fstate p' = Some AVAILABLE → fstate p = Some AVAILABLE) ∧
                             (staged_file p → staged_file p')) l l').
  { intros l l' Hll. eapply Forall2_impl; [exact Hll|].
    intros p p' [Hn [He | [Hp Hs]]]; unfold staged_file.
    - split; [done|]. rewrite He. auto.
    - split; [done|]. rewrite Hp, Hs. split; discriminate. }
  destruct (execute_common rt system_id sid command timeout progress self fs) as [H | H];
    fold after in H; rewrite H.
  - apply Hweak. clear. induction (parameters (data self) COMMON); constructor; auto.
  - apply Hweak, stage_parameters_fstate.
Qed.

Lemma common_files_are_never_marked_available_witness :
  Forall staged_file
    (parameters
       (data (Execution.execute (demo_runtime (printing_backend "done"))
                {| Execution.id_name := "demo"; Execution.id_version := "1.0" |}
                "s1" "build" None false staged_common_system staged_files).1.1) COMMON).
Proof.
  pose proof (common_files_are_never_marked_available
                (demo_runtime (printing_backend "done"))
                {| Execution.id_name := "demo"; Execution.id_version := "1.0" |}
                "s1" "build" None false staged_common_system staged_files) as H.
  simpl in H. inversion H as [|p p' l l' (_ & _ & Hst) Hrest]; subst.
  constructor; [by apply Hst | by inversion Hrest].
Defined.

(** ** Creation of a session (session.py, system.py) *)

Lemma length_zero_eqb (c : string) : (String.length c =? 0)%nat = String.eqb c "".
Proof. by destruct c. Qed.

(** X23.  A session that is created is stored under the new identifier
    with an empty log and the details of the request, for a definition
    that the reference of the configured name and version leads to and
    that carries that name and version and a run command.  The system
    has a build step exactly when the definition has a build command
    that is not empty, and the session starts CREATED if it has one and
    BUILT if not.  The backend was asked for a resource whose commands
    end in the path of the configuration file in the container; without
    a build command its build command is the text [None] followed by
    that path.  A creation that fails stores no session. *)
Theorem created_session (rt : Execution.Runtime) (pv : Execution.Provisioning)
    (item : Execution.CreateSessionItem) (store : gmap string Execution.SessionObj) (fs : FS) :
  let made := Execution.create_session rt pv item store fs in
  let cfg_system := Documents.system (Execution.syscfg item) in
  (∀ f, made.2 = Raised.Throw f → made.1.1 = store) ∧
  (∀ sid, made.2 = Raised.Return sid →
     sid = Execution.uuid4 pv ∧
     ∃ s sysref sysdef compute_data,
       made.1.1 = <[sid := s]> store ∧
       SystemDb.get_system (Documents.system_name cfg_system)
         (Documents.system_version cfg_system) (Execution.systems_file pv)
       = Raised.Return sysref ∧
       Execution.copy_and_read pv sysref (repository_path rt sid) fs
       = (made.1.2, Raised.Return sysdef) ∧
       Documents.name sysdef = Documents.system_name cfg_system ∧
       Documents.version sysdef = Documents.system_version cfg_system ∧
       Documents.run_command sysdef ≠ "" ∧
       Execution.create_resource pv compute_data = Raised.Return () ∧
       Backend.session_id compute_data = sid ∧
       Backend.image compute_data = Documents.docker_image sysdef ∧
       Backend.run_command compute_data
       = Documents.run_command sysdef ++ " /sysapi/inputs/syscfg.json" ∧
       Backend.build_command compute_data
       = default "None" (effective_build_command sysdef) ++ " /sysapi/inputs/syscfg.json" ∧
       Execution.log_entries s = [] ∧
       Execution.details s = Execution.from_create_item rt item ∧
       Session.session_id (Execution.core s) = sid ∧
       has_build (Session.system (Execution.core s))
       = bool_decide (is_Some (effective_build_command sysdef)) ∧
       state (Execution.core s)
       = if has_build (Session.system (Execution.core s)) then CREATED else BUILT).
Proof.
  intros made cfg_system. subst made.
  unfold Execution.create_session, Execution.init_session.
  destruct (Execution.docker_from_env pv) as [[]|f0]; [|split; [done | discriminate]].
  unfold Execution.parse_system_config. cbn [Execution.id_name Execution.id_version].
  fold cfg_system. fold (repository_path rt (Execution.uuid4 pv)).
  destruct (SystemDb.get_system (Documents.system_name cfg_system)
              (Documents.system_version cfg_system) (Execution.systems_file pv))
    as [sysref|f1] eqn:Eref; [|split; [done | discriminate]].
  destruct (Execution.copy_and_read pv sysref (repository_path rt (Execution.uuid4 pv)) fs)
    as [fs' [sysdef|f2]] eqn:Ecopy; [|split; [done | discriminate]].
  destruct (String.eqb (Documents.name sysdef) (Documents.system_name cfg_system)) eqn:En;
    cbn [negb]; [|split; [done | discriminate]].
  destruct (String.eqb (Documents.version sysdef) (Documents.system_version cfg_system)) eqn:Ev;
    cbn [negb]; [|split; [done | discriminate]].
  rewrite length_zero_eqb.
  destruct (String.eqb (Documents.run_command sysdef) "") eqn:Er;
    [split; [done | discriminate]|].
  destruct (common ← parse_parameter_group (Documents.common_parameters sysdef)
                       (Documents.cfg_common_parameters (Execution.syscfg item));
            build ← parse_parameter_group (Documents.build_parameters sysdef)
                      (Documents.cfg_build_parameters (Execution.syscfg item));
            run ← parse_parameter_group (Documents.run_parameters sysdef)
                    (Documents.cfg_run_parameters (Execution.syscfg item));
            Ok (common, build, run)) as [[[common build] run]|e];
    [|split; [done | discriminate]].
  match goal with
  | |- context [Execution.create_resource pv ?cd] =>
      destruct (Execution.create_resource pv cd) as [[]|f3] eqn:Ecreate;
        [|split; [done | discriminate]]
  end.
  split; [discriminate|]. intros sid [= <-]. split; [done|].
  match type of Ecreate with
  | Execution.create_resource pv ?cd = _ =>
      eexists _, sysref, sysdef, cd
  end.
  cbn [fst snd]. split; [reflexivity|]. split; [done|]. split; [done|].
  apply String.eqb_eq in En, Ev. apply String.eqb_neq in Er.
  split; [done|]. split; [done|]. split; [done|]. split; [exact Ecreate|].
  cbn [Backend.session_id Backend.image Backend.run_command Backend.build_command
       Execution.log_entries Execution.details Execution.core Session.session_id
       Session.system Session.state has_build].
  split; [done|]. split; [done|]. split; [done|].
  unfold effective_build_command, Execution.str_option.
  destruct (Documents.build_command sysdef) as [c|]; [|done].
  rewrite length_zero_eqb. by destruct (String.eqb c "").
Qed.

Lemma created_session_witness :
  ∃ s, (Execution.create_session (demo_runtime (printing_backend "done")) plain_provisioning
          plain_create_item ∅ ∅).1.1 !! "s1" = Some s ∧
       state (Execution.core s) = BUILT.
Proof.
  destruct (created_session (demo_runtime (printing_backend "done")) plain_provisioning
              plain_create_item ∅ ∅) as [_ H].
  destruct (H "s1" eq_refl)
    as (_ & s & sysref & sysdef & cd & Hstore & _ & _ & _ & _ & _ & _ & _ & _ & _ & _ & _ & _ & _
        & Hb & Hst).
  exists s. split.
  - rewrite Hstore. apply lookup_insert_eq.
  - rewrite Hst.
    assert (Hs : (Execution.create_session (demo_runtime (printing_backend "done"))
                    plain_provisioning plain_create_item ∅ ∅).1.1 !! "s1" = Some s)
      by (rewrite Hstore; apply lookup_insert_eq).
    injection Hs as <-. reflexivity.
Defined.

(** ** Validation of the definition (dataformats.py) *)

Lemma float_le_trans (a x b : Float) :
  float_le a x = true → float_le x b = true → float_le a b = true.
Proof.
  destruct a as [p|[|]|], x as [q|[|]|], b as [r|[|]|]; simpl; try done.
  rewrite !Qle_bool_iff. apply Qle_trans.
Qed.

(** X24.  What acceptance of a complex parameter guarantees: the
    validator returns the parameter as it is; the default of an enum is
    one of its values (so there are values); the default of a range is a
    number between the bounds (so the lower bound is not above the
    upper); the default of a file parameter is a string. *)
Theorem accepted_default_is_admissible (c c' : SysDefCmplxParameter) :
  check_default_value c = Ok c' →
  c' = c ∧
  match meta c with
  | Some (SysDefParameterEnum vs) =>
      py_in (Dataformats.default_value c) (elements vs) = true ∧ elements vs ≠ []
  | Some (SysDefParameterRange lo hi) =>
      ∃ x, as_float (Dataformats.default_value c) = Some x ∧
           float_le (bound lo) x = true ∧ float_le x (bound hi) = true ∧
           float_le (bound lo) (bound hi) = true
  | Some (SysDefParameterFile _) => ∃ s, Dataformats.default_value c = PStr s
  | None => True
  end.
Proof.
  intros Hok.
  assert (Hc : c' = c).
  { destruct (check_default_value_total c) as [H | [e H]]; congruence. }
  subst c'. split; [done|].
  destruct (meta c) as [[vs|lo hi|f]|] eqn:Hm; [| | |done].
  - destruct (proj1 (check_default_value_enum c vs Hm) Hok) as (first & Hh & _ & Hin).
    split; [done|]. by destruct (elements vs).
  - destruct (proj1 (check_default_value_range c lo hi Hm) Hok) as (x & Hx & Hlo & Hhi).
    exists x. split; [done|]. split; [done|]. split; [done|].
    by apply (float_le_trans _ x).
  - unfold check_default_value in Hok. rewrite Hm in Hok.
    destruct (Dataformats.default_value c) as [s| | |]; try discriminate. by exists s.
Qed.

Lemma accepted_default_is_admissible_witness :
  float_le (float_of_int 0) (float_of_int 10) = true.
Proof.
  destruct (accepted_default_is_admissible
              {| Dataformats.default_value := PInt 3;
                 meta := Some (SysDefParameterRange (NumInt 0) (NumInt 10));
                 description := None |} _ eq_refl) as [_ (x & _ & _ & _ & H)].
  exact H.
Defined.

(** X25.  A constraint that admits no value refuses every default: an
    enum without values makes the validator fail with [IndexError]
    (which is no validation error) whatever the default is, and a range
    whose lower bound is not below or equal to the upper (the bounds
    the wrong way round, or a bound that is not a number) makes it fail
    with [ValueError] whatever the default is. *)
Theorem empty_constraint_refuses_every_default (c : SysDefCmplxParameter) :
  (∀ vs, meta c = Some (SysDefParameterEnum vs) → elements vs = [] →
         check_default_value c = Raise IndexError) ∧
  (∀ lo hi, meta c = Some (SysDefParameterRange lo hi) →
            float_le (bound lo) (bound hi) = false →
            ∃ msg, check_default_value c = Raise (ValueError msg)).
Proof.
  split.
  - intros vs Hm He. unfold check_default_value. by rewrite Hm, He.
  - intros lo hi Hm Hle. unfold check_default_value. rewrite Hm.
    destruct (isinstance (Dataformats.default_value c) TInt ||
              isinstance (Dataformats.default_value c) TFloat) eqn:En; cbn [negb]; [|eauto].
    apply numeric_as_float in En as [x Ex].
    unfold py_le. rewrite !as_float_Num_prim, Ex. cbn -[float_le].
    destruct (float_le (bound lo) x) eqn:El; cbn -[float_le]; [|eauto].
    destruct (float_le x (bound hi)) eqn:Eu; cbn -[float_le]; [|eauto].
    rewrite (float_le_trans _ _ _ El Eu) in Hle. discriminate.
Qed.

(** ** Resolution against the default configuration (dataformats.py, system.py) *)

Lemma Forall2_elem_l {A B} (P Q : A → B → Prop) (l : list A) (k : list B) :
  Forall2 P l k → (∀ x y, x ∈ l → P x y → Q x y) → Forall2 Q l k.
Proof.
  induction 1 as [|x y l k Hxy Hlk IH]; intros HPQ; constructor.
  - apply HPQ; [apply elem_of_cons; by left | done].
  - apply IH. intros x' y' Hin. apply HPQ. apply elem_of_cons. by right.
Qed.

Lemma dict_get_elem {V} (k : string) (v : V) (d : dict V) :
  NoDup (dict_keys d) → (k, v) ∈ d → dict_get k d = Some v.
Proof.
  unfold dict_keys. induction d as [|[k' v'] r IH]; simpl.
  - by intros _ ?%elem_of_nil.
  - intros [Hk' Hr]%NoDup_cons [[= -> ->] | Hin]%elem_of_cons.
    + by rewrite String.eqb_refl.
    + destruct (String.eqb_spec k k') as [-> | Hne]; [|by apply IH].
      destruct Hk'. apply list_elem_of_fmap. by exists (k', v).
Qed.

Lemma dict_set_fresh {V} (k : string) (v : V) (d : dict V) :
  k ∉ dict_keys d → Documents.dict_set k v d = (d ++ [(k, v)])%list.
Proof.
  unfold dict_keys. induction d as [|[k' v'] r IH]; simpl; [done|].
  intros Hk. apply not_elem_of_cons in Hk as [Hne Hk].
  apply String.eqb_neq in Hne. rewrite Hne. by rewrite IH.
Qed.

Lemma dict_keys_app {V} (a b : dict V) :
  dict_keys (a ++ b)%list = (dict_keys a ++ dict_keys b)%list.
Proof. unfold dict_keys. apply fmap_app. Qed.

Lemma dict_keys_defaults (d : dict Value) : dict_keys (defaults_of d) = dict_keys d.
Proof.
  unfold dict_keys, defaults_of. rewrite <- list_fmap_compose. by apply list_fmap_ext.
Qed.

Lemma default_group_fold (d acc : dict Value) :
  NoDup (dict_keys acc ++ dict_keys d) →
  fold_left
    (fun acc kv =>
       match kv.2 with
       | VCmplx c => Documents.dict_set kv.1 (VPrim (Dataformats.default_value c)) acc
       | v => Documents.dict_set kv.1 v acc
       end) d acc
  = (acc ++ defaults_of d)%list.
Proof.
  revert acc. induction d as [|[k dv] r IH]; intros acc Hnd; simpl.
  - by rewrite app_nil_r.
  - assert (Hk : k ∉ dict_keys acc).
    { apply NoDup_app in Hnd as (_ & Hd & _). intros Hin.
      apply (Hd k Hin). simpl. apply elem_of_cons. by left. }
    assert (Hnd' : ∀ v : Value, NoDup (dict_keys (acc ++ [(k, v)])%list ++ dict_keys r)).
    { intros v. rewrite dict_keys_app. simpl. rewrite <- app_assoc. exact Hnd. }
    destruct dv; rewrite (dict_set_fresh _ _ _ Hk), (IH _ (Hnd' _));
      by rewrite <- app_assoc.
Qed.

Lemma default_group_defaults (d : dict Value) :
  NoDup (dict_keys d) → d ≠ [] →
  Documents.default_group (Some d) = Some (defaults_of d).
Proof.
  intros Hnd Hne. unfold Documents.default_group.
  destruct d as [|kv r]; [done|]. f_equal. by apply (default_group_fold (kv :: r) []).
Qed.

Lemma parse_entries_init (cfg : option (dict Value)) (items : dict Value) :
  ∀ (seen : list string) (ps : list Param),
    parse_entries cfg seen items = Ok ps →
    Forall2 (λ kv p, match override_of cfg kv.1 with
                     | Some v => init kv.1 v kv.2 true = Ok p
                     | None => init kv.1 kv.2 kv.2 false = Ok p
                     end) items ps.
Proof.
  induction items as [|[k dv] r IH]; intros seen ps; simpl.
  - intros [= <-]. constructor.
  - destruct (existsb (String.eqb k) seen); [discriminate|].
    assert (Ho : match cfg with
                 | Some cfg0 =>
                     if dict_has k cfg0 then
                       match dict_get k cfg0 with
                       | Some VNone | None => None
                       | Some v => Some v
                       end
                     else None
                 | None => None
                 end = override_of cfg k).
    { destruct cfg as [c|]; [|done]. simpl.
      destruct (dict_has k c) eqn:E; [done|]. by rewrite (dict_has_get k c E). }
    rewrite Ho.
    destruct (match override_of cfg k with
              | Some param_value => init k param_value dv true
              | None => init k dv dv false
              end) as [p|e] eqn:Ep; simpl; [|discriminate].
    destruct (parse_entries cfg (seen ++ [k]) r) as [rest|e] eqn:Er; simpl; [|discriminate].
    intros [= <-]. constructor; [|by apply (IH _ _ Er)].
    simpl. by destruct (override_of cfg k).
Qed.

Lemma override_of_defaults (d : dict Value) (k : string) (dv : Value) :
  NoDup (dict_keys d) → (k, dv) ∈ d →
  override_of (Some (defaults_of d)) k
  = match dv with VNone => None | _ => Some (definition_default dv) end.
Proof.
  intros Hnd Hin. unfold override_of.
  rewrite (dict_get_elem k (definition_default dv) (defaults_of d)).
  - by destruct dv.
  - by rewrite dict_keys_defaults.
  - unfold defaults_of. apply list_elem_of_fmap. by exists (k, dv).
Qed.

(** X26.  The configuration that [SysCfg.from_sysdef] makes of a
    definition is no neutral element.  A definition group (a [dict], so
    with distinct names) resolves against its own defaults, and against
    no configuration, to parameters of the same names, values and
    defaults; but against its defaults every parameter whose entry is
    not null counts as overwritten, and a file parameter is PENDING with
    its default path as origin and without container path, where
    without configuration it is DEFAULT with the default path as
    container path. *)
Theorem default_configuration_overrides_every_parameter (d : dict Value) :
  NoDup (dict_keys d) →
  ∃ ps ps0,
    parse_parameter_group (Some d) (Documents.default_group (Some d)) = Ok ps ∧
    parse_parameter_group (Some d) None = Ok ps0 ∧
    Forall2 (λ kv p,
               name p = kv.1 ∧ value p = definition_default kv.2 ∧
               default_value p = definition_default kv.2 ∧
               (kv.2 ≠ VNone → overwritten p = true) ∧
               (is_file_entry kv.2 = true →
                  fstate p = Some PENDING ∧
                  origin_of p = Some (definition_default kv.2) ∧
                  container_of p = None)) d ps ∧
    Forall2 (λ kv p,
               name p = kv.1 ∧ value p = definition_default kv.2 ∧
               default_value p = definition_default kv.2 ∧
               overwritten p = false ∧
               (is_file_entry kv.2 = true →
                  fstate p = Some DEFAULT ∧
                  origin_of p = None ∧
                  container_of p = Some (definition_default kv.2))) d ps0.
Proof.
  intros Hnd.
  assert (Hinit : ∀ k dv p,
            match dv with
            | VNone => init k dv dv false = Ok p
            | _ => init k (definition_default dv) dv true = Ok p
            end →
            name p = k ∧ value p = definition_default dv ∧
            default_value p = definition_default dv ∧
            (dv ≠ VNone → overwritten p = true) ∧
            (is_file_entry dv = true →
               fstate p = Some PENDING ∧ origin_of p = Some (definition_default dv) ∧
               container_of p = None)).
  { intros k dv p. destruct dv as [|pr|u|c|items]; simpl;
      try (intros [= <-]; simpl; repeat split; done).
    destruct c as [dflt [[vs|lo hi|[|]]|] ds]; simpl;
      intros [= <-]; simpl; repeat split; done. }
  assert (Hinit0 : ∀ k dv p,
            init k dv dv false = Ok p →
            name p = k ∧ value p = definition_default dv ∧
            default_value p = definition_default dv ∧ overwritten p = false ∧
            (is_file_entry dv = true →
               fstate p = Some DEFAULT ∧ origin_of p = None ∧
               container_of p = Some (definition_default dv))).
  { intros k dv p. destruct dv as [|pr|u|c|items]; simpl;
      try (intros [= <-]; simpl; repeat split; done).
    destruct c as [dflt [[vs|lo hi|[|]]|] ds]; simpl;
      intros [= <-]; simpl; repeat split; done. }
  assert (Hcfg : ∀ cfg,
            (∀ k, k ∈ keys_of cfg → k ∈ dict_keys d) →
            (∀ k dv t, (k, dv) ∈ d →
                       encoded_credential dv (override_of cfg k) = Some t → is_ascii t) →
            ∃ ps, parse_parameter_group (Some d) cfg = Ok ps ∧
                  Forall2 (λ kv p, match override_of cfg kv.1 with
                                   | Some v => init kv.1 v kv.2 true = Ok p
                                   | None => init kv.1 kv.2 kv.2 false = Ok p
                                   end) d ps).
  { intros cfg Hkeys Hcred.
    destruct (parse_entries_ok cfg d [] Hnd Hcred) as (ps & Hps & _).
    exists ps. split; [|by apply (parse_entries_init cfg d [] ps)].
    unfold parse_parameter_group. destruct cfg as [c|]; [|done].
    by rewrite (check_syscfg_names_ok d (dict_keys c) Hkeys). }
  destruct (Hcfg None) as (ps0 & Hps0 & Hall0).
  { by intros k ?%elem_of_nil. }
  { intros k dv t _. by destruct dv. }
  destruct d as [|kv0 r] eqn:Ed.
  { exists [], []. inversion Hall0; subst. repeat split; try done; constructor. }
  rewrite <- Ed in *. assert (Hne : d ≠ []) by (by rewrite Ed).
  rewrite (default_group_defaults d Hnd Hne).
  destruct (Hcfg (Some (defaults_of d))) as (ps & Hps & Hall).
  { intros k. simpl. by rewrite dict_keys_defaults. }
  { intros k dv t Hin. rewrite (override_of_defaults d k dv Hnd Hin).
    by destruct dv as [|pr|u|c|items]. }
  exists ps, ps0. split; [done|]. split; [done|]. split.
  - apply (Forall2_elem_l _ _ _ _ Hall). intros [k dv] p Hin Hp. cbn [fst snd] in Hp |- *.
    rewrite (override_of_defaults d k dv Hnd Hin) in Hp.
    apply Hinit. by destruct dv.
  - apply (Forall2_elem_l _ _ _ _ Hall0). intros [k dv] p _ Hp. cbn [fst snd] in Hp |- *.
    by apply Hinit0.
Qed.

Lemma default_configuration_overrides_every_parameter_witness :
  ∃ p, parse_parameter_group (Some [input_entry])
         (Documents.default_group (Some [input_entry])) = Ok [p] ∧
       fstate p = Some PENDING.
Proof.
  destruct (default_configuration_overrides_every_parameter [input_entry])
    as (ps & ps0 & Hps & _ & Hall & _).
  - apply NoDup_singleton.
  - inversion Hall as [|kv p l l' (_ & _ & _ & _ & Hf) Hrest]; subst.
    inversion Hrest; subst. exists p. split; [exact Hps|]. by apply Hf.
Defined.

(** ** References that the validator of the definition accepts *)

Lemma split_pointer (g : ParameterGroup) (pname : string) :
  no_slash pname →
  split "/" (pointer g pname) = ["#"; ParameterGroup_value g; pname].
Proof.
  intros Hns. unfold pointer.
  destruct g; cbv [ParameterGroup_value String.append]; simpl;
    by rewrite (split_no_slash pname Hns).
Qed.

Lemma ParameterGroup_of_value_value (g : ParameterGroup) :
  ParameterGroup_of_value (ParameterGroup_value g) = Ok g.
Proof. by destruct g. Qed.

Lemma find_parameter_resolved (k : string) (dv : Value) (d : dict Value) (ps : list Param) :
  Forall2 (λ kv p, init kv.1 kv.2 kv.2 false = Ok p) d ps →
  dict_get k d = Some dv →
  ∃ p, find_parameter k ps = Some p ∧ init k dv dv false = Ok p.
Proof.
  induction 1 as [|[k' dv'] p' d ps Hp' _ IH]; simpl; [discriminate|].
  destruct (init_not_overwritten k' dv') as (q & Hq & Hn & _).
  simpl in Hp'. assert (q = p') as -> by congruence.
  destruct (String.eqb_spec k k') as [-> | Hne].
  - intros [= <-]. exists p'. rewrite Hn, String.eqb_refl. done.
  - intros Hget. rewrite Hn.
    destruct (String.eqb_spec k' k) as [E | _]; [by destruct Hne|].
    by apply IH.
Qed.

Lemma check_enabler_pointer (sysdef : Documents.SysDef) (g : ParameterGroup)
    (pname : string) :
  no_slash pname →
  Documents.check_enabler sysdef (pointer g pname)
  = match Documents.group_of sysdef g with
    | None => Raise TypeError
    | Some parameters =>
        if negb (dict_has pname parameters)
        then Raise (ValueError ("Enabling parameter name does not exist: '" ++
                                pointer g pname ++ "'"))
        else
          match dict_get pname parameters with
          | Some (VPrim (PBool _)) => Ok ()
          | _ => Raise (ValueError ("Enabling parameter must be of type bool: '" ++
                                    pointer g pname ++ "'"))
          end
    end.
Proof.
  intros Hns. unfold Documents.check_enabler.
  assert (Hstart : startswith "#/" (pointer g pname) = true) by (by destruct g).
  rewrite Hstart, (split_pointer g pname Hns). cbn [negb nth_error].
  unfold mbind, result_bind. by rewrite ParameterGroup_of_value_value.
Qed.

(** X27.  A reference of three segments that the validator of the
    definition accepts can be read at every query.  When
    [SysDef.check_result_enabled_by] passes the reference
    [#/<group>/<name>], the definition holds a boolean under that name in
    that group (a plain boolean: a complex parameter with a boolean
    default is refused), and in the session of the definition without
    configuration, in whatever state, the reference resolves to the
    parameter of that name with that boolean as value, so that the turn
    of [get_result_availability] on it returns a verdict and does not
    raise. *)
Theorem accepted_pointer_resolves (sysdef : Documents.SysDef) (g : ParameterGroup)
    (pname name0 : string) (st : State) :
  no_slash pname →
  NoDup (keys_of (Documents.group_of sysdef g)) →
  Documents.check_enabler sysdef (pointer g pname) = Ok () →
  ∃ d b p,
    Documents.group_of sysdef g = Some d ∧
    dict_get pname d = Some (VBool b) ∧
    resolves (session_of sysdef st) (pointer g pname) g p ∧
    value p = VBool b ∧
    check_enable_entry (session_of sysdef st) name0 (pointer g pname)
    = Ok (entry_verdict (session_of sysdef st) name0 g p).
Proof.
  intros Hns Hnd. rewrite (check_enabler_pointer sysdef g pname Hns).
  destruct (Documents.group_of sysdef g) as [d|] eqn:Eg; [|discriminate].
  destruct (dict_has pname d); cbn [negb]; [|discriminate].
  destruct (dict_get pname d) as [[|[s|b|z|f]|u|c|items]|] eqn:Eget; try discriminate.
  intros _. simpl in Hnd.
  destruct (parse_entries_ok None d [] Hnd) as (ps & Hps & _).
  { intros k dv t _. by destruct dv. }
  pose proof (parse_entries_init None d [] ps Hps) as Hinit. simpl in Hinit.
  destruct (find_parameter_resolved pname (VBool b) d ps Hinit Eget) as (p & Hfind & Hp).
  injection Hp as <-.
  assert (Hres : resolves (session_of sysdef st) (pointer g pname) g
                   {| name := pname; value := VBool b; overwritten := false;
                      meta_data := None; file_data := None; default_value := VBool b |}).
  { exists pname. split; [done|]. split; [done|].
    unfold get_parameter, session_of. cbn [system data].
    assert (Hgroup : parameters
                       {| common_parameters :=
                            match parse_parameter_group (Documents.group_of sysdef COMMON) None with
                            | Ok ps0 => ps0 | Raise _ => [] end;
                          build_parameters :=
                            match parse_parameter_group (Documents.group_of sysdef BUILD) None with
                            | Ok ps0 => ps0 | Raise _ => [] end;
                          run_parameters :=
                            match parse_parameter_group (Documents.group_of sysdef RUN) None with
                            | Ok ps0 => ps0 | Raise _ => [] end;
                          results := default [] (Documents.results sysdef) |} g = ps).
    { destruct g; cbn [parameters common_parameters build_parameters run_parameters];
        rewrite Eg; unfold parse_parameter_group; cbn [mbind]; simpl; by rewrite Hps. }
    by rewrite Hgroup. }
  eexists d, b, _. split; [done|]. split; [done|]. split; [exact Hres|]. split; [done|].
  by apply check_enable_entry_resolved.
Qed.

Lemma accepted_pointer_resolves_witness :
  check_enable_entry (session_of long_pointer_sysdef BUILT) "trace.vcd"
    "#/build_parameters/tracing" = Ok None.
Proof.
  destruct (accepted_pointer_resolves long_pointer_sysdef BUILD "tracing" "trace.vcd" BUILT)
    as (d & b & p & Hd & Hb & _ & Hv & Hc).
  - reflexivity.
  - apply NoDup_singleton.
  - reflexivity.
  - injection Hd as <-. injection Hb as <-.
    change (pointer BUILD "tracing") with "#/build_parameters/tracing" in Hc.
    rewrite Hc. unfold entry_verdict. rewrite Hv. reflexivity.
Defined.
